(** * Abstract-to-title summarizer notebook: a shallow embedding

    The repository is one Jupyter notebook
    (abstract-summarizer/abstract-to-title-summarizer.ipynb) and a README.
    The notebook reads the first lines of an arXiv metadata snapshot
    (one JSON object per line), builds a pandas DataFrame with the
    columns id, title and abstract, turns it into a Hugging Face dataset,
    tokenizes it for T5, fine-tunes the model with Keras and scores it with
    ROUGE-L.

    This file embeds the notebook's own code cell by cell.  Python
    strings are sequences of Unicode code points, Python objects are an
    inductive type, exceptions are the left summand of a sum type, and
    the notebook's effects (os.environ, the file system, the calls it
    makes into its libraries) are threaded through an explicit state.
    Functions of the Python standard library and of pandas whose
    behaviour the notebook relies on are written out from their
    documentation; the tokenizer, the model, the shuffles and the ROUGE
    scorer are left as the fields of a [Library] record. *)

From Stdlib Require Import ZArith NArith QArith Qround Lia List Ascii String Bool Permutation.
From stdpp Require Import base option list gmap.
Import ListNotations.
Local Open Scope Z_scope.
Set Warnings "-register-all".

(** ** Python strings *)

(** A Python [str] is a sequence of code points. *)
Abbreviation pystr := (list N).

Definition chr (a : ascii) : N := N_of_ascii a.

(** [u "abc"] is the Python string literal 'abc'. *)
Definition u (s : string) : pystr := List.map chr (list_ascii_of_string s).

(** JSON text for examples, written with ' where JSON has its double
    quote (code point 34). *)
Definition jtext (s : string) : pystr :=
  List.map (fun c => if N.eqb c (chr "'") then 34%N else c) (u s).

(** Code points [str.isspace] accepts, hence the ones [str.strip]
    removes: the ASCII white space 9-13, 28-31 and 32, and the Unicode
    white space beyond ASCII. *)
Definition py_isspace (c : N) : bool :=
  ((9 <=? c) && (c <=? 13) || (28 <=? c) && (c <=? 32)
   || (c =? 133) || (c =? 160) || (c =? 5760)
   || (8192 <=? c) && (c <=? 8202)
   || (c =? 8232) || (c =? 8233) || (c =? 8239) || (c =? 8287)
   || (c =? 12288))%N.

Fixpoint lstrip (s : pystr) : pystr :=
  match s with
  | c :: r => if py_isspace c then lstrip r else s
  | [] => []
  end.

Definition rstrip (s : pystr) : pystr := rev (lstrip (rev s)).

(** [line.strip()] *)
Definition strip (s : pystr) : pystr := rstrip (lstrip s).

(** [str.startswith] *)
Fixpoint startswith (s p : pystr) : bool :=
  match p, s with
  | [], _ => true
  | _ :: _, [] => false
  | a :: p', b :: s' => N.eqb a b && startswith s' p'
  end.

(** Text-mode iteration over a file opened with the default
    [newline=None]: the text is cut after each line end; "\r\n" and a lone
    "\r" are both delivered as "\n"; a last line without a line end is
    delivered as it is. *)
Fixpoint readlines_from (cur : pystr) (s : pystr) : list pystr :=
  match s with
  | [] => match cur with [] => [] | _ => [rev cur] end
  | c :: r =>
    if N.eqb c 10 then rev (10%N :: cur) :: readlines_from [] r
    else if N.eqb c 13 then
      match r with
      | d :: r' =>
        if N.eqb d 10 then rev (10%N :: cur) :: readlines_from [] r'
        else rev (10%N :: cur) :: readlines_from [] r
      | [] => [rev (10%N :: cur)]
      end
    else readlines_from (c :: cur) r
  end.

Definition readlines (text : pystr) : list pystr := readlines_from [] text.

(** ** Python objects, as far as [json.loads] produces them *)

(** Floats are never computed with by the notebook before they reach a
    library, so a finite float is kept as the text of its literal. *)
Inductive pyval :=
| PyNone
| PyBool (b : bool)
| PyInt (z : Z)
| PyFloat (literal : pystr)
| PyNaN
| PyInf (negative : bool)
| PyStr (s : pystr)
| PyList (items : list pyval)
| PyDict (items : list (pystr * pyval)).

(** Python's [dict]: insertion ordered, a key assigned again keeps its
    place and takes the new value. *)
Fixpoint dict_set (d : list (pystr * pyval)) (k : pystr) (v : pyval)
  : list (pystr * pyval) :=
  match d with
  | [] => [(k, v)]
  | (k', v') :: r =>
    if decide (k' = k) then (k, v) :: r else (k', v') :: dict_set r k v
  end.

Fixpoint dict_get (d : list (pystr * pyval)) (k : pystr) : option pyval :=
  match d with
  | [] => None
  | (k', v) :: r => if decide (k' = k) then Some v else dict_get r k
  end.

Definition dict_keys (d : list (pystr * pyval)) : list pystr := List.map fst d.

(** ** [json.loads]

    The decoder of CPython's [json] module for a [str] argument with the
    default options (strict strings, no hooks). *)
Module Json.

Inductive parsed (A : Type) :=
| Parsed (a : A) (rest : pystr)
| Malformed
| OutOfFuel.
Arguments Parsed {A} a rest.
Arguments Malformed {A}.
Arguments OutOfFuel {A}.

(** WHITESPACE = [ \t\n\r]* *)
Definition is_ws (c : N) : bool :=
  ((c =? 32) || (c =? 9) || (c =? 10) || (c =? 13))%N.

Fixpoint skip_ws (s : pystr) : pystr :=
  match s with
  | c :: r => if is_ws c then skip_ws r else s
  | [] => []
  end.

Definition is_digit (c : N) : bool := ((48 <=? c) && (c <=? 57))%N.

Fixpoint span_digits (s : pystr) : pystr * pystr :=
  match s with
  | c :: r =>
    if is_digit c then let '(ds, r') := span_digits r in (c :: ds, r')
    else ([], s)
  | [] => ([], [])
  end.

Definition hex_digit (c : N) : option N :=
  (if (48 <=? c) && (c <=? 57) then Some (c - 48)
   else if (97 <=? c) && (c <=? 102) then Some (c - 87)
   else if (65 <=? c) && (c <=? 70) then Some (c - 55)
   else None)%N.

Definition hex4 (a b c d : N) : option N :=
  match hex_digit a, hex_digit b, hex_digit c, hex_digit d with
  | Some x, Some y, Some z, Some w => Some (((x * 16 + y) * 16 + z) * 16 + w)%N
  | _, _, _, _ => None
  end.

(** BACKSLASH: the one-character escapes. *)
Definition simple_escape (c : N) : option N :=
  (if c =? 34 then Some 34
   else if c =? 92 then Some 92
   else if c =? 47 then Some 47
   else if c =? 98 then Some 8
   else if c =? 102 then Some 12
   else if c =? 110 then Some 10
   else if c =? 114 then Some 13
   else if c =? 116 then Some 9
   else None)%N.

Definition is_high_surrogate (c : N) : bool := ((55296 <=? c) && (c <=? 56319))%N.
Definition is_low_surrogate (c : N) : bool := ((56320 <=? c) && (c <=? 57343))%N.
Definition join_surrogates (hi lo : N) : N :=
  (65536 + ((hi - 55296) * 1024 + (lo - 56320)))%N.

(** scanstring, entered after the opening quote: the decoded string and
    the text after the closing quote.  A control character below 32 is
    refused (strict mode). *)
Fixpoint scanstring (s : pystr) (acc : pystr) : option (pystr * pystr) :=
  match s with
  | [] => None
  | c :: r =>
    if N.eqb c 34 then Some (rev acc, r)
    else if N.eqb c 92 then
      match r with
      | [] => None
      | e :: r1 =>
        if N.eqb e 117 then
          match r1 with
          | h1 :: h2 :: h3 :: h4 :: r2 =>
            match hex4 h1 h2 h3 h4 with
            | None => None
            | Some cp =>
              match r2 with
              | b :: v :: g1 :: g2 :: g3 :: g4 :: r3 =>
                if is_high_surrogate cp && N.eqb b 92 && N.eqb v 117 then
                  match hex4 g1 g2 g3 g4 with
                  | None => None
                  | Some cp2 =>
                    if is_low_surrogate cp2
                    then scanstring r3 (join_surrogates cp cp2 :: acc)
                    else scanstring r2 (cp :: acc)
                  end
                else scanstring r2 (cp :: acc)
              | _ => scanstring r2 (cp :: acc)
              end
            end
          | _ => None
          end
        else
          match simple_escape e with
          | Some x => scanstring r1 (x :: acc)
          | None => None
          end
      end
    else if (c <=? 31)%N then None
    else scanstring r (c :: acc)
  end.

Fixpoint digits_value (ds : pystr) (acc : Z) : Z :=
  match ds with
  | [] => acc
  | d :: r => digits_value r (acc * 10 + (Z.of_N d - 48))
  end.

(** [int(text)] refuses more than 4300 digits (Python 3.11). *)
Definition max_str_digits : nat := 4300.

(** The number matcher: an optional minus sign; then 0, or a digit from
    1 to 9 followed by any digits; then an optional fraction, a dot
    followed by at least one digit; then an optional exponent, e or E, an
    optional sign and at least one digit.  An exponent without digits is
    given back to the text that follows the number. *)
Definition match_number (s : pystr) : option (pyval * pystr) :=
  let '(neg, s1) :=
    match s with
    | c :: r => if N.eqb c 45 then (true, r) else (false, s)
    | [] => (false, s)
    end in
  match s1 with
  | [] => None
  | c :: r =>
    let int_part :=
      if N.eqb c 48 then Some ([c], r)
      else if is_digit c then
        let '(ds, r') := span_digits r in Some (c :: ds, r')
      else None in
    match int_part with
    | None => None
    | Some (ids, r1) =>
      let '(frac, r2) :=
        match r1 with
        | dot :: d :: r' =>
          if N.eqb dot 46 && is_digit d then
            let '(ds, r'') := span_digits r' in (dot :: d :: ds, r'')
          else ([], r1)
        | _ => ([], r1)
        end in
      let '(expo, r3) :=
        match r2 with
        | e :: r' =>
          if N.eqb e 101 || N.eqb e 69 then
            let '(sign, r'') :=
              match r' with
              | sg :: r'' =>
                if N.eqb sg 45 || N.eqb sg 43 then ([sg], r'') else ([], r')
              | [] => ([], r')
              end in
            match span_digits r'' with
            | ([], _) => ([], r2)
            | (ds, r''') => (e :: sign ++ ds, r''')
            end
          else ([], r2)
        | [] => ([], r2)
        end in
      match frac, expo with
      | [], [] =>
        if Nat.leb (length ids) max_str_digits then
          let v := digits_value ids 0 in
          Some (PyInt (if neg then - v else v), r3)
        else None
      | _, _ =>
        Some (PyFloat ((if neg then [45%N] else []) ++ ids ++ frac ++ expo), r3)
      end
    end
  end.

(** scan_once with its two loops.  [fuel] bounds the number of nested
    calls; [loads] below hands over enough of it. *)
Fixpoint scan_once (fuel : nat) (s : pystr) {struct fuel} : parsed pyval :=
  match fuel with
  | O => OutOfFuel
  | S f =>
    match s with
    | [] => Malformed
    | c :: r =>
      if N.eqb c 34 then
        match scanstring r [] with
        | Some (str, r') => Parsed (PyStr str) r'
        | None => Malformed
        end
      else if N.eqb c 123 then
        match skip_ws r with
        | c' :: r' =>
          if N.eqb c' 125 then Parsed (PyDict []) r'
          else object_items f (c' :: r') []
        | [] => Malformed
        end
      else if N.eqb c 91 then
        match skip_ws r with
        | c' :: r' =>
          if N.eqb c' 93 then Parsed (PyList []) r'
          else array_items f (c' :: r') []
        | [] => Malformed
        end
      else if startswith s (u "null") then Parsed PyNone (drop 4 s)
      else if startswith s (u "true") then Parsed (PyBool true) (drop 4 s)
      else if startswith s (u "false") then Parsed (PyBool false) (drop 5 s)
      else if startswith s (u "NaN") then Parsed PyNaN (drop 3 s)
      else if startswith s (u "Infinity") then Parsed (PyInf false) (drop 8 s)
      else if startswith s (u "-Infinity") then Parsed (PyInf true) (drop 9 s)
      else
        match match_number s with
        | Some (v, r') => Parsed v r'
        | None => Malformed
        end
    end
  end

(** The loop of JSONArray; [s] starts at a value. *)
with array_items (fuel : nat) (s : pystr) (acc : list pyval) {struct fuel}
  : parsed pyval :=
  match fuel with
  | O => OutOfFuel
  | S f =>
    match scan_once f s with
    | Parsed v r =>
      match skip_ws r with
      | c :: r' =>
        if N.eqb c 93 then Parsed (PyList (rev (v :: acc))) r'
        else if N.eqb c 44 then array_items f (skip_ws r') (v :: acc)
        else Malformed
      | [] => Malformed
      end
    | Malformed => Malformed
    | OutOfFuel => OutOfFuel
    end
  end

(** The loop of JSONObject; [s] starts where a key's quote must be. *)
with object_items (fuel : nat) (s : pystr) (acc : list (pystr * pyval))
  {struct fuel} : parsed pyval :=
  match fuel with
  | O => OutOfFuel
  | S f =>
    match s with
    | q :: r =>
      if N.eqb q 34 then
        match scanstring r [] with
        | None => Malformed
        | Some (key, r1) =>
          match skip_ws r1 with
          | colon :: r2 =>
            if N.eqb colon 58 then
              match scan_once f (skip_ws r2) with
              | Parsed v r3 =>
                let acc' := dict_set acc key v in
                match skip_ws r3 with
                | c :: r4 =>
                  if N.eqb c 125 then Parsed (PyDict acc') r4
                  else if N.eqb c 44 then object_items f (skip_ws r4) acc'
                  else Malformed
                | [] => Malformed
                end
              | Malformed => Malformed
              | OutOfFuel => OutOfFuel
              end
            else Malformed
          | [] => Malformed
          end
        end
      else Malformed
    | [] => Malformed
    end
  end.

Definition fuel_for (s : pystr) : nat := 2 * length s + 2.

(** [json.loads(s)]: [None] stands for the exception it raises
    (json.JSONDecodeError, a ValueError).  A leading byte order mark is
    refused, white space around the one value is skipped, anything after
    it is "Extra data". *)
Definition loads (s : pystr) : option pyval :=
  if startswith s [65279%N] then None
  else
    match scan_once (fuel_for s) (skip_ws s) with
    | Parsed v r => match skip_ws r with [] => Some v | _ => None end
    | _ => None
    end.

End Json.


(** ** Exceptions and results *)

(** The exceptions the notebook's cells can end with.  [PandasError] is
    explained at [DataFrame_of]; [LibraryError] is for whatever a call
    into the training libraries may raise. *)
Inductive exn :=
| FileNotFoundError
| JSONDecodeError
| KeyError
| PandasError
| TypeError
| IndexError
| ValueError
| LibraryError.

Inductive result (A : Type) :=
| Ok (a : A)
| Raise (e : exn).
Arguments Ok {A} a.
Arguments Raise {A} e.

Definition rbind {A B} (m : result A) (k : A -> result B) : result B :=
  match m with
  | Ok a => k a
  | Raise e => Raise e
  end.

Notation "'try' x <- m ; k" := (rbind m (fun x => k))
  (at level 10, x name, m at level 100, k at level 200, only parsing).

(** ** pandas *)

Module Pandas.

(** A frame: column labels, row labels and the cells row by row. *)
Record DataFrame := {
  columns : list pystr;
  index : list Z;
  rows : list (list pyval);
}.

Definition is_dict (v : pyval) : bool :=
  match v with PyDict _ => true | _ => false end.

Definition keys_of (v : pyval) : list pystr :=
  match v with PyDict d => dict_keys d | _ => [] end.

Definition mem (k : pystr) (l : list pystr) : bool :=
  existsb (fun k' => bool_decide (k' = k)) l.

(** The union of the records' keys in the order of first appearance. *)
Fixpoint unique_keys (seen : list pystr) (ks : list pystr) : list pystr :=
  match ks with
  | [] => seen
  | k :: r => if mem k seen then unique_keys seen r else unique_keys (seen ++ [k]) r
  end.

(** A cell: the record's value under the column, NaN where it has none. *)
Definition cell (v : pyval) (c : pystr) : pyval :=
  match v with
  | PyDict d => match dict_get d c with Some x => x | None => PyNaN end
  | _ => PyNaN
  end.

Definition range (n : nat) : list Z := List.map Z.of_nat (seq 0 n).

(** [pd.DataFrame(records)] for a list of decoded JSON values.  A list of
    dicts gives one row per dict and one column per key.  An empty list
    gives the empty frame.  Anything else makes pandas raise: a record
    without [keys()] after a first dict is an AttributeError, and when the
    first record is no dict the columns are labelled by position, so
    that the selection by name that follows is a KeyError; both are
    [PandasError] here.  Cells keep the decoded values: the dtype that
    pandas gives a column (an integer column with a missing value
    becomes a float column) is not modelled. *)
Definition DataFrame_of (records : list pyval) : result DataFrame :=
  if forallb is_dict records then
    let cols := unique_keys [] (concat (List.map keys_of records)) in
    Ok {| columns := cols;
          index := range (length records);
          rows := List.map (fun r => List.map (cell r) cols) records |}
  else Raise PandasError.

Fixpoint position (c : pystr) (cols : list pystr) : option nat :=
  match cols with
  | [] => None
  | c' :: r => if decide (c' = c) then Some O
               else match position c r with Some n => Some (S n) | None => None end
  end.

Fixpoint positions (labels cols : list pystr) : option (list nat) :=
  match labels with
  | [] => Some []
  | l :: r =>
    match position l cols, positions r cols with
    | Some p, Some ps => Some (p :: ps)
    | _, _ => None
    end
  end.

(** [df.loc[:, labels]]: the listed columns in the listed order; a label
    that is no column is a KeyError. *)
Definition loc_columns (df : DataFrame) (labels : list pystr) : result DataFrame :=
  match positions labels (columns df) with
  | Some ps =>
    Ok {| columns := labels;
          index := index df;
          rows := List.map (fun row => List.map (fun p => nth p row PyNaN) ps) (rows df) |}
  | None => Raise KeyError
  end.

(** [pd.isna] on a cell: None and NaN. *)
Definition isna (v : pyval) : bool :=
  match v with PyNone | PyNaN => true | _ => false end.

Definition complete (row : list pyval) : bool := forallb (fun v => negb (isna v)) row.

(** [df.dropna()]: the rows without a missing value, under their labels. *)
Definition dropna (df : DataFrame) : DataFrame :=
  let kept := List.filter (fun ir => complete (snd ir)) (combine (index df) (rows df)) in
  {| columns := columns df;
     index := List.map fst kept;
     rows := List.map snd kept |}.

(** [df.reset_index(drop=True)] *)
Definition reset_index (df : DataFrame) : DataFrame :=
  {| columns := columns df;
     index := range (length (rows df));
     rows := rows df |}.

Definition len (df : DataFrame) : Z := Z.of_nat (length (rows df)).

End Pandas.
Import Pandas.

(** ** The data-loading cell (f8a3484e) *)

(** N = 200_000 (the name N is taken by the binary naturals) *)
Definition N_records : Z := 200000.

(** [not line.strip()] *)
Definition blank (line : pystr) : bool :=
  match strip line with [] => true | _ => false end.

(** The loop over [enumerate(f)], with the counter [i] and the list
    [records] it appends to.  The limit is the cell's N. *)
Fixpoint read_loop (limit : Z) (i : Z) (lines : list pystr) (records : list pyval)
  : result (list pyval) :=
  match lines with
  | [] => Ok records
  | line :: rest =>
    if i >=? limit then Ok records
    else if blank line then read_loop limit (i + 1) rest records
    else
      match Json.loads line with
      | Some v => read_loop limit (i + 1) rest (records ++ [v])
      | None => Raise JSONDecodeError
      end
  end.

Definition read_records (lines : list pystr) : result (list pyval) :=
  read_loop N_records 0 lines [].

Definition wanted_columns : list pystr := [u "id"; u "title"; u "abstract"].

(** df = pd.DataFrame(records).loc[:, [...]].dropna().reset_index(drop=True) *)
Definition build_frame (records : list pyval) : result DataFrame :=
  try frame <- DataFrame_of records;
  try sel <- loc_columns frame wanted_columns;
  Ok (reset_index (dropna sel)).

(** The whole cell on the text of the snapshot file. *)
Definition load_cell (text : pystr) : result DataFrame :=
  try records <- read_records (readlines text);
  build_frame records.

(** A file made of the given lines, each ended by a line feed. *)
Definition file_of_lines (ls : list pystr) : pystr :=
  concat (List.map (fun l => l ++ [10%N]) ls).


(** ** The constants cell (f861fabf) *)

(** The notebook's global constants.  The two that are written as decimal
    fractions are kept as rationals. *)
Record Config := {
  TRAIN_TEST_SPLIT : Q;
  MAX_INPUT_LENGTH : Z;
  MAX_TARGET_LENGTH : Z;
  MIN_TARGET_LENGTH : Z;
  BATCH_SIZE : Z;
  LEARNING_RATE : Q;
  MAX_EPOCHS : Z;
  MODEL_CHECKPOINT : pystr;
}.

Definition notebook_config : Config := {|
  TRAIN_TEST_SPLIT := 1 # 10;
  MAX_INPUT_LENGTH := 384;
  MAX_TARGET_LENGTH := 48;
  MIN_TARGET_LENGTH := 5;
  BATCH_SIZE := 8;
  LEARNING_RATE := 1 # 1000;
  MAX_EPOCHS := 1;
  MODEL_CHECKPOINT := u "t5-small";
|}.

(** ** Hugging Face datasets *)

Module Datasets.

(** A dataset is columnar: named columns, all of one length. *)
Abbreviation Dataset := (list (pystr * list pyval)).

Definition column_names (ds : Dataset) : list pystr := List.map fst ds.

Fixpoint column (ds : Dataset) (name : pystr) : option (list pyval) :=
  match ds with
  | [] => None
  | (c, vs) :: r => if decide (c = name) then Some vs else column r name
  end.

Definition num_rows (ds : Dataset) : nat :=
  match ds with
  | [] => O
  | (_, vs) :: _ => length vs
  end.

(** [examples[name]] on a batch, a KeyError when there is no such column. *)
Definition getitem (ds : Dataset) (name : pystr) : result (list pyval) :=
  match column ds name with
  | Some vs => Ok vs
  | None => Raise KeyError
  end.

(** [Dataset.from_pandas(df)]: the frame's columns (its row labels
    0..n-1 are not kept).  Arrow's typing of the columns is not modelled;
    a text cell that is no string is refused later, by the tokenizer. *)
Definition from_pandas (df : DataFrame) : Dataset :=
  List.map (fun jc => (snd jc, List.map (fun row => nth (fst jc) row PyNone) (rows df)))
           (combine (seq 0 (length (columns df))) (columns df)).

(** [ds.rename_column(old, new)] *)
Definition rename_column (ds : Dataset) (old new : pystr) : result Dataset :=
  if negb (mem old (column_names ds)) then Raise ValueError
  else if mem new (column_names ds) then Raise ValueError
  else Ok (List.map (fun cv => if decide (fst cv = old) then (new, snd cv) else cv) ds).

(** The rows at the given positions, in that order. *)
Definition take_rows (idxs : list nat) (ds : Dataset) : Dataset :=
  List.map (fun cv => (fst cv, List.map (fun i => nth i (snd cv) PyNone) idxs)) ds.

(** [ds.select(range(n))]: an IndexError when the dataset is shorter. *)
Definition select_range (n : nat) (ds : Dataset) : result Dataset :=
  if Nat.leb n (num_rows ds) then Ok (take_rows (seq 0 n) ds)
  else Raise IndexError.

(** [ds.shuffle(seed=seed)], given the permutation that numpy's generator
    draws for this seed and length. *)
Definition shuffle (permutation : Z -> nat -> list nat) (seed : Z) (ds : Dataset) : Dataset :=
  take_rows (permutation seed (num_rows ds)) ds.

(** [ds.train_test_split(test_size=test_size, seed=seed)] for a fractional
    test size: the test split takes the first ceil(test_size * n) rows of
    the permutation, the train split the others; a test size outside
    (0, 1) or an empty train split is a ValueError.  The result is the
    pair (train, test).  The product is taken over the rationals; the
    library takes it in floating point, which may round it up by one
    row. *)
Definition train_test_split (permutation : Z -> nat -> list nat)
    (test_size : Q) (seed : Z) (ds : Dataset) : result (Dataset * Dataset) :=
  if negb (Qle_bool test_size 0) && negb (Qle_bool 1 test_size) then
    let n := num_rows ds in
    let n_test := Z.to_nat (Qceiling (test_size * inject_Z (Z.of_nat n))) in
    let n_train := (n - n_test)%nat in
    if Nat.eqb n_train 0 then Raise ValueError
    else
      let p := permutation seed n in
      Ok (take_rows (take n_train (drop n_test p)) ds, take_rows (take n_test p) ds)
  else Raise ValueError.

(** Consecutive pieces of [k] elements, the last one shorter. *)
Fixpoint chunks_fuel {A} (fuel : nat) (k : nat) (l : list A) : list (list A) :=
  match fuel with
  | O => []
  | S f =>
    match l with
    | [] => []
    | _ :: _ => take k l :: chunks_fuel f k (drop k l)
    end
  end.

Definition chunks {A} (k : nat) (l : list A) : list (list A) :=
  chunks_fuel (length l) k l.

(** The batches [map(batched=True)] hands to its function: piece number
    b of every column, for b = 0, 1, ... *)
Definition batches (k : nat) (ds : Dataset) : list Dataset :=
  List.map (fun b => List.map (fun cv => (fst cv, nth b (chunks k (snd cv)) [])) ds)
           (seq 0 (length (chunks k (seq 0 (num_rows ds))))).

Fixpoint map_result {A B} (f : A -> result B) (l : list A) : result (list B) :=
  match l with
  | [] => Ok []
  | a :: r =>
    try b <- f a;
    try bs <- map_result f r;
    Ok (b :: bs)
  end.

(** One processed batch: the kept input columns, then the columns the
    function returned (a returned column replaces a kept one of its name). *)
Definition merge_batch (remove_columns : list pystr) (batch out : Dataset) : Dataset :=
  List.filter (fun cv => negb (mem (fst cv) remove_columns) && negb (mem (fst cv) (column_names out))) batch
  ++ out.

(** Batches put back one under the other, column by column. *)
Definition concat_batches (bs : list Dataset) : Dataset :=
  match bs with
  | [] => []
  | b :: _ =>
    List.map (fun c => (c, concat (List.map (fun b' => match column b' c with Some vs => vs | None => [] end) bs)))
             (column_names b)
  end.

(** The default [batch_size] of [map]. *)
Definition map_batch_size : nat := 1000.

(** [ds.map(function, batched=True, remove_columns=remove_columns)]; on
    a dataset without rows the function is not called. *)
Definition map_batched (function : Dataset -> result Dataset)
    (remove_columns : list pystr) (ds : Dataset) : result Dataset :=
  if Nat.eqb (num_rows ds) 0 then
    Ok (List.filter (fun cv => negb (mem (fst cv) remove_columns)) ds)
  else
    try outs <- map_result
                  (fun b => try out <- function b; Ok (merge_batch remove_columns b out))
                  (batches map_batch_size ds);
    Ok (concat_batches outs).

End Datasets.
Import Datasets.

(** ** The tokenizer *)

(** What the notebook uses of the tokenizer it loads.  [encode text n] are
    the ids of [text] cut to at most [n] of them ([truncation=True,
    max_length=n]); [encode_target] is the same for [text_target=];
    [decode skip ids] is [decode(ids, skip_special_tokens=skip)]. *)
Record Tokenizer := {
  vocab_size : Z;
  pad_token_id : Z;
  encode : pystr -> Z -> list Z;
  encode_target : pystr -> Z -> list Z;
  decode : bool -> list Z -> pystr;
  encode_length : forall text n, 0 <= n -> Z.of_nat (length (encode text n)) <= n;
  encode_target_length :
    forall text n, 0 <= n -> Z.of_nat (length (encode_target text n)) <= n;
}.

(** [padding="max_length"]: pad ids to the right up to [n]. *)
Definition pad_to (n : Z) (pad : Z) (ids : list Z) : list Z :=
  ids ++ repeat pad (Z.to_nat n - length ids).

Definition mask_for (n : Z) (ids : list Z) : list Z :=
  repeat 1 (length ids) ++ repeat 0 (Z.to_nat n - length ids).

(** The two columns a tokenizer call returns. *)
Record BatchEncoding := {
  enc_input_ids : list (list Z);
  enc_attention_mask : list (list Z);
}.

(** [tokenizer(texts, max_length=n, truncation=True, padding="max_length")]
    with [enc] the encoder in use; a text that is no [str] is refused. *)
Definition tokenizer_call (tok : Tokenizer) (enc : pystr -> Z -> list Z)
    (texts : list pyval) (n : Z) : result BatchEncoding :=
  try strs <- map_result (fun v => match v with PyStr s => Ok s | _ => Raise ValueError end) texts;
  Ok {| enc_input_ids := List.map (fun s => pad_to n (pad_token_id tok) (enc s n)) strs;
        enc_attention_mask := List.map (fun s => mask_for n (enc s n)) strs |}.

(** Token ids as a dataset cell, and back. *)
Definition ids_cell (ids : list Z) : pyval := PyList (List.map PyInt ids).

Definition cell_ids (v : pyval) : list Z :=
  match v with
  | PyList l => List.map (fun x => match x with PyInt z => z | _ => 0 end) l
  | _ => []
  end.

(** ** The prefix cell (ca1c60d8) *)

Definition prefix (cfg : Config) : pystr :=
  if startswith (MODEL_CHECKPOINT cfg) (u "t5-") then u "summarize: " else u "".

(** ** preprocess_function (cell 0a20ef81) *)

(** [prefix + txt]: a TypeError unless [txt] is a [str]. *)
Definition add_prefix (cfg : Config) (txt : pyval) : result pyval :=
  match txt with
  | PyStr s => Ok (PyStr (prefix cfg ++ s))
  | _ => Raise TypeError
  end.

Definition preprocess_function (tok : Tokenizer) (cfg : Config) (examples : Dataset)
  : result Dataset :=
  try texts <- getitem examples (u "input_text");
  try inputs <- map_result (add_prefix cfg) texts;
  try model_inputs <- tokenizer_call tok (encode tok) inputs (MAX_INPUT_LENGTH cfg);
  try targets <- getitem examples (u "target_text");
  try labels <- tokenizer_call tok (encode_target tok) targets (MAX_TARGET_LENGTH cfg);
  Ok [ (u "input_ids", List.map ids_cell (enc_input_ids model_inputs));
       (u "attention_mask", List.map ids_cell (enc_attention_mask model_inputs));
       (u "labels", List.map ids_cell (enc_input_ids labels)) ].

(** ** tf.data datasets *)

(** A batch as [to_tf_dataset] yields it: the two input columns and the
    label column. *)
Record Batch := {
  input_ids : list (list Z);
  attention_mask : list (list Z);
  labels : list (list Z);
}.

Definition make_batch (ii am lb : list pyval) : Batch :=
  {| input_ids := List.map cell_ids ii;
     attention_mask := List.map cell_ids am;
     labels := List.map cell_ids lb |}.

(** [ds.to_tf_dataset(columns=["input_ids", "attention_mask"],
    label_cols=["labels"], shuffle=..., batch_size=..., collate_fn=...)]:
    the rows, in the order [order] puts them, in batches of [batch_size].
    The rows all have the padded lengths already, so the collator pads
    nothing. *)
Definition to_tf_dataset (order : nat -> list nat) (batch_size : Z) (ds : Dataset)
  : result (list Batch) :=
  try ii <- getitem ds (u "input_ids");
  try am <- getitem ds (u "attention_mask");
  try lb <- getitem ds (u "labels");
  if batch_size <=? 0 then Raise ValueError
  else
    let idxs := order (num_rows ds) in
    let pick (vs : list pyval) := List.map (fun i => nth i vs PyNone) idxs in
    let k := Z.to_nat batch_size in
    Ok (List.map (fun b => make_batch (nth b (chunks k (pick ii)) [])
                                     (nth b (chunks k (pick am)) [])
                                     (nth b (chunks k (pick lb)) []))
                 (seq 0 (length (chunks k idxs)))).

(** [shuffle=False] *)
Definition in_order (n : nat) : list nat := seq 0 n.

(** ** numpy, as far as metric_fn uses it *)

Module Numpy.

(** [a.astype(np.int64)] on integers: reduction to the signed 64-bit range. *)
Definition astype_int64 (x : Z) : Z :=
  (x + 2 ^ 63) mod 2 ^ 64 - 2 ^ 63.

(** [np.clip(a, lo, hi)] is minimum(maximum(a, lo), hi). *)
Definition clip (a : list (list Z)) (lo hi : Z) : list (list Z) :=
  List.map (List.map (fun x => Z.min (Z.max x lo) hi)) a.

(** [np.where(a < 0, v, a)] *)
Definition where_negative (a : list (list Z)) (v : Z) : list (list Z) :=
  List.map (List.map (fun x => if x <? 0 then v else x)) a.

End Numpy.

(** ** The metric cell (d66aaa61) *)

(** What a call of the RougeL metric object returns. *)
Record RougeScores (Score : Type) := {
  precision : Score;
  recall : Score;
  f1_score : Score;
}.
Arguments precision {Score} _.
Arguments recall {Score} _.
Arguments f1_score {Score} _.

(** [tokenizer.batch_decode(ids, skip_special_tokens=skip)] *)
Definition batch_decode (tok : Tokenizer) (ids : list (list Z)) (skip : bool) : list pystr :=
  List.map (decode tok skip) ids.

(** The arrays metric_fn hands to batch_decode. *)
Definition clipped_preds (tok : Tokenizer) (preds : list (list Z)) : list (list Z) :=
  Numpy.clip (List.map (List.map Numpy.astype_int64) preds) 0 (vocab_size tok - 1).

Definition filled_labels (tok : Tokenizer) (labels : list (list Z)) : list (list Z) :=
  Numpy.where_negative labels (pad_token_id tok).

Section Metric.
(** The metric object [rouge_l]: a state of type [Rouge] and its call
    [rouge_l(y_true, y_pred)], which updates the state and returns the
    scores. *)
Context {Score Rouge : Type}.
Variable rouge_call : Rouge -> list pystr -> list pystr -> Rouge * RougeScores Score.

(** metric_fn returns the dict {"RougeL": ...}, here its one entry, and
    leaves the metric object in its new state. *)
Definition metric_fn (tok : Tokenizer) (rouge_l : Rouge)
    (eval_predictions : list (list Z) * list (list Z))
  : Rouge * list (pystr * Score) :=
  let '(preds, labels) := eval_predictions in
  let preds := clipped_preds tok preds in
  let decoded_preds := batch_decode tok preds true in
  let labels := filled_labels tok labels in
  let decoded_labels := batch_decode tok labels true in
  let '(rouge_l', res) := rouge_call rouge_l decoded_labels decoded_preds in
  (rouge_l', [(u "RougeL", f1_score res)]).
End Metric.


(** ** The libraries the notebook calls into

    What the notebook cannot compute by itself: the random permutations
    of numpy and tf.data, the checkpoint, training, generation, the ROUGE
    scorer and the inference pipeline.  The two permutation fields come
    with the one fact about them that the notebook relies on. *)
Record Library := {
  Model : Type;
  Score : Type;
  Rouge : Type;
  Pipeline : Type;
  (** np.random.default_rng(seed).permutation(n) *)
  permutation : Z -> nat -> list nat;
  permutation_spec : forall seed n, Permutation (permutation seed n) (seq 0 n);
  (** the order in which a shuffled tf.data dataset delivers n rows *)
  tf_order : nat -> list nat;
  tf_order_spec : forall n, Permutation (tf_order n) (seq 0 n);
  (** transformers *)
  AutoTokenizer_from_pretrained : pystr -> result Tokenizer;
  TFAutoModelForSeq2SeqLM_from_pretrained : pystr -> result Model;
  generate : Model -> Batch -> result (list (list Z));
  pipeline : pystr -> Model -> Tokenizer -> pystr -> result Pipeline;
  (** Keras: compile with an optimizer name; one epoch of [steps]
      training steps, giving the trained model and its loss; the loss on
      the first [steps] validation batches *)
  compile : Model -> pystr -> Model;
  train_epoch : Model -> list Batch -> Z -> Z -> result (Model * Score);
  validate : Model -> list Batch -> Z -> result Score;
  (** keras_hub.metrics.RougeL() and the call of the object it returns *)
  RougeL : Rouge;
  rouge_call : Rouge -> list pystr -> list pystr -> Rouge * RougeScores Score;
}.

(** ** KerasMetricCallback and model.fit *)

Notation "'try' ' pat <- m ; k" :=
  (rbind m (fun x => match x with pat => k end))
  (at level 10, pat pattern, m at level 100, k at level 200, only parsing).

(** Rows of unequal length are padded to the longest with [padding_index]
    before they are stacked. *)
Definition pad_rows (padding_index : Z) (rs : list (list Z)) : list (list Z) :=
  let m := fold_right Nat.max O (List.map (@length Z) rs) in
  List.map (fun r => r ++ repeat padding_index (m - length r)) rs.

(** What the callbacks add to the logs of an epoch. *)
Record EpochLogs (Score : Type) := {
  loss : Score;
  val_loss : Score;
  metric_logs : list (pystr * Score);
}.
Arguments loss {Score} _.
Arguments val_loss {Score} _.
Arguments metric_logs {Score} _.

Section Training.
Variable lib : Library.
Variable tokenizer : Tokenizer.

(** KerasMetricCallback(metric_fn, eval_dataset=..., predict_with_generate=True)
    at the end of an epoch: generate for every batch of the evaluation
    dataset, stack predictions and labels (padding index -100) and call
    metric_fn on the pair. *)
Definition metric_callback (eval_dataset : list Batch) (model : Model lib)
    (rouge_l : Rouge lib) : result (Rouge lib * list (pystr * Score lib)) :=
  try prediction_list <- map_result (generate lib model) eval_dataset;
  let all_preds := pad_rows (-100) (concat prediction_list) in
  let all_labels := pad_rows (-100) (concat (List.map labels eval_dataset)) in
  Ok (metric_fn (rouge_call lib) tokenizer rouge_l (all_preds, all_labels)).

(** The epochs of model.fit: train, then validate, then the callback. *)
Fixpoint fit_epochs (todo : nat) (epoch : Z) (model : Model lib) (rouge_l : Rouge lib)
    (train_dataset validation_data : list Batch) (steps_per_epoch validation_steps : Z)
    (eval_dataset : list Batch) (history : list (EpochLogs (Score lib)))
  : result (Model lib * Rouge lib * list (EpochLogs (Score lib))) :=
  match todo with
  | O => Ok (model, rouge_l, history)
  | S todo' =>
    try ' (model1, l) <- train_epoch lib model train_dataset epoch steps_per_epoch;
    try vl <- validate lib model1 validation_data validation_steps;
    try ' (rouge1, m) <- metric_callback eval_dataset model1 rouge_l;
    fit_epochs todo' (epoch + 1) model1 rouge1 train_dataset validation_data
               steps_per_epoch validation_steps eval_dataset
               (history ++ [{| loss := l; val_loss := vl; metric_logs := m |}])
  end.

(** model.fit(train_dataset, validation_data=..., epochs=...,
    steps_per_epoch=..., validation_steps=..., callbacks=[metric_callback]) *)
Definition fit (model : Model lib) (rouge_l : Rouge lib)
    (train_dataset validation_data : list Batch)
    (epochs steps_per_epoch validation_steps : Z) (eval_dataset : list Batch)
  : result (Model lib * Rouge lib * list (EpochLogs (Score lib))) :=
  fit_epochs (Z.to_nat epochs) 0 model rouge_l train_dataset validation_data
             steps_per_epoch validation_steps eval_dataset [].
End Training.

(** ** The notebook as a program *)

(** The statements of the notebook that act on the world or call into a
    library, as they are recorded when executed. *)
Inductive stmt :=
| s_setLevel
| s_environ_set (key value : pystr)
| s_open (path mode encoding : pystr)
| s_DataFrame
| s_print_loaded (n : Z)
| s_from_pandas
| s_rename_column (old new : pystr)
| s_train_test_split (test_size : Q) (seed : Z)
| s_AutoTokenizer_from_pretrained (checkpoint : pystr)
| s_TFAutoModelForSeq2SeqLM_from_pretrained (checkpoint : pystr)
| s_DataCollatorForSeq2Seq
| s_map (remove_columns : list pystr)
| s_to_tf_dataset (target : pystr) (shuffle : bool) (batch_size : Z)
| s_compile (optimizer : pystr)
| s_RougeL
| s_KerasMetricCallback (predict_with_generate : bool)
| s_fit (epochs steps_per_epoch validation_steps : Z)
| s_pipeline (task framework : pystr).

(** The world the notebook runs in, and the statements executed so far. *)
Record NbState := {
  environ : gmap pystr pystr;
  files : gmap pystr pystr;
  executed : list stmt;
}.

(** A piece of the notebook: from a state to the state it leaves and
    either a value or the exception that stopped it. *)
Definition NB (A : Type) : Type := NbState -> NbState * result A.

Definition nb_ret {A} (a : A) : NB A := fun st => (st, Ok a).

Definition nb_bind {A B} (m : NB A) (k : A -> NB B) : NB B :=
  fun st =>
    match m st with
    | (st', Ok a) => k a st'
    | (st', Raise e) => (st', Raise e)
    end.

Notation "'do' x <- m ; k" := (nb_bind m (fun x => k))
  (at level 10, x name, m at level 100, k at level 200, only parsing).
Notation "'do' ' pat <- m ; k" :=
  (nb_bind m (fun x => match x with pat => k end))
  (at level 10, pat pattern, m at level 100, k at level 200, only parsing).

Definition record (s : stmt) (st : NbState) : NbState :=
  {| environ := environ st; files := files st; executed := executed st ++ [s] |}.

(** A statement that is a library call: it is recorded, then it gives its
    value or raises. *)
Definition call {A} (s : stmt) (r : result A) : NB A :=
  fun st => (record s st, r).

(** A computation of the notebook's own, inside a recorded statement. *)
Definition lift {A} (r : result A) : NB A := fun st => (st, r).

(** os.environ[key] = value *)
Definition environ_set (key value : pystr) : NB unit :=
  fun st =>
    ({| environ := <[key := value]> (environ st);
        files := files st;
        executed := executed st ++ [s_environ_set key value] |}, Ok tt).

(** open(path, "r", encoding=...) and reading the text: a
    FileNotFoundError when there is no such file. *)
Definition open_read (path encoding : pystr) : NB pystr :=
  fun st =>
    (record (s_open path (u "r") encoding) st,
     match files st !! path with
     | Some text => Ok text
     | None => Raise FileNotFoundError
     end).

Definition snapshot_path : pystr := u "arxiv-metadata-oai-snapshot.json".

(** What the notebook has bound when it ends. *)
Record Outcome (lib : Library) := {
  out_df : DataFrame;
  out_splits : Dataset * Dataset;
  out_tokenizer : Tokenizer;
  out_tokenized_splits : Dataset * Dataset;
  out_train_dataset : list Batch;
  out_test_dataset : list Batch;
  out_generation_dataset : list Batch;
  out_model : Model lib;
  out_rouge_l : Rouge lib;
  out_history : list (EpochLogs (Score lib));
  out_summarizer : Pipeline lib;
}.
Arguments out_df {lib} _.
Arguments out_splits {lib} _.
Arguments out_tokenizer {lib} _.
Arguments out_tokenized_splits {lib} _.
Arguments out_train_dataset {lib} _.
Arguments out_test_dataset {lib} _.
Arguments out_generation_dataset {lib} _.
Arguments out_model {lib} _.
Arguments out_rouge_l {lib} _.
Arguments out_history {lib} _.
Arguments out_summarizer {lib} _.

Section Notebook.
Variable lib : Library.
Variable cfg : Config.

(** Cell 42c30f47, after its imports. *)
Definition cell_42c30f47 : NB unit :=
  do _ <- call s_setLevel (Ok tt);
  environ_set (u "TOKENIZERS_PARALLELISM") (u "false").

(** Cell f8a3484e: the with-block and its loop, the frame, the print. *)
Definition cell_f8a3484e : NB DataFrame :=
  do text <- open_read snapshot_path (u "utf-8");
  do records <- lift (read_records (readlines text));
  do df <- call s_DataFrame (build_frame records);
  do _ <- call (s_print_loaded (len df)) (Ok tt);
  nb_ret df.

(** Cell 18ad6853: the dataset, its two renamed columns, the split. *)
Definition cell_18ad6853 (df : DataFrame) : NB (Dataset * Dataset) :=
  do ds <- call s_from_pandas (Ok (from_pandas df));
  do ds <- call (s_rename_column (u "abstract") (u "input_text"))
                (rename_column ds (u "abstract") (u "input_text"));
  do ds <- call (s_rename_column (u "title") (u "target_text"))
                (rename_column ds (u "title") (u "target_text"));
  call (s_train_test_split (TRAIN_TEST_SPLIT cfg) 42)
       (train_test_split (permutation lib) (TRAIN_TEST_SPLIT cfg) 42 ds).

(** Cell 5a52a572: tokenizer, model, collator. *)
Definition cell_5a52a572 : NB (Tokenizer * Model lib) :=
  do tokenizer <- call (s_AutoTokenizer_from_pretrained (MODEL_CHECKPOINT cfg))
                       (AutoTokenizer_from_pretrained lib (MODEL_CHECKPOINT cfg));
  do model <- call (s_TFAutoModelForSeq2SeqLM_from_pretrained (MODEL_CHECKPOINT cfg))
                   (TFAutoModelForSeq2SeqLM_from_pretrained lib (MODEL_CHECKPOINT cfg));
  do _ <- call s_DataCollatorForSeq2Seq (Ok tt);
  nb_ret (tokenizer, model).

Definition removed_columns : list pystr := [u "id"; u "input_text"; u "target_text"].

(** Cell 00e60b01: splits.map(...), the train split first. *)
Definition cell_00e60b01 (tokenizer : Tokenizer) (splits : Dataset * Dataset)
  : NB (Dataset * Dataset) :=
  call (s_map removed_columns)
       (try train <- map_batched (preprocess_function tokenizer cfg) removed_columns (fst splits);
        try test <- map_batched (preprocess_function tokenizer cfg) removed_columns (snd splits);
        Ok (train, test)).

(** Cell b6510686: the three tf.data datasets. *)
Definition cell_b6510686 (tokenized_splits : Dataset * Dataset)
  : NB (list Batch * list Batch * list Batch) :=
  do train_dataset <-
    call (s_to_tf_dataset (u "train_dataset") true (BATCH_SIZE cfg))
         (to_tf_dataset (tf_order lib) (BATCH_SIZE cfg) (fst tokenized_splits));
  do test_dataset <-
    call (s_to_tf_dataset (u "test_dataset") false (BATCH_SIZE cfg))
         (to_tf_dataset in_order (BATCH_SIZE cfg) (snd tokenized_splits));
  do generation_dataset <-
    call (s_to_tf_dataset (u "generation_dataset") false (BATCH_SIZE cfg))
         (try sel <- select_range 200 (shuffle (permutation lib) 42 (snd tokenized_splits));
          to_tf_dataset in_order (BATCH_SIZE cfg) sel);
  nb_ret (train_dataset, test_dataset, generation_dataset).

(** Cell f9d0e222 *)
Definition cell_f9d0e222 (model : Model lib) : NB (Model lib) :=
  call (s_compile (u "adam")) (Ok (compile lib model (u "adam"))).

(** Cell d66aaa61: the metric object (metric_fn is defined above). *)
Definition cell_d66aaa61 : NB (Rouge lib) :=
  call s_RougeL (Ok (RougeL lib)).

(** Cell c44c8f54 *)
Definition cell_c44c8f54 : NB unit :=
  call (s_KerasMetricCallback true) (Ok tt).

(** Cell af828bf3 *)
Definition cell_af828bf3 (tokenizer : Tokenizer) (model : Model lib) (rouge_l : Rouge lib)
    (train_dataset test_dataset generation_dataset : list Batch)
  : NB (Model lib * Rouge lib * list (EpochLogs (Score lib))) :=
  call (s_fit 3 500 50)
       (fit lib tokenizer model rouge_l train_dataset test_dataset 3 500 50
            generation_dataset).

(** Cell 5cc2cfd9 *)
Definition cell_5cc2cfd9 (tokenizer : Tokenizer) (model : Model lib) : NB (Pipeline lib) :=
  call (s_pipeline (u "summarization") (u "tf"))
       (pipeline lib (u "summarization") model tokenizer (u "tf")).

(** The notebook, run from top to bottom. *)
Definition notebook : NB (Outcome lib) :=
  do _ <- cell_42c30f47;
  do df <- cell_f8a3484e;
  do splits <- cell_18ad6853 df;
  do ' (tokenizer, model) <- cell_5a52a572;
  do tokenized_splits <- cell_00e60b01 tokenizer splits;
  do ' (train_dataset, test_dataset, generation_dataset) <- cell_b6510686 tokenized_splits;
  do model <- cell_f9d0e222 model;
  do rouge_l <- cell_d66aaa61;
  do _ <- cell_c44c8f54;
  do ' (model, rouge_l, history) <-
    cell_af828bf3 tokenizer model rouge_l train_dataset test_dataset generation_dataset;
  do summarizer <- cell_5cc2cfd9 tokenizer model;
  nb_ret {| out_df := df;
            out_splits := splits;
            out_tokenizer := tokenizer;
            out_tokenized_splits := tokenized_splits;
            out_train_dataset := train_dataset;
            out_test_dataset := test_dataset;
            out_generation_dataset := generation_dataset;
            out_model := model;
            out_rouge_l := rouge_l;
            out_history := history;
            out_summarizer := summarizer |}.
End Notebook.

(** A run of the notebook in a fresh kernel. *)
Definition initial_state (env fs : gmap pystr pystr) : NbState :=
  {| environ := env; files := fs; executed := [] |}.

Definition run (lib : Library) (cfg : Config) (env fs : gmap pystr pystr)
  : NbState * result (Outcome lib) :=
  notebook lib cfg (initial_state env fs).

(** ** Vocabulary of the statements

    Definitions that the properties below are stated with: what the
    loading loop is expected to compute, the records and datasets of
    the tokenization theorem, the script as a list of statements and its
    stages, and small inputs on which the definitions are run. *)

(** The lines the loop looks at and does not skip: the non-blank ones
    among the first [limit] lines. *)
Definition nonblank_head (limit : Z) (lines : list pystr) : list pystr :=
  List.filter (fun l => negb (blank l)) (take (Z.to_nat limit) lines).

(** Decoding a list of lines, line by line; [None] when one does not decode. *)
Fixpoint parse_lines (ls : list pystr) : option (list pyval) :=
  match ls with
  | [] => Some []
  | l :: r =>
    match Json.loads l with
    | Some v =>
      match parse_lines r with
      | Some vs => Some (v :: vs)
      | None => None
      end
    | None => None
    end
  end.

(** The row of the final frame a record stands for. *)
Definition row_of (r : pyval) : list pyval := List.map (cell r) wanted_columns.


(** Five lines: a full record with a field more, a blank line, a record
    with a null title, a record without id, a full record. *)
Definition sample_lines : list pystr :=
  [ jtext "{'id': '0704.0001', 'title': 'T1', 'abstract': 'A1', 'doi': null}";
    u "   ";
    jtext "{'id': '0704.0002', 'title': null, 'abstract': 'A2'}";
    jtext "{'title': 'T3', 'abstract': 'A3'}";
    jtext "{'id': '0704.0004', 'title': 'T4', 'abstract': 'A4'}" ].

Definition sample_file : pystr := file_of_lines sample_lines.

Definition sample_df : DataFrame :=
  {| columns := [u "id"; u "title"; u "abstract"];
     index := [0; 1];
     rows := [ [PyStr (u "0704.0001"); PyStr (u "T1"); PyStr (u "A1")];
               [PyStr (u "0704.0004"); PyStr (u "T4"); PyStr (u "A4")] ] |}.

(** A full record followed by a line that is no JSON. *)
Definition malformed_file : pystr :=
  file_of_lines
    [ jtext "{'id': '0704.0001', 'title': 'T1', 'abstract': 'A1'}";
      jtext "{not json" ].

(** Records none of which has an abstract. *)
Definition no_abstract_file : pystr :=
  file_of_lines
    [ jtext "{'id': '0704.0001', 'title': 'T1'}";
      jtext "{'id': '0704.0002', 'title': 'T2'}" ].



(** An id the tokenizer's vocabulary has. *)
Definition in_vocabulary (tok : Tokenizer) (id : Z) : Prop :=
  0 <= id <= vocab_size tok - 1.

(** A record with a title and an abstract that are strings. *)
Record text_record := {
  rec_id : pyval;
  rec_title : pystr;
  rec_abstract : pystr;
}.

(** The frame of such records, as the loading cell leaves it. *)
Definition frame_of (recs : list text_record) : DataFrame :=
  {| columns := [u "id"; u "title"; u "abstract"];
     index := range (length recs);
     rows := List.map (fun r => [rec_id r; PyStr (rec_title r); PyStr (rec_abstract r)]) recs |}.

(** The dataset of such records after the two renamings. *)
Definition dataset_of (recs : list text_record) : Dataset :=
  [ (u "id", List.map rec_id recs);
    (u "target_text", List.map (fun r => PyStr (rec_title r)) recs);
    (u "input_text", List.map (fun r => PyStr (rec_abstract r)) recs) ].

(** What tokenization is to make of them. *)
Definition tokenized_of (tok : Tokenizer) (cfg : Config) (recs : list text_record) : Dataset :=
  [ (u "input_ids",
     List.map (fun r => ids_cell (pad_to (MAX_INPUT_LENGTH cfg) (pad_token_id tok)
                 (encode tok (prefix cfg ++ rec_abstract r) (MAX_INPUT_LENGTH cfg)))) recs);
    (u "attention_mask",
     List.map (fun r => ids_cell (mask_for (MAX_INPUT_LENGTH cfg)
                 (encode tok (prefix cfg ++ rec_abstract r) (MAX_INPUT_LENGTH cfg)))) recs);
    (u "labels",
     List.map (fun r => ids_cell (pad_to (MAX_TARGET_LENGTH cfg) (pad_token_id tok)
                 (encode_target tok (rec_title r) (MAX_TARGET_LENGTH cfg)))) recs) ].

(** The records at the given row positions. *)
Definition select_records (recs : list text_record) (idxs : list nat) : list text_record :=
  flat_map (fun i => match nth_error recs i with Some r => [r] | None => [] end) idxs.


(** A snapshot of 2,000 full records, enough for a test split of 200. *)
Definition example_snapshot : pystr :=
  file_of_lines (repeat (jtext "{'id': '0704.0001', 'title': 'T1', 'abstract': 'A1'}") 2000).

Definition example_files : gmap pystr pystr := {[ snapshot_path := example_snapshot ]}.

(** The notebook's constants with shorter token sequences, to keep the
    example small. *)
Definition small_config : Config := {|
  TRAIN_TEST_SPLIT := 1 # 10;
  MAX_INPUT_LENGTH := 16;
  MAX_TARGET_LENGTH := 4;
  MIN_TARGET_LENGTH := 5;
  BATCH_SIZE := 8;
  LEARNING_RATE := 1 # 1000;
  MAX_EPOCHS := 1;
  MODEL_CHECKPOINT := u "t5-small";
|}.

Definition is_Ok {A} (r : result A) : bool :=
  match r with Ok _ => true | Raise _ => false end.

(** The statements of the notebook in the order of its text; [n] is the
    number the print statement shows. *)
Definition script (cfg : Config) (n : Z) : list stmt :=
  [ s_setLevel;
    s_environ_set (u "TOKENIZERS_PARALLELISM") (u "false");
    s_open snapshot_path (u "r") (u "utf-8");
    s_DataFrame;
    s_print_loaded n;
    s_from_pandas;
    s_rename_column (u "abstract") (u "input_text");
    s_rename_column (u "title") (u "target_text");
    s_train_test_split (TRAIN_TEST_SPLIT cfg) 42;
    s_AutoTokenizer_from_pretrained (MODEL_CHECKPOINT cfg);
    s_TFAutoModelForSeq2SeqLM_from_pretrained (MODEL_CHECKPOINT cfg);
    s_DataCollatorForSeq2Seq;
    s_map [u "id"; u "input_text"; u "target_text"];
    s_to_tf_dataset (u "train_dataset") true (BATCH_SIZE cfg);
    s_to_tf_dataset (u "test_dataset") false (BATCH_SIZE cfg);
    s_to_tf_dataset (u "generation_dataset") false (BATCH_SIZE cfg);
    s_compile (u "adam");
    s_RougeL;
    s_KerasMetricCallback true;
    s_fit 3 500 50;
    s_pipeline (u "summarization") (u "tf") ].

(** The rows the generation dataset is made of: the first 200 positions
    of the seed-42 permutation of the test split. *)
Definition generation_rows (lib : Library) (test : Dataset) : list nat :=
  take 200 (permutation lib 42 (num_rows test)).

(** Row [j] of a column of token ids. *)
Definition example_at (ds : Dataset) (c : pystr) (j : nat) : list Z :=
  match column ds c with
  | Some col => cell_ids (nth j col PyNone)
  | None => []
  end.










(** A result of the scanner, with [w] added to the text it leaves. *)
Definition snoc_rest {A} (w : N) (p : Json.parsed A) : Json.parsed A :=
  match p with
  | Json.Parsed v r => Json.Parsed v (r ++ [w])
  | Json.Malformed => Json.Malformed
  | Json.OutOfFuel => Json.OutOfFuel
  end.

(** The stages of the number matcher: sign, integer part, fraction,
    exponent, and the value made of them. *)
Definition number_sign (s : pystr) : bool * pystr :=
  match s with
  | c :: r => if N.eqb c 45 then (true, r) else (false, s)
  | [] => (false, s)
  end.

Definition number_integer (s1 : pystr) : option (pystr * pystr) :=
  match s1 with
  | [] => None
  | c :: r =>
    if N.eqb c 48 then Some ([c], r)
    else if Json.is_digit c then
      let '(ds, r') := Json.span_digits r in Some (c :: ds, r')
    else None
  end.

Definition number_fraction (r1 : pystr) : pystr * pystr :=
  match r1 with
  | dot :: d :: r' =>
    if N.eqb dot 46 && Json.is_digit d then
      let '(ds, r'') := Json.span_digits r' in (dot :: d :: ds, r'')
    else ([], r1)
  | _ => ([], r1)
  end.

Definition number_exponent (r2 : pystr) : pystr * pystr :=
  match r2 with
  | e :: r' =>
    if N.eqb e 101 || N.eqb e 69 then
      let '(sign, r'') :=
        match r' with
        | sg :: r'' =>
          if N.eqb sg 45 || N.eqb sg 43 then ([sg], r'') else ([], r')
        | [] => ([], r')
        end in
      match Json.span_digits r'' with
      | ([], _) => ([], r2)
      | (ds, r''') => (e :: sign ++ ds, r''')
      end
    else ([], r2)
  | [] => ([], r2)
  end.

Definition number_value (neg : bool) (ids frac expo r3 : pystr) : option (pyval * pystr) :=
  match frac, expo with
  | [], [] =>
    if Nat.leb (length ids) Json.max_str_digits then
      let v := Json.digits_value ids 0 in
      Some (PyInt (if neg then - v else v), r3)
    else None
  | _, _ =>
    Some (PyFloat ((if neg then [45%N] else []) ++ ids ++ frac ++ expo), r3)
  end.

(** A line's text holds neither a line feed nor a carriage return. *)
Definition free_of_line_ends (l : pystr) : bool :=
  forallb (fun c => negb (N.eqb c 10) && negb (N.eqb c 13)) l.

(** The lines, each followed by the line end [e]. *)
Definition file_with_line_ends (e : pystr) (ls : list pystr) : pystr :=
  concat (List.map (fun l => l ++ e) ls).


(** [isinstance(v, str)] *)
Definition is_str (v : pyval) : bool :=
  match v with PyStr _ => true | _ => false end.

(** The text of a string cell. *)
Definition str_of (v : pyval) : pystr :=
  match v with PyStr s => s | _ => [] end.

(** The tokenized columns of a batch of strings. *)
Definition tokenized_columns (tok : Tokenizer) (cfg : Config) (texts targets : list pyval)
  : Dataset :=
  [ (u "input_ids",
     List.map (fun v => ids_cell (pad_to (MAX_INPUT_LENGTH cfg) (pad_token_id tok)
                 (encode tok (prefix cfg ++ str_of v) (MAX_INPUT_LENGTH cfg)))) texts);
    (u "attention_mask",
     List.map (fun v => ids_cell (mask_for (MAX_INPUT_LENGTH cfg)
                 (encode tok (prefix cfg ++ str_of v) (MAX_INPUT_LENGTH cfg)))) texts);
    (u "labels",
     List.map (fun v => ids_cell (pad_to (MAX_TARGET_LENGTH cfg) (pad_token_id tok)
                 (encode_target tok (str_of v) (MAX_TARGET_LENGTH cfg)))) targets) ].

(** The dataset after the two renamings: its three columns. *)
Definition three_columns (a b c : list pyval) : Dataset :=
  [(u "id", a); (u "target_text", b); (u "input_text", c)].

(** The record in a row of the frame. *)
Definition rec_of_row (row : list pyval) : text_record :=
  {| rec_id := nth 0 row PyNone;
     rec_title := str_of (nth 1 row PyNone);
     rec_abstract := str_of (nth 2 row PyNone) |}.

(** ** An example tokenizer and an example library *)

(** A tokenizer for examples, with the vocabulary size (32100) and the
    pad id (0) of the t5-small tokenizer: a text becomes the code points
    of its characters followed by the end-of-sequence id 1. *)
Definition example_encode (text : pystr) (n : Z) : list Z :=
  take (Z.to_nat n) (List.map Z.of_N text ++ [1]).

Lemma example_encode_length text n :
  0 <= n -> Z.of_nat (length (example_encode text n)) <= n.
Proof.
  intros H. unfold example_encode.
  pose proof (firstn_le_length (Z.to_nat n) (List.map Z.of_N text ++ [1])). lia.
Qed.

Definition example_tokenizer : Tokenizer := {|
  vocab_size := 32100;
  pad_token_id := 0;
  encode := example_encode;
  encode_target := example_encode;
  decode := fun skip ids =>
    List.map Z.to_N (List.filter (fun id => negb skip || (1 <? id)) ids);
  encode_length := example_encode_length;
  encode_target_length := example_encode_length;
|}.

(** A library for examples: the permutations reverse, training counts
    its steps, generation answers every input by its first three ids,
    and the ROUGE object counts the pairs it was given, scoring a call by
    the number of predictions that equal their reference. *)
Definition example_permutation (seed : Z) (n : nat) : list nat := rev (seq 0 n).

Lemma example_permutation_spec seed n :
  Permutation (example_permutation seed n) (seq 0 n).
Proof. apply Permutation_sym, Permutation_rev. Qed.

Lemma in_order_spec n : Permutation (in_order n) (seq 0 n).
Proof. apply Permutation_refl. Qed.

Definition example_rouge_call (seen : Z) (y_true y_pred : list pystr)
  : Z * RougeScores Z :=
  let hits :=
    Z.of_nat (length (List.filter (fun tp => bool_decide (fst tp = snd tp))
                                  (combine y_true y_pred))) in
  (seen + Z.of_nat (length y_true),
   {| precision := hits; recall := hits; f1_score := hits |}).

Definition example_library : Library := {|
  Model := Z;
  Score := Z;
  Rouge := Z;
  Pipeline := Z;
  permutation := example_permutation;
  permutation_spec := example_permutation_spec;
  tf_order := in_order;
  tf_order_spec := in_order_spec;
  AutoTokenizer_from_pretrained := fun _ => Ok example_tokenizer;
  TFAutoModelForSeq2SeqLM_from_pretrained := fun _ => Ok 0;
  generate := fun _ b => Ok (List.map (take 3) (input_ids b));
  pipeline := fun _ model _ _ => Ok model;
  compile := fun model _ => model;
  train_epoch := fun model _ _ steps => Ok (model + steps, 0);
  validate := fun _ _ _ => Ok 0;
  RougeL := 0;
  rouge_call := example_rouge_call;
|}.

(** ** Properties *)

(** *** json.loads is given fuel enough *)

Module JsonFacts.
Import Json.

Lemma skip_ws_length s : (length (skip_ws s) <= length s)%nat.
Proof.
  induction s as [|c r IH]; simpl; [lia|].
  destruct (is_ws c); simpl; lia.
Qed.

Lemma scanstring_length n : forall s acc k r,
  (length s <= n)%nat -> scanstring s acc = Some (k, r) -> (length r < length s)%nat.
Proof.
  induction n as [|n IH]; intros s acc k r Hn H.
  - destruct s; [discriminate | simpl in Hn; lia].
  - destruct s as [|c s1]; [discriminate|].
    cbn [scanstring] in H. cbn [length] in *.
    destruct (N.eqb c 34); [injection H as _ <-; lia|].
    destruct (N.eqb c 92).
    + destruct s1 as [|e s2]; [discriminate|]. cbn [length] in *.
      destruct (N.eqb e 117).
      * destruct s2 as [|h1 [|h2 [|h3 [|h4 s3]]]]; try discriminate.
        cbn [length] in *.
        destruct (hex4 h1 h2 h3 h4) as [cp|]; [|discriminate].
        assert (Hplain : forall a, scanstring s3 a = Some (k, r) ->
                                   (length r < S (S (S (S (S (S (length s3)))))))%nat).
        { intros a Ha. apply IH in Ha; lia. }
        destruct s3 as [|b [|v [|g1 [|g2 [|g3 [|g4 s4]]]]]]; eauto.
        destruct (is_high_surrogate cp && N.eqb b 92 && N.eqb v 117); eauto.
        destruct (hex4 g1 g2 g3 g4) as [cp2|]; [|discriminate].
        destruct (is_low_surrogate cp2); eauto.
        apply IH in H; cbn [length] in *; lia.
      * destruct (simple_escape e); [|discriminate].
        apply IH in H; lia.
    + destruct (c <=? 31)%N; [discriminate|].
      apply IH in H; lia.
Qed.

Lemma span_digits_length s : forall ds r,
  span_digits s = (ds, r) -> (length r <= length s)%nat.
Proof.
  induction s as [|c s IH]; intros ds r H; simpl in H.
  - injection H as _ <-. simpl. lia.
  - destruct (is_digit c).
    + destruct (span_digits s) as [ds' r'] eqn:E. injection H as _ <-.
      specialize (IH _ _ eq_refl). simpl. lia.
    + injection H as _ <-. simpl. lia.
Qed.

Lemma match_number_length s v r :
  match_number s = Some (v, r) -> (length r < length s)%nat.
Proof.
  unfold match_number. intros H.
  destruct (match s with
            | [] => (false, s)
            | c :: r0 => if N.eqb c 45 then (true, r0) else (false, s)
            end) as [neg s1] eqn:E1.
  assert (H1 : (length s1 <= length s)%nat).
  { destruct s as [|c r0]; [injection E1 as _ <-; lia|].
    destruct (N.eqb c 45); injection E1 as _ <-; simpl; lia. }
  destruct s1 as [|c r0]; [discriminate|]. cbn [length] in H1.
  destruct (if N.eqb c 48 then Some ([c], r0)
            else if is_digit c
                 then let '(ds, r') := span_digits r0 in Some (c :: ds, r')
                 else None) as [[ids r1]|] eqn:E2; [|discriminate].
  assert (H2 : (length r1 <= length r0)%nat).
  { destruct (N.eqb c 48); [injection E2 as _ <-; lia|].
    destruct (is_digit c); [|discriminate].
    destruct (span_digits r0) as [ds r'] eqn:E. injection E2 as _ <-.
    eapply span_digits_length, E. }
  destruct (match r1 with
            | dot :: d :: r' =>
              if N.eqb dot 46 && is_digit d
              then let '(ds, r'') := span_digits r' in (dot :: d :: ds, r'')
              else ([], r1)
            | _ => ([], r1)
            end) as [frac r2] eqn:E3.
  assert (H3 : (length r2 <= length r1)%nat).
  { destruct r1 as [|dot [|d r']]; try (injection E3 as _ <-; lia).
    destruct (N.eqb dot 46 && is_digit d); [|injection E3 as _ <-; lia].
    destruct (span_digits r') as [ds r''] eqn:E. injection E3 as _ <-.
    apply span_digits_length in E. simpl. lia. }
  destruct (match r2 with
            | [] => ([], r2)
            | e :: r' =>
              if N.eqb e 101 || N.eqb e 69
              then
                let '(sign, r'') :=
                  match r' with
                  | [] => ([], r')
                  | sg :: r'' =>
                    if N.eqb sg 45 || N.eqb sg 43 then ([sg], r'') else ([], r')
                  end in
                match span_digits r'' with
                | ([], _) => ([], r2)
                | (ds, r''') => (e :: sign ++ ds, r''')
                end
              else ([], r2)
            end) as [expo r3] eqn:E4.
  assert (H4 : (length r3 <= length r2)%nat).
  { destruct r2 as [|e r']; [injection E4 as _ <-; lia|].
    destruct (N.eqb e 101 || N.eqb e 69); [|injection E4 as _ <-; lia].
    destruct (match r' with
              | [] => ([], r')
              | sg :: r'' =>
                if N.eqb sg 45 || N.eqb sg 43 then ([sg], r'') else ([], r')
              end) as [sign r''] eqn:E5.
    assert (length r'' <= length r')%nat.
    { destruct r' as [|sg r4]; [injection E5 as _ <-; lia|].
      destruct (N.eqb sg 45 || N.eqb sg 43); injection E5 as _ <-; simpl; lia. }
    destruct (span_digits r'') as [ds r'''] eqn:E6.
    apply span_digits_length in E6.
    destruct ds; injection E4 as _ <-; simpl; lia. }
  assert (r = r3).
  { destruct frac, expo; try (injection H as _ <-; reflexivity).
    destruct (Nat.leb (length ids) max_str_digits); [|discriminate].
    injection H as _ <-. reflexivity. }
  subst r. lia.
Qed.

(** The fuel the three functions need for a text of a given length. *)
Definition fuel_scan (s : pystr) : nat := 2 * length s + 1.
Definition fuel_items (s : pystr) : nat := 2 * length s + 2.

Definition shorter (s : pystr) (res : parsed pyval) : Prop :=
  match res with
  | Parsed _ r => (length r < length s)%nat
  | Malformed => True
  | OutOfFuel => False
  end.

Lemma enough_fuel fuel :
  (forall s, (fuel_scan s <= fuel)%nat -> shorter s (scan_once fuel s)) /\
  (forall s acc, (fuel_items s <= fuel)%nat -> shorter s (array_items fuel s acc)) /\
  (forall s acc, (fuel_items s <= fuel)%nat -> shorter s (object_items fuel s acc)).
Proof.
  unfold fuel_scan, fuel_items.
  induction fuel as [|f (IHs & IHa & IHo)].
  - repeat split; intros; lia.
  - repeat split.
    + intros s Hf. cbn [scan_once].
      destruct s as [|c r]; [exact I|]. cbn [length] in Hf.
      destruct (N.eqb c 34).
      { destruct (scanstring r []) as [[str r']|] eqn:E; [|exact I].
        apply (scanstring_length (length r)) in E; [|lia]. simpl. lia. }
      destruct (N.eqb c 123).
      { pose proof (skip_ws_length r).
        destruct (skip_ws r) as [|c' r'] eqn:E; [exact I|].
        cbn [length] in *.
        destruct (N.eqb c' 125); [simpl; lia|].
        specialize (IHo (c' :: r') [] ltac:(cbn [length]; lia)).
        destruct (object_items f (c' :: r') []); simpl in *; lia. }
      destruct (N.eqb c 91).
      { pose proof (skip_ws_length r).
        destruct (skip_ws r) as [|c' r'] eqn:E; [exact I|].
        cbn [length] in *.
        destruct (N.eqb c' 93); [simpl; lia|].
        specialize (IHa (c' :: r') [] ltac:(cbn [length]; lia)).
        destruct (array_items f (c' :: r') []); simpl in *; lia. }
      repeat match goal with
             | |- context [if startswith ?a ?b then _ else _] =>
               destruct (startswith a b);
                 [cbn [shorter]; rewrite length_skipn; cbn [length]; lia|]
             end.
      destruct (match_number (c :: r)) as [[v r']|] eqn:E; [|exact I].
      apply match_number_length in E. simpl in *. lia.
    + intros s acc Hf. cbn [array_items].
      specialize (IHs s ltac:(lia)).
      destruct (scan_once f s) as [v r| |]; [|exact I|exact IHs].
      cbn [shorter] in IHs.
      pose proof (skip_ws_length r).
      destruct (skip_ws r) as [|c r'] eqn:E; [exact I|]. cbn [length] in *.
      destruct (N.eqb c 93); [simpl; lia|].
      destruct (N.eqb c 44); [|exact I].
      pose proof (skip_ws_length r').
      specialize (IHa (skip_ws r') (v :: acc) ltac:(lia)).
      destruct (array_items f (skip_ws r') (v :: acc)); simpl in *; lia.
    + intros s acc Hf. cbn [object_items].
      destruct s as [|q r]; [exact I|]. cbn [length] in Hf.
      destruct (N.eqb q 34); [|exact I].
      destruct (scanstring r []) as [[key r1]|] eqn:E; [|exact I].
      apply (scanstring_length (length r)) in E; [|lia].
      pose proof (skip_ws_length r1).
      destruct (skip_ws r1) as [|colon r2] eqn:E1; [exact I|]. cbn [length] in *.
      destruct (N.eqb colon 58); [|exact I].
      pose proof (skip_ws_length r2).
      specialize (IHs (skip_ws r2) ltac:(lia)).
      destruct (scan_once f (skip_ws r2)) as [v r3| |]; [|exact I|exact IHs].
      cbn [shorter] in IHs.
      pose proof (skip_ws_length r3).
      destruct (skip_ws r3) as [|c r4] eqn:E3; [exact I|]. cbn [length] in *.
      destruct (N.eqb c 125); [simpl; lia|].
      destruct (N.eqb c 44); [|exact I].
      pose proof (skip_ws_length r4).
      specialize (IHo (skip_ws r4) (dict_set acc key v) ltac:(lia)).
      destruct (object_items f (skip_ws r4) (dict_set acc key v)); simpl in *; lia.
Qed.

(** [loads] never stops for want of fuel: when it gives [None], the text
    is no JSON value. *)
Lemma loads_fuel s : scan_once (fuel_for s) (skip_ws s) <> OutOfFuel.
Proof.
  intros H.
  pose proof (proj1 (enough_fuel (fuel_for s)) (skip_ws s)) as Hs.
  rewrite H in Hs. apply Hs.
  unfold fuel_scan, fuel_for. pose proof (skip_ws_length s). lia.
Qed.

End JsonFacts.

(** *** What the loop computes *)

Lemma read_loop_spec limit lines : forall i acc,
  read_loop limit i lines acc =
  match parse_lines (nonblank_head (limit - i) lines) with
  | Some vs => Ok (acc ++ vs)
  | None => Raise JSONDecodeError
  end.
Proof.
  unfold nonblank_head.
  induction lines as [|line rest IH]; intros i acc; simpl.
  - rewrite firstn_nil. simpl. now rewrite app_nil_r.
  - destruct (i >=? limit) eqn:E.
    + apply Z.geb_le in E.
      replace (Z.to_nat (limit - i)) with O by lia.
      simpl. now rewrite app_nil_r.
    + rewrite Z.geb_leb in E. apply Z.leb_gt in E.
      replace (Z.to_nat (limit - i)) with (S (Z.to_nat (limit - (i + 1)))) by lia.
      simpl. destruct (blank line) eqn:B; simpl.
      * apply IH.
      * destruct (Json.loads line) as [v|]; [|reflexivity].
        rewrite IH.
        destruct (parse_lines _) as [vs|]; [|reflexivity].
        now rewrite <- app_assoc.
Qed.

Lemma read_records_spec lines :
  read_records lines =
  match parse_lines (nonblank_head N_records lines) with
  | Some vs => Ok vs
  | None => Raise JSONDecodeError
  end.
Proof.
  unfold read_records. rewrite read_loop_spec.
  now replace (N_records - 0) with N_records by lia.
Qed.

Lemma parse_lines_Forall2 ls : forall vs,
  parse_lines ls = Some vs ->
  Forall2 (fun line r => Json.loads line = Some r) ls vs.
Proof.
  induction ls as [|l r IH]; simpl; intros vs H.
  - injection H as <-. constructor.
  - destruct (Json.loads l) as [v|] eqn:E; [|discriminate].
    destruct (parse_lines r) as [vs'|]; [|discriminate].
    injection H as <-. constructor; auto.
Qed.


(** *** What the frame holds *)

Lemma length_range n : length (range n) = n.
Proof. unfold range. now rewrite length_map, length_seq. Qed.

Lemma nth_position (f : pystr -> pyval) c cols : forall p,
  position c cols = Some p -> nth p (List.map f cols) PyNaN = f c.
Proof.
  induction cols as [|c' r IH]; simpl; intros p H; [discriminate|].
  destruct (decide (c' = c)) as [->|].
  - now injection H as <-.
  - destruct (position c r) as [q|]; [|discriminate].
    injection H as <-. simpl. now apply IH.
Qed.

Lemma select_positions (f : pystr -> pyval) cols labels : forall ps,
  positions labels cols = Some ps ->
  List.map (fun p => nth p (List.map f cols) PyNaN) ps = List.map f labels.
Proof.
  induction labels as [|l r IH]; simpl; intros ps H.
  - now injection H as <-.
  - destruct (position l cols) as [p|] eqn:E; [|discriminate].
    destruct (positions r cols) as [qs|]; [|discriminate].
    injection H as <-. simpl. f_equal; [now apply nth_position | now apply IH].
Qed.

Lemma filter_combine_snd (P : list pyval -> bool) (rs : list (list pyval)) :
  forall (ix : list Z), length ix = length rs ->
  List.map snd (List.filter (fun ir => P (snd ir)) (combine ix rs)) = List.filter P rs.
Proof.
  induction rs as [|r rs IH]; intros [|i ix] H; simpl in *; try discriminate; auto.
  destruct (P r); simpl; [f_equal|]; apply IH; lia.
Qed.

(** When the frame is built, it has the three wanted columns, the row
    labels 0, 1, ... and one row for each record none of whose three
    cells is missing, in the order of the records. *)
Lemma build_frame_Ok records df :
  build_frame records = Ok df ->
  columns df = wanted_columns /\
  index df = range (length (rows df)) /\
  rows df = List.filter complete (List.map row_of records).
Proof.
  unfold build_frame, DataFrame_of, loc_columns. intros H.
  destruct (forallb is_dict records); cbn [rbind columns] in H; [|discriminate].
  destruct (positions wanted_columns _) as [ps|] eqn:E; cbn [rbind] in H; [|discriminate].
  injection H as <-. cbn [columns index rows reset_index dropna]. repeat split.
  rewrite filter_combine_snd.
  - f_equal. rewrite List.map_map. apply List.map_ext. intros r.
    now apply select_positions.
  - now rewrite length_range, !length_map.
Qed.


Lemma length_filter_le {A} (P : A -> bool) l : (length (List.filter P l) <= length l)%nat.
Proof. induction l as [|a l IH]; simpl; [lia|]. destruct (P a); simpl; lia. Qed.

Lemma length_filter_lt {A} (P : A -> bool) l :
  Exists (fun a => P a = false) l -> (length (List.filter P l) < length l)%nat.
Proof.
  induction 1 as [a l H|a l H IH]; simpl.
  - rewrite H. pose proof (length_filter_le P l). lia.
  - destruct (P a); simpl; lia.
Qed.




Lemma position_Some c cols : forall p, position c cols = Some p -> In c cols.
Proof.
  induction cols as [|c' r IH]; simpl; intros p H; [discriminate|].
  destruct (decide (c' = c)) as [->|Hne]; [now left|].
  destruct (position c r) as [q|]; [|discriminate]. right. eauto.
Qed.

Lemma position_None c cols : position c cols = None <-> ~ In c cols.
Proof.
  induction cols as [|c' r IH]; simpl; [tauto|].
  destruct (decide (c' = c)) as [->|Hne].
  - split; [discriminate | tauto].
  - destruct (position c r) as [q|] eqn:E.
    + split; [discriminate|]. intros H. exfalso. apply H. right.
      eapply position_Some, E.
    + split; [|reflexivity]. intros _ [E'|H]; [congruence | now apply IH].
Qed.


Lemma positions_None labels cols :
  positions labels cols = None <-> exists l, In l labels /\ ~ In l cols.
Proof.
  induction labels as [|l r IH]; simpl.
  - split; [discriminate | intros (? & [] & _)].
  - destruct (position l cols) as [p|] eqn:E.
    + destruct (positions r cols) as [ps|].
      * split; [discriminate|]. intros (l' & [<-|Hl'] & Hn).
        -- exfalso. apply Hn. eapply position_Some, E.
        -- discriminate (proj2 IH (ex_intro _ l' (conj Hl' Hn))).
      * split; [|reflexivity]. intros _.
        destruct (proj1 IH eq_refl) as (l' & Hl' & Hn). eauto.
    + split; [|reflexivity]. intros _. exists l. split; [now left|].
      now apply position_None.
Qed.

(** *** The loading cell inside the notebook *)



Lemma load_cell_Ok text df :
  load_cell text = Ok df ->
  exists records,
    parse_lines (nonblank_head N_records (readlines text)) = Some records /\
    build_frame records = Ok df.
Proof.
  unfold load_cell. rewrite read_records_spec.
  destruct (parse_lines _) as [records|]; [|discriminate].
  cbn [rbind]. eauto.
Qed.

Lemma row_of_length r : length (row_of r) = 3%nat.
Proof. reflexivity. Qed.

Example load_sample : load_cell sample_file = Ok sample_df.
Proof. vm_compute. reflexivity. Qed.

(** *** Loading: the main theorems *)



Lemma Forall2_parse_lines ls : forall vs,
  Forall2 (fun line r => Json.loads line = Some r) ls vs -> parse_lines ls = Some vs.
Proof.
  induction ls as [|l r IH]; intros vs H; inversion H; subst; simpl.
  - reflexivity.
  - match goal with E : Json.loads l = Some _ |- _ => rewrite E end.
    erewrite IH; eauto.
Qed.

Lemma Forall2_length_eq {A B} (R : A -> B -> Prop) l : forall l',
  Forall2 R l l' -> length l = length l'.
Proof. induction l; intros l' H; inversion H; subst; simpl; auto. Qed.

Lemma nonblank_head_take limit lines :
  nonblank_head limit (take (Z.to_nat limit) lines) = nonblank_head limit lines.
Proof. unfold nonblank_head. f_equal. apply take_idemp. Qed.

Lemma length_nonblank_head_lt limit lines :
  0 <= limit ->
  Exists (fun l => blank l = true) (take (Z.to_nat limit) lines) ->
  Z.of_nat (length (nonblank_head limit lines)) < limit.
Proof.
  intros Hl H. unfold nonblank_head.
  assert (length (List.filter (fun l => negb (blank l)) (take (Z.to_nat limit) lines))
          < length (take (Z.to_nat limit) lines))%nat as Hlt.
  { apply length_filter_lt. apply List.Exists_exists in H as (l & Hin & Hb).
    apply List.Exists_exists. exists l. split; [exact Hin | now rewrite Hb]. }
  pose proof (firstn_le_length (Z.to_nat limit) lines). lia.
Qed.

Lemma length_nonblank_head_le limit lines :
  0 <= limit -> Z.of_nat (length (nonblank_head limit lines)) <= limit.
Proof.
  intros Hl. unfold nonblank_head.
  pose proof (length_filter_le (fun l => negb (blank l)) (take (Z.to_nat limit) lines)).
  pose proof (firstn_le_length (Z.to_nat limit) lines). lia.
Qed.

(** With a budget of two lines, a blank first line leaves room for one
    record only: the counter runs over blank lines too. *)
Example blank_line_uses_budget :
  read_loop 2 0 [ u " "; jtext "{'id': '1'}"; jtext "{'id': '2'}" ] []
  = Ok [PyDict [(u "id", PyStr (u "1"))]].
Proof. reflexivity. Qed.

(** C10. For every input file that loads, len(df) is at most
    min(200000, number of non-blank lines among the first 200000 lines).
    The loop's outcome is that of the first 200,000 lines alone, blank
    ones included, so a blank line among them uses up one of the 200,000;
    dropna can only remove rows.  Hence a blank line among the first
    200,000 lines, or a decoded record with a missing value under id,
    title or abstract, leaves strictly fewer than 200,000 records. *)
Theorem loaded_count_within_budget (text : pystr) (df : DataFrame) :
  load_cell text = Ok df ->
  let lines := readlines text in
  let head := take (Z.to_nat 200000) lines in
  len df <= Z.min 200000 (Z.of_nat (length (nonblank_head 200000 lines))) /\
  read_records lines = read_records head /\
  (Exists (fun l => blank l = true) head -> len df < 200000) /\
  (forall records,
      Forall2 (fun line r => Json.loads line = Some r) (nonblank_head 200000 lines) records ->
      Exists (fun r => complete (row_of r) = false) records ->
      len df < 200000).
Proof.
  intros H lines head.
  apply load_cell_Ok in H as (records & Hp & Hb).
  unfold N_records in Hp. fold lines in Hp.
  apply build_frame_Ok in Hb as (_ & _ & Hr).
  pose proof (parse_lines_Forall2 _ _ Hp) as HF.
  apply Forall2_length_eq in HF.
  assert (Hlen : (length (rows df) <= length records)%nat).
  { rewrite Hr. etransitivity; [apply length_filter_le|]. now rewrite length_map. }
  pose proof (length_nonblank_head_le 200000 lines ltac:(lia)) as Hle.
  unfold len. repeat split.
  - lia.
  - rewrite !read_records_spec. unfold head, N_records.
    now rewrite (nonblank_head_take 200000 lines).
  - intros Hex.
    pose proof (length_nonblank_head_lt 200000 lines ltac:(lia) Hex). lia.
  - intros records' HF' Hex.
    apply Forall2_parse_lines in HF'. rewrite Hp in HF'. injection HF' as <-.
    assert (length (rows df) < length records)%nat.
    { rewrite Hr. rewrite <- (length_map row_of records).
      apply length_filter_lt. apply List.Exists_exists in Hex as (r & Hin & Hc).
      apply List.Exists_exists. exists (row_of r). split; [now apply in_map | exact Hc]. }
    lia.
Qed.

Lemma loaded_count_within_budget_witness :
  len sample_df
    <= Z.min 200000 (Z.of_nat (length (nonblank_head 200000 (readlines sample_file)))) /\
  len sample_df < 200000.
Proof.
  destruct (loaded_count_within_budget sample_file sample_df) as (H1 & _ & H3 & _).
  - vm_compute. reflexivity.
  - split; [exact H1|]. apply H3.
    apply Exists_cons_tl, Exists_cons_hd. vm_compute. reflexivity.
Defined.





Lemma load_cell_parsed text records :
  Forall2 (fun line r => Json.loads line = Some r)
          (nonblank_head 200000 (readlines text)) records ->
  load_cell text = build_frame records.
Proof.
  intros H. apply Forall2_parse_lines in H.
  unfold load_cell. rewrite read_records_spec. unfold N_records. now rewrite H.
Qed.


(** Records that all lack a field are not left out either: the
    selection of the three columns raises. *)
Example missing_column_stops_the_load :
  load_cell no_abstract_file = Raise KeyError.
Proof. vm_compute. reflexivity. Qed.



(** *** metric_fn and the ids it decodes *)

Lemma astype_int64_range x : - 2 ^ 63 <= Numpy.astype_int64 x < 2 ^ 63.
Proof.
  unfold Numpy.astype_int64.
  pose proof (Z.mod_pos_bound (x + 2 ^ 63) (2 ^ 64) ltac:(lia)). lia.
Qed.

Lemma astype_int64_id x : - 2 ^ 63 <= x < 2 ^ 63 -> Numpy.astype_int64 x = x.
Proof.
  intros H. unfold Numpy.astype_int64. rewrite Z.mod_small; lia.
Qed.

Lemma clip_range (a : list (list Z)) lo hi :
  lo <= hi -> List.Forall (List.Forall (fun x => lo <= x <= hi)) (Numpy.clip a lo hi).
Proof.
  intros H. unfold Numpy.clip.
  apply List.Forall_forall. intros row Hrow. apply in_map_iff in Hrow as (r & <- & _).
  apply List.Forall_forall. intros x Hx. apply in_map_iff in Hx as (y & <- & _). lia.
Qed.

Lemma where_negative_nonneg (a : list (list Z)) v :
  0 <= v -> List.Forall (List.Forall (fun x => 0 <= x)) (Numpy.where_negative a v).
Proof.
  intros H. unfold Numpy.where_negative.
  apply List.Forall_forall. intros row Hrow. apply in_map_iff in Hrow as (r & <- & _).
  apply List.Forall_forall. intros x Hx. apply in_map_iff in Hx as (y & <- & _).
  destruct (y <? 0) eqn:E; [exact H | now apply Z.ltb_ge in E].
Qed.

Lemma Forall2_map_r {A B} (f : A -> B) (R : A -> B -> Prop) l :
  (forall a, R a (f a)) -> Forall2 R l (List.map f l).
Proof. intros H. induction l; simpl; constructor; auto. Qed.

(** C9, as stated, fails: only negative label ids are replaced, so a label
    id at or above the vocabulary size reaches batch_decode as it is. *)
Lemma label_id_above_vocabulary_is_decoded :
  filled_labels example_tokenizer [[40000]] = [[40000]] /\
  ~ in_vocabulary example_tokenizer 40000 /\
  ~ (forall (tok : Tokenizer) (labels : list (list Z)),
       1 <= vocab_size tok -> 0 <= pad_token_id tok < vocab_size tok ->
       List.Forall (List.Forall (in_vocabulary tok)) (filled_labels tok labels)).
Proof.
  split; [reflexivity|]. split.
  - unfold in_vocabulary. simpl. lia.
  - intros H.
    specialize (H example_tokenizer [[40000]] ltac:(simpl; lia) ltac:(simpl; lia)).
    inversion H as [|row rest Hrow _]; subst.
    inversion Hrow as [|x xs Hx _]; subst.
    unfold in_vocabulary in Hx. simpl in Hx. lia.
Qed.

(** C9 (amended). For a vocabulary of at least one id and a pad id that is
    not negative, metric_fn hands to batch_decode
    - predictions every id of which is clipped into
      [0, vocab_size - 1], and
    - labels in which every negative id is replaced by the pad id and
      every other id is left as it is, so that none is negative.
    It is these two arrays that it decodes and scores. *)
Theorem metric_fn_decoder_inputs (tok : Tokenizer) (preds labels : list (list Z)) :
  1 <= vocab_size tok ->
  0 <= pad_token_id tok ->
  List.Forall (List.Forall (in_vocabulary tok)) (clipped_preds tok preds) /\
  List.Forall (List.Forall (fun id => 0 <= id)) (filled_labels tok labels) /\
  Forall2 (Forall2 (fun id id' => id' = if id <? 0 then pad_token_id tok else id))
          labels (filled_labels tok labels) /\
  (forall (Score Rouge : Type)
          (rouge_call : Rouge -> list pystr -> list pystr -> Rouge * RougeScores Score)
          (rouge_l : Rouge),
      metric_fn rouge_call tok rouge_l (preds, labels) =
      let '(rouge_l', res) :=
        rouge_call rouge_l (batch_decode tok (filled_labels tok labels) true)
                           (batch_decode tok (clipped_preds tok preds) true) in
      (rouge_l', [(u "RougeL", f1_score res)])).
Proof.
  intros Hv Hp. repeat split.
  - apply clip_range. lia.
  - now apply where_negative_nonneg.
  - unfold filled_labels, Numpy.where_negative.
    apply Forall2_map_r. intros row. apply Forall2_map_r. reflexivity.
Qed.

Lemma metric_fn_decoder_inputs_witness :
  List.Forall (List.Forall (in_vocabulary example_tokenizer))
              (clipped_preds example_tokenizer [[5; -100; 32127]; [70000; 0; 1]]) /\
  List.Forall (List.Forall (fun id => 0 <= id))
              (filled_labels example_tokenizer [[17; -100; 40000]]).
Proof.
  destruct (metric_fn_decoder_inputs example_tokenizer
              [[5; -100; 32127]; [70000; 0; 1]] [[17; -100; 40000]])
    as (H1 & H2 & _).
  - simpl. lia.
  - simpl. lia.
  - split; [exact H1 | exact H2].
Defined.

Example clipped_preds_example :
  clipped_preds example_tokenizer [[5; -100; 32127]; [70000; 0; 1]]
  = [[5; 0; 32099]; [32099; 0; 1]].
Proof. reflexivity. Qed.

Example filled_labels_example :
  filled_labels example_tokenizer [[17; -100; 40000]] = [[17; 0; 40000]].
Proof. reflexivity. Qed.

(** *** Batches *)

Lemma concat_chunks_fuel {A} k : (0 < k)%nat -> forall fuel (l : list A),
  (length l <= fuel)%nat -> concat (chunks_fuel fuel k l) = l.
Proof.
  intros Hk. induction fuel as [|f IH]; intros l Hl.
  - destruct l; [reflexivity | simpl in Hl; lia].
  - destruct l as [|a l']; [reflexivity|].
    cbn [chunks_fuel concat]. rewrite IH.
    + apply firstn_skipn.
    + rewrite length_skipn. simpl in *. lia.
Qed.

Lemma concat_chunks {A} k (l : list A) : (0 < k)%nat -> concat (chunks k l) = l.
Proof. intros Hk. now apply concat_chunks_fuel. Qed.

Lemma chunks_fuel_map {A B} (f : A -> B) k : forall fuel (l : list A),
  chunks_fuel fuel k (List.map f l) = List.map (List.map f) (chunks_fuel fuel k l).
Proof.
  induction fuel as [|n IH]; intros l; [reflexivity|].
  destruct l as [|a l']; [reflexivity|].
  cbn [chunks_fuel]. change (f a :: List.map f l') with (List.map f (a :: l')).
  now rewrite firstn_map, skipn_map, IH.
Qed.

Lemma chunks_map {A B} (f : A -> B) k (l : list A) :
  chunks k (List.map f l) = List.map (List.map f) (chunks k l).
Proof. unfold chunks. now rewrite length_map, chunks_fuel_map. Qed.

Lemma chunks_fuel_length {A B} k : forall fuel (l : list A) (l' : list B),
  length l = length l' ->
  length (chunks_fuel fuel k l) = length (chunks_fuel fuel k l').
Proof.
  induction fuel as [|n IH]; intros l l' H; [reflexivity|].
  destruct l, l'; try discriminate; [reflexivity|].
  cbn [chunks_fuel length]. f_equal. apply IH. rewrite !length_skipn. now rewrite H.
Qed.

Lemma chunks_length {A B} k (l : list A) (l' : list B) :
  length l = length l' -> length (chunks k l) = length (chunks k l').
Proof. intros H. unfold chunks. rewrite H. now apply chunks_fuel_length. Qed.

Lemma chunks_nonempty {A} k (l : list A) : l <> [] -> chunks k l <> [].
Proof. destruct l; [congruence | discriminate]. Qed.

Lemma map_nth_seq {A} (d : A) (l : list A) :
  List.map (fun i => nth i l d) (seq 0 (length l)) = l.
Proof.
  induction l as [|a l IH]; [reflexivity|].
  cbn [length seq List.map nth]. f_equal.
  rewrite <- seq_shift, List.map_map. exact IH.
Qed.

Lemma nth_map_chunk {A B} (f : A -> B) b (c : list (list A)) :
  nth b (List.map (List.map f) c) [] = List.map f (nth b c []).
Proof. change (@nil B) with (List.map f []). apply map_nth. Qed.

Lemma map_result_map_Ok {A B C} (f : B -> result C) (g : A -> B) (h : A -> C) l :
  (forall a, In a l -> f (g a) = Ok (h a)) ->
  map_result f (List.map g l) = Ok (List.map h l).
Proof.
  induction l as [|a l IH]; intros H; [reflexivity|].
  cbn [List.map map_result]. rewrite H by now left.
  cbn [rbind]. rewrite IH; [reflexivity|]. intros; apply H. now right.
Qed.

(** *** From the frame to the tokenized dataset *)


Lemma batches_dataset_of k recs :
  batches k (dataset_of recs) = List.map dataset_of (chunks k recs).
Proof.
  unfold batches. cbn [num_rows dataset_of].
  rewrite (chunks_length k (seq 0 (length (List.map rec_id recs))) recs)
    by now rewrite length_seq, length_map.
  rewrite <- (map_nth_seq [] (chunks k recs)) at 2.
  rewrite List.map_map. apply List.map_ext. intros b.
  unfold dataset_of. cbn [List.map fst snd]. rewrite !chunks_map, !nth_map_chunk. reflexivity.
Qed.

Lemma preprocess_dataset_of tok cfg recs :
  preprocess_function tok cfg (dataset_of recs) = Ok (tokenized_of tok cfg recs).
Proof.
  unfold preprocess_function.
  change (getitem (dataset_of recs) (u "input_text"))
    with (Ok (List.map (fun r => PyStr (rec_abstract r)) recs)).
  change (getitem (dataset_of recs) (u "target_text"))
    with (Ok (List.map (fun r => PyStr (rec_title r)) recs)).
  cbn [rbind].
  rewrite (map_result_map_Ok (add_prefix cfg) _
             (fun r => PyStr (prefix cfg ++ rec_abstract r))) by reflexivity.
  cbn [rbind]. unfold tokenizer_call.
  rewrite (map_result_map_Ok _ (fun r => PyStr (prefix cfg ++ rec_abstract r))
             (fun r => prefix cfg ++ rec_abstract r)) by reflexivity.
  cbn [rbind].
  rewrite (map_result_map_Ok _ (fun r => PyStr (rec_title r)) rec_title) by reflexivity.
  cbn [rbind enc_input_ids enc_attention_mask].
  unfold tokenized_of. now rewrite !List.map_map.
Qed.

Lemma concat_column {A} (f : list A -> Dataset) (name : pystr) (g : A -> pyval)
    (cs : list (list A)) :
  (forall x, column (f x) name = Some (List.map g x)) ->
  concat (List.map (fun b' => match column b' name with Some vs => vs | None => [] end)
                   (List.map f cs))
  = List.map g (concat cs).
Proof.
  intros H. rewrite List.map_map, concat_map. f_equal.
  apply List.map_ext. intros x. now rewrite H.
Qed.

Lemma concat_batches_cons b bs :
  concat_batches (b :: bs)
  = List.map (fun c => (c, concat (List.map (fun b' => match column b' c with
                                                       | Some vs => vs
                                                       | None => []
                                                       end) (b :: bs))))
             (column_names b).
Proof. reflexivity. Qed.

Lemma concat_tokenized_of tok cfg (cs : list (list text_record)) :
  cs <> [] ->
  concat_batches (List.map (tokenized_of tok cfg) cs) = tokenized_of tok cfg (concat cs).
Proof.
  destruct cs as [|c cs']; [congruence|]. intros _.
  change (List.map (tokenized_of tok cfg) (c :: cs'))
    with (tokenized_of tok cfg c :: List.map (tokenized_of tok cfg) cs').
  rewrite concat_batches_cons.
  change (tokenized_of tok cfg c :: List.map (tokenized_of tok cfg) cs')
    with (List.map (tokenized_of tok cfg) (c :: cs')).
  remember (List.map (tokenized_of tok cfg) (c :: cs')) as L eqn:EL.
  cbn [column_names tokenized_of List.map fst]. subst L.
  unfold tokenized_of at 4.
  f_equal; [|f_equal; [|f_equal]]; f_equal; apply concat_column; reflexivity.
Qed.

Lemma map_batched_dataset_of tok cfg recs :
  recs <> [] ->
  map_batched (preprocess_function tok cfg) removed_columns (dataset_of recs)
  = Ok (tokenized_of tok cfg recs).
Proof.
  intros Hne. unfold map_batched.
  replace (Nat.eqb (num_rows (dataset_of recs)) 0) with false.
  2: { destruct recs; [congruence | reflexivity]. }
  rewrite batches_dataset_of.
  rewrite (map_result_map_Ok _ dataset_of (tokenized_of tok cfg)).
  - cbn [rbind]. rewrite concat_tokenized_of by now apply chunks_nonempty.
    now rewrite concat_chunks by (unfold map_batch_size; lia).
  - intros R _. rewrite preprocess_dataset_of. reflexivity.
Qed.

Lemma length_pad_to n pad ids :
  Z.of_nat (length ids) <= n -> Z.of_nat (length (pad_to n pad ids)) = n.
Proof. intros H. unfold pad_to. rewrite length_app, repeat_length. lia. Qed.

Lemma take_rows_column {A} (f : A -> pyval) (recs : list A) (idxs : list nat) :
  List.Forall (fun i => (i < length recs)%nat) idxs ->
  List.map (fun i => nth i (List.map f recs) PyNone) idxs
  = List.map f (flat_map (fun i => match nth_error recs i with
                                    | Some r => [r]
                                    | None => []
                                    end) idxs).
Proof.
  induction 1 as [|i idxs Hi _ IH]; [reflexivity|].
  cbn [List.map flat_map]. rewrite List.map_app, IH. f_equal.
  destruct (nth_error recs i) as [r|] eqn:E.
  - cbn [List.map app]. f_equal.
    apply (map_nth_error f) in E. now apply nth_error_nth.
  - apply nth_error_None in E. lia.
Qed.

(** A selection of rows of the renamed dataset, such as each of the two
    splits, is the renamed dataset of the selected records. *)
Lemma take_rows_dataset_of recs idxs :
  List.Forall (fun i => (i < length recs)%nat) idxs ->
  take_rows idxs (dataset_of recs) = dataset_of (select_records recs idxs).
Proof.
  intros H. unfold take_rows, dataset_of, select_records.
  cbn [List.map fst snd]. now rewrite !take_rows_column.
Qed.



Example example_run_succeeds :
  is_Ok (snd (run example_library small_config ∅ example_files)) = true.
Proof. vm_compute. reflexivity. Qed.

(** *** Running the notebook, statement by statement *)

Lemma bind_bind {A B C} (m : NB A) (f : A -> NB B) (g : B -> NB C) st :
  nb_bind (nb_bind m f) g st = nb_bind m (fun a => nb_bind (f a) g) st.
Proof. unfold nb_bind. destruct (m st) as [st' [a|e]]; reflexivity. Qed.

Lemma bind_ret {A B} (a : A) (k : A -> NB B) st : nb_bind (nb_ret a) k st = k a st.
Proof. reflexivity. Qed.

Lemma bind_call {A B} s (r : result A) (k : A -> NB B) st :
  nb_bind (call s r) k st =
  match r with
  | Ok a => k a (record s st)
  | Raise e => (record s st, Raise e)
  end.
Proof. unfold nb_bind, call. destruct r; reflexivity. Qed.

Lemma bind_lift {A B} (r : result A) (k : A -> NB B) st :
  nb_bind (lift r) k st =
  match r with
  | Ok a => k a st
  | Raise e => (st, Raise e)
  end.
Proof. unfold nb_bind, lift. destruct r; reflexivity. Qed.

Lemma bind_environ_set {B} key value (k : unit -> NB B) st :
  nb_bind (environ_set key value) k st =
  k tt {| environ := <[key := value]> (environ st);
          files := files st;
          executed := executed st ++ [s_environ_set key value] |}.
Proof. reflexivity. Qed.

Lemma bind_open_read {B} path encoding (k : pystr -> NB B) st :
  nb_bind (open_read path encoding) k st =
  match files st !! path with
  | Some text => k text (record (s_open path (u "r") encoding) st)
  | None => (record (s_open path (u "r") encoding) st, Raise FileNotFoundError)
  end.
Proof. unfold nb_bind, open_read. destruct (files st !! path); reflexivity. Qed.

Lemma call_alone {A} s (r : result A) st : call s r st = (record s st, r).
Proof. reflexivity. Qed.

(** One step of the run kept in hypothesis [H]: expose the next statement
    and split on what it returns. *)
Ltac nb_step H :=
  first
    [ rewrite bind_bind in H
    | rewrite bind_ret in H
    | rewrite bind_environ_set in H
    | rewrite bind_open_read in H
    | rewrite bind_lift in H
    | rewrite bind_call in H
    | rewrite call_alone in H
    | progress cbv beta iota in H
    | match type of H with
      | context [match ?r with Ok _ => _ | Raise _ => _ end] =>
        let E := fresh "E" in destruct r eqn:E
      | context [match ?o with Some _ => _ | None => _ end] =>
        let E := fresh "E" in destruct o eqn:E
      | context [let (_, _) := ?p in _] => destruct p
      end ].

Ltac nb_unfold H :=
  unfold run, notebook, cell_42c30f47, cell_f8a3484e, cell_18ad6853, cell_5a52a572,
    cell_00e60b01, cell_b6510686, cell_f9d0e222, cell_d66aaa61, cell_c44c8f54,
    cell_af828bf3, cell_5cc2cfd9 in H.


Lemma rbind_Ok {A B} (m : result A) (k : A -> result B) b :
  rbind m k = Ok b -> exists a, m = Ok a /\ k a = Ok b.
Proof. destruct m as [a|e]; simpl; [eauto | discriminate]. Qed.

(** A run that ends without an exception has executed the whole script,
    and what it has bound is what the library calls returned, each fed
    with the results of the ones before it. *)
Lemma run_Ok lib cfg env fs st out :
  run lib cfg env fs = (st, Ok out) ->
  executed st = script cfg (len (out_df out)) /\
  exists text ds1 ds2 model0 sel,
    fs !! snapshot_path = Some text /\
    load_cell text = Ok (out_df out) /\
    rename_column (from_pandas (out_df out)) (u "abstract") (u "input_text") = Ok ds1 /\
    rename_column ds1 (u "title") (u "target_text") = Ok ds2 /\
    train_test_split (permutation lib) (TRAIN_TEST_SPLIT cfg) 42 ds2 = Ok (out_splits out) /\
    AutoTokenizer_from_pretrained lib (MODEL_CHECKPOINT cfg) = Ok (out_tokenizer out) /\
    TFAutoModelForSeq2SeqLM_from_pretrained lib (MODEL_CHECKPOINT cfg) = Ok model0 /\
    map_batched (preprocess_function (out_tokenizer out) cfg) removed_columns
                (fst (out_splits out)) = Ok (fst (out_tokenized_splits out)) /\
    map_batched (preprocess_function (out_tokenizer out) cfg) removed_columns
                (snd (out_splits out)) = Ok (snd (out_tokenized_splits out)) /\
    to_tf_dataset (tf_order lib) (BATCH_SIZE cfg) (fst (out_tokenized_splits out))
      = Ok (out_train_dataset out) /\
    to_tf_dataset in_order (BATCH_SIZE cfg) (snd (out_tokenized_splits out))
      = Ok (out_test_dataset out) /\
    select_range 200 (shuffle (permutation lib) 42 (snd (out_tokenized_splits out))) = Ok sel /\
    to_tf_dataset in_order (BATCH_SIZE cfg) sel = Ok (out_generation_dataset out) /\
    fit lib (out_tokenizer out) (compile lib model0 (u "adam")) (RougeL lib)
        (out_train_dataset out) (out_test_dataset out) 3 500 50
        (out_generation_dataset out)
      = Ok (out_model out, out_rouge_l out, out_history out) /\
    pipeline lib (u "summarization") (out_model out) (out_tokenizer out) (u "tf")
      = Ok (out_summarizer out).
Proof.
  intros H. nb_unfold H.
  repeat nb_step H.
  all: try discriminate H.
  injection H as <- <-. cbn [out_df out_splits out_tokenizer out_tokenized_splits
    out_train_dataset out_test_dataset out_generation_dataset out_model out_rouge_l
    out_history out_summarizer executed record initial_state app].
  split; [reflexivity|].
  repeat match goal with
         | E : rbind _ _ = Ok _ |- _ =>
           apply rbind_Ok in E; destruct E as (? & ? & E)
         | E : Ok _ = Ok _ |- _ => injection E as E; subst
         end.
  cbn [files record initial_state] in *.
  do 5 eexists.
  split; [eassumption|].
  split.
  { unfold load_cell.
    match goal with E : read_records _ = _ |- _ => rewrite E end.
    cbn [rbind]. eassumption. }
  repeat (split; [first [eassumption | reflexivity]|]).
  eassumption.
Qed.

(** *** Row selections and tf.data batches *)

Lemma column_take_rows idxs (ds : Dataset) c :
  column (take_rows idxs ds) c
  = option_map (fun col => List.map (fun i => nth i col PyNone) idxs) (column ds c).
Proof.
  induction ds as [|[c' vs] r IH]; [reflexivity|].
  cbn [take_rows List.map column fst snd].
  destruct (decide (c' = c)); [reflexivity | exact IH].
Qed.

Lemma num_rows_take_rows idxs (ds : Dataset) :
  ds <> [] -> num_rows (take_rows idxs ds) = length idxs.
Proof.
  destruct ds as [|[c vs] r]; [congruence|]. intros _.
  cbn [take_rows List.map num_rows fst snd]. now rewrite length_map.
Qed.

Lemma getitem_Ok (ds : Dataset) c vs : getitem ds c = Ok vs -> column ds c = Some vs.
Proof. unfold getitem. destruct (column ds c); [now injection 1 as -> | discriminate]. Qed.

Lemma column_Some_nonempty (ds : Dataset) c vs : column ds c = Some vs -> ds <> [].
Proof. destruct ds; [discriminate | discriminate]. Qed.

Lemma concat_batch_column {A} (f : pyval -> A) k n (vs : list pyval) :
  (0 < k)%nat -> length vs = n ->
  concat (List.map (fun b => List.map f (nth b (chunks k vs) []))
                   (seq 0 (length (chunks k (seq 0 n)))))
  = List.map f vs.
Proof.
  intros Hk Hn.
  rewrite (chunks_length k (seq 0 n) vs) by now rewrite length_seq.
  rewrite <- (List.map_map (fun b => nth b (chunks k vs) []) (List.map f)).
  rewrite map_nth_seq, <- concat_map. now rewrite concat_chunks.
Qed.

(** The examples of an unshuffled tf.data dataset, batch after batch, are
    the rows of the dataset it was made from. *)
Lemma to_tf_dataset_in_order batch_size (ds : Dataset) bs ii am lb :
  to_tf_dataset in_order batch_size ds = Ok bs ->
  column ds (u "input_ids") = Some ii ->
  column ds (u "attention_mask") = Some am ->
  column ds (u "labels") = Some lb ->
  length ii = num_rows ds -> length am = num_rows ds -> length lb = num_rows ds ->
  concat (List.map input_ids bs) = List.map cell_ids ii /\
  concat (List.map attention_mask bs) = List.map cell_ids am /\
  concat (List.map labels bs) = List.map cell_ids lb.
Proof.
  intros H Hii Ham Hlb Li La Ll. unfold to_tf_dataset, getitem in H.
  rewrite Hii, Ham, Hlb in H. cbn [rbind] in H.
  destruct (batch_size <=? 0) eqn:Hb; [discriminate|].
  apply Z.leb_gt in Hb. injection H as <-.
  unfold in_order.
  assert (P : forall vs : list pyval, length vs = num_rows ds ->
              List.map (fun i => nth i vs PyNone) (seq 0 (num_rows ds)) = vs)
    by (intros vs <-; apply map_nth_seq).
  rewrite (P ii Li), (P am La), (P lb Ll), !List.map_map.
  cbn [input_ids attention_mask labels make_batch].
  repeat split; apply concat_batch_column; auto; lia.
Qed.

Lemma select_range_Ok n (ds sel : Dataset) :
  select_range n ds = Ok sel ->
  (n <= num_rows ds)%nat /\ sel = take_rows (seq 0 n) ds.
Proof.
  unfold select_range. destruct (Nat.leb n (num_rows ds)) eqn:E; [|discriminate].
  apply Nat.leb_le in E. now injection 1 as <-.
Qed.

Lemma nth_map_in_range {A B} (f : A -> B) (l : list A) i d d' :
  (i < length l)%nat -> nth i (List.map f l) d' = f (nth i l d).
Proof.
  intros H. rewrite (nth_indep _ d' (f d)) by now rewrite length_map.
  apply map_nth.
Qed.

Lemma generation_rows_spec lib (test : Dataset) :
  (200 <= num_rows test)%nat ->
  length (generation_rows lib test) = 200%nat /\
  NoDup (generation_rows lib test) /\
  (forall j, In j (generation_rows lib test) -> (j < num_rows test)%nat).
Proof.
  intros Hn. unfold generation_rows.
  pose proof (permutation_spec lib 42 (num_rows test)) as HP.
  pose proof (Permutation_length HP) as HL. rewrite length_seq in HL.
  assert (HND : List.NoDup (permutation lib 42 (num_rows test))).
  { eapply Permutation_NoDup; [apply Permutation_sym, HP | apply seq_NoDup]. }
  split; [rewrite length_take; lia|]. split.
  - apply NoDup_ListNoDup.
    rewrite <- (firstn_skipn 200 (permutation lib 42 (num_rows test))) in HND.
    now apply List.NoDup_app_remove_r in HND.
  - intros j Hj.
    assert (In j (permutation lib 42 (num_rows test))).
    { rewrite <- (firstn_skipn 200 (permutation lib 42 (num_rows test))).
      apply in_or_app. now left. }
    eapply Permutation_in in H; [|exact HP]. apply in_seq in H. lia.
Qed.

(** The generation dataset holds rows of the test split: exactly the 200
    rows at the positions [generation_rows]. *)
Lemma generation_dataset_rows lib batch_size (test sel : Dataset) gen :
  select_range 200 (shuffle (permutation lib) 42 test) = Ok sel ->
  to_tf_dataset in_order batch_size sel = Ok gen ->
  (200 <= num_rows test)%nat /\
  concat (List.map input_ids gen)
    = List.map (example_at test (u "input_ids")) (generation_rows lib test) /\
  concat (List.map attention_mask gen)
    = List.map (example_at test (u "attention_mask")) (generation_rows lib test) /\
  concat (List.map labels gen)
    = List.map (example_at test (u "labels")) (generation_rows lib test).
Proof.
  intros Hsel Htf.
  apply select_range_Ok in Hsel as [Hn ->].
  pose proof (permutation_spec lib 42 (num_rows test)) as HP.
  pose proof (Permutation_length HP) as HL. rewrite length_seq in HL.
  assert (Hne : test <> []).
  { intros ->. unfold to_tf_dataset in Htf. discriminate Htf. }
  assert (Hn' : (200 <= num_rows test)%nat).
  { unfold shuffle in Hn. rewrite num_rows_take_rows in Hn by exact Hne. lia. }
  split; [exact Hn'|].
  assert (Hsh : shuffle (permutation lib) 42 test <> []).
  { unfold shuffle, take_rows. destruct test; [congruence | discriminate]. }
  assert (Hcol : forall c,
    column (take_rows (seq 0 200) (shuffle (permutation lib) 42 test)) c
    = option_map (fun col => List.map (fun j => nth j col PyNone) (generation_rows lib test))
                 (column test c)).
  { intros c. unfold shuffle. rewrite !column_take_rows.
    destruct (column test c) as [col|]; [|reflexivity]. cbn [option_map]. f_equal.
    unfold generation_rows.
    rewrite <- (map_nth_seq O (take 200 (permutation lib 42 (num_rows test)))).
    rewrite length_take, List.map_map.
    replace (Nat.min 200 (length (permutation lib 42 (num_rows test)))) with 200%nat by lia.
    apply List.map_ext_in. intros i Hi. apply in_seq in Hi.
    rewrite (nth_map_in_range _ _ _ O) by lia.
    f_equal. rewrite nth_firstn.
    destruct (Nat.ltb_spec i 200); [reflexivity | lia]. }
  assert (Hrows : num_rows (take_rows (seq 0 200) (shuffle (permutation lib) 42 test)) = 200%nat).
  { rewrite num_rows_take_rows by exact Hsh. apply length_seq. }
  pose proof Htf as Htf'. unfold to_tf_dataset in Htf'.
  destruct (getitem _ (u "input_ids")) as [ii|] eqn:Eii; [|discriminate].
  cbn [rbind] in Htf'.
  destruct (getitem _ (u "attention_mask")) as [am|] eqn:Eam; [|discriminate].
  cbn [rbind] in Htf'.
  destruct (getitem _ (u "labels")) as [lb|] eqn:Elb; [|discriminate].
  clear Htf'.
  apply getitem_Ok in Eii, Eam, Elb.
  pose proof Eii as Eii'. pose proof Eam as Eam'. pose proof Elb as Elb'.
  rewrite Hcol in Eii', Eam', Elb'.
  assert (HG : length (generation_rows lib test) = 200%nat)
    by (unfold generation_rows; rewrite length_take; lia).
  destruct (column test (u "input_ids")) as [cii|] eqn:Cii; [|discriminate].
  destruct (column test (u "attention_mask")) as [cam|] eqn:Cam; [|discriminate].
  destruct (column test (u "labels")) as [clb|] eqn:Clb; [|discriminate].
  cbn [option_map] in Eii', Eam', Elb'.
  injection Eii' as <-. injection Eam' as <-. injection Elb' as <-.
  destruct (to_tf_dataset_in_order _ _ _ _ _ _ Htf Eii Eam Elb) as (H1 & H2 & H3).
  1-3: rewrite Hrows, length_map; exact HG.
  unfold example_at. rewrite Cii, Cam, Clb.
  rewrite H1, H2, H3, !List.map_map. auto.
Qed.

(** *** The metric callback and the three epochs *)




Lemma example_outcome :
  exists st out, run example_library small_config ∅ example_files = (st, Ok out).
Proof.
  destruct (run example_library small_config ∅ example_files) as [st [out|e]] eqn:E.
  - eauto.
  - pose proof example_run_succeeds as H. rewrite E in H. discriminate H.
Qed.

(** *** The run of the notebook: the main theorems *)




Lemma In_take {A} (x : A) k l : In x (take k l) -> In x l.
Proof.
  intros H. rewrite <- (firstn_skipn k l). apply in_or_app. now left.
Qed.




(** A run stopped by a malformed line: the statements up to the
    with-block, and the exception json.loads raised. *)
Example run_on_malformed_file :
  let '(st, r) := run example_library small_config ∅ {[ snapshot_path := malformed_file ]} in
  executed st = [ s_setLevel;
                  s_environ_set (u "TOKENIZERS_PARALLELISM") (u "false");
                  s_open snapshot_path (u "r") (u "utf-8") ] /\
  is_Ok r = false.
Proof. vm_compute. split; reflexivity. Qed.




Lemma notebook_config_constants :
  MAX_EPOCHS notebook_config = 1 /\ LEARNING_RATE notebook_config = 1 # 1000.
Proof. split; reflexivity. Qed.



(** *** Further properties of the run *)

(** A snapshot without a non-blank line among its first 200,000 lines
    gives an empty list of records, hence a frame without columns, and
    the selection of the three columns raises KeyError. *)
Theorem blank_snapshot_raises_KeyError (text : pystr) :
  nonblank_head 200000 (readlines text) = [] ->
  load_cell text = Raise KeyError.
Proof.
  intros H. rewrite (load_cell_parsed text []); [reflexivity|].
  rewrite H. constructor.
Qed.

Lemma blank_snapshot_raises_KeyError_witness :
  load_cell (file_of_lines [u "  "; u ""]) = Raise KeyError.
Proof.
  apply (blank_snapshot_raises_KeyError (file_of_lines [u "  "; u ""])).
  reflexivity.
Defined.

(** Without the snapshot file the run stops at the with-block, after
    three statements, with FileNotFoundError. *)
Theorem missing_snapshot_raises_FileNotFoundError
    (lib : Library) (cfg : Config) (env fs : gmap pystr pystr) :
  fs !! snapshot_path = None ->
  snd (run lib cfg env fs) = Raise FileNotFoundError /\
  executed (fst (run lib cfg env fs))
  = [ s_setLevel;
      s_environ_set (u "TOKENIZERS_PARALLELISM") (u "false");
      s_open snapshot_path (u "r") (u "utf-8") ].
Proof.
  intros Hf.
  destruct (run lib cfg env fs) as [st r] eqn:H. cbn [fst snd].
  nb_unfold H.
  repeat nb_step H.
  all: cbn [files record initial_state] in *.
  all: match goal with
       | E : _ = Some _ |- _ => rewrite Hf in E; discriminate E
       | _ => idtac
       end.
  injection H as <- <-. split; reflexivity.
Qed.

Lemma missing_snapshot_raises_FileNotFoundError_witness :
  snd (run example_library notebook_config ∅ ∅) = Raise FileNotFoundError.
Proof.
  apply (missing_snapshot_raises_FileNotFoundError example_library notebook_config ∅ ∅).
  reflexivity.
Defined.



(** *** json.loads and the white space around a value *)

Module JsonSpace.
Import Json.

(** What the scanner asks of a character, answered for white space. *)
Lemma ws_facts w :
  is_ws w = true ->
  (forall k, In k [34; 92; 117; 45; 48; 46; 101; 69; 43; 123; 91; 125; 93; 44; 58;
                   110; 116; 102; 78; 73; 65279]%N -> N.eqb w k = false /\ N.eqb k w = false) /\
  hex_digit w = None /\ simple_escape w = None /\ is_digit w = false.
Proof.
  unfold is_ws. rewrite !orb_true_iff, !N.eqb_eq.
  intros [[[-> | ->] | ->] | ->]; (split; [|repeat split]);
    intros k Hk; cbn [In] in Hk;
    repeat (destruct Hk as [<-|Hk]; [split; reflexivity|]); contradiction.
Qed.

Ltac ws_rewrite W :=
  repeat match goal with
         | |- context [N.eqb ?a ?k] =>
           first [ rewrite (proj1 (W k ltac:(cbn [In]; tauto)))
                 | rewrite (proj2 (W a ltac:(cbn [In]; tauto))) ]
         end.

Lemma skip_ws_snoc w s :
  is_ws w = true ->
  skip_ws (s ++ [w]) = match skip_ws s with [] => [] | c :: r => c :: r ++ [w] end.
Proof.
  intros Hw. induction s as [|c s IH]; cbn [app skip_ws].
  - rewrite Hw. reflexivity.
  - destruct (is_ws c); [exact IH | reflexivity].
Qed.

Lemma span_digits_snoc w s :
  is_ws w = true ->
  span_digits (s ++ [w]) = (fst (span_digits s), snd (span_digits s) ++ [w]).
Proof.
  intros Hw. destruct (ws_facts w Hw) as (_ & _ & _ & D).
  induction s as [|c s IH]; cbn [app span_digits].
  - rewrite D. reflexivity.
  - destruct (is_digit c); [|reflexivity].
    rewrite IH. destruct (span_digits s). reflexivity.
Qed.

Lemma startswith_snoc w p :
  ~ In w p -> forall s, startswith (s ++ [w]) p = startswith s p.
Proof.
  induction p as [|a p IH]; intros Hn s; [destruct s; reflexivity|].
  destruct s as [|b s]; cbn [app startswith].
  - replace (N.eqb a w) with false; [reflexivity|].
    symmetry. apply N.eqb_neq. intros ->. apply Hn. now left.
  - rewrite IH; [reflexivity|]. intros H. apply Hn. now right.
Qed.

Lemma startswith_length s : forall p, startswith s p = true -> (length p <= length s)%nat.
Proof.
  induction s as [|b s IH]; intros [|a p] H; cbn [length]; try lia; try discriminate H.
  cbn [startswith] in H. apply andb_true_iff in H as [_ H]. apply IH in H. lia.
Qed.

Lemma scanstring_snoc w :
  is_ws w = true ->
  forall n s acc, (length s <= n)%nat ->
  scanstring (s ++ [w]) acc
  = match scanstring s acc with
    | Some (k, r) => Some (k, r ++ [w])
    | None => None
    end.
Proof.
  intros Hw. destruct (ws_facts w Hw) as (W & Hhex & Hesc & _).
  assert (Base : forall acc, scanstring [w] acc = None).
  { intros acc. cbn [scanstring]. ws_rewrite W. destruct (w <=? 31)%N; reflexivity. }
  induction n as [|n IH]; intros s acc Hn.
  - destruct s; [apply Base | cbn [length] in Hn; lia].
  - destruct s as [|c r]; [apply Base|].
    cbn [length] in Hn. cbn [app scanstring].
    destruct (N.eqb c 34); [reflexivity|].
    destruct (N.eqb c 92).
    + destruct r as [|e r1]; cbn [app].
      { ws_rewrite W. rewrite Hesc. reflexivity. }
      cbn [length] in Hn. destruct (N.eqb e 117).
      * destruct r1 as [|h1 [|h2 [|h3 [|h4 r2]]]]; cbn [app]; try reflexivity.
        { unfold hex4. rewrite Hhex.
          destruct (hex_digit h1), (hex_digit h2), (hex_digit h3); reflexivity. }
        cbn [length] in Hn.
        destruct (hex4 h1 h2 h3 h4) as [cp|]; [|reflexivity].
        destruct r2 as [|b [|v [|g1 [|g2 [|g3 [|g4 r3]]]]]]; cbn [app].
        -- apply (IH []). cbn [length]. lia.
        -- apply (IH [b]). cbn [length]. lia.
        -- apply (IH [b; v]). cbn [length]. lia.
        -- apply (IH [b; v; g1]). cbn [length]. lia.
        -- apply (IH [b; v; g1; g2]). cbn [length]. lia.
        -- destruct (is_high_surrogate cp && N.eqb b 92 && N.eqb v 117) eqn:E.
           ++ apply andb_true_iff in E as [E Ev]. apply andb_true_iff in E as [_ Eb].
              apply N.eqb_eq in Eb, Ev. subst b v.
              unfold hex4 at 1. rewrite Hhex.
              destruct (hex_digit g1), (hex_digit g2), (hex_digit g3); reflexivity.
           ++ apply (IH [b; v; g1; g2; g3]). cbn [length]. lia.
        -- cbn [length] in Hn.
           destruct (is_high_surrogate cp && N.eqb b 92 && N.eqb v 117).
           ++ destruct (hex4 g1 g2 g3 g4) as [cp2|]; [|reflexivity].
              destruct (is_low_surrogate cp2).
              ** apply IH. lia.
              ** apply (IH (b :: v :: g1 :: g2 :: g3 :: g4 :: r3)). cbn [length]. lia.
           ++ apply (IH (b :: v :: g1 :: g2 :: g3 :: g4 :: r3)). cbn [length]. lia.
      * destruct (simple_escape e); [|reflexivity]. apply IH. lia.
    + destruct (c <=? 31)%N; [reflexivity|]. apply IH. lia.
Qed.

Lemma match_number_stages s :
  match_number s =
  let '(neg, s1) := number_sign s in
  match number_integer s1 with
  | None => None
  | Some (ids, r1) =>
    let '(frac, r2) := number_fraction r1 in
    let '(expo, r3) := number_exponent r2 in
    number_value neg ids frac expo r3
  end.
Proof.
  unfold match_number, number_sign.
  destruct s as [|c r]; [reflexivity|].
  destruct (N.eqb c 45); [destruct r|]; reflexivity.
Qed.

Lemma number_exponent_snoc w r :
  is_ws w = true ->
  number_exponent (r ++ [w]) = (fst (number_exponent r), snd (number_exponent r) ++ [w]).
Proof.
  intros Hw. destruct (ws_facts w Hw) as (W & _ & _ & D).
  unfold number_exponent.
  destruct r as [|e r']; cbn [app].
  { ws_rewrite W. reflexivity. }
  destruct (N.eqb e 101 || N.eqb e 69); [|reflexivity].
  destruct r' as [|sg r'']; cbn [app].
  { ws_rewrite W. cbn [orb span_digits]. rewrite D. reflexivity. }
  destruct (N.eqb sg 45 || N.eqb sg 43).
  - rewrite (span_digits_snoc w r'' Hw). destruct (span_digits r'') as [ds r3].
    cbn [fst snd]. destruct ds; reflexivity.
  - change (sg :: r'' ++ [w]) with ((sg :: r'') ++ [w]).
    rewrite (span_digits_snoc w (sg :: r'') Hw).
    destruct (span_digits (sg :: r'')) as [ds r3].
    cbn [fst snd]. destruct ds; reflexivity.
Qed.

Lemma number_fraction_snoc w r :
  is_ws w = true ->
  number_fraction (r ++ [w]) = (fst (number_fraction r), snd (number_fraction r) ++ [w]).
Proof.
  intros Hw. destruct (ws_facts w Hw) as (W & _ & _ & D).
  unfold number_fraction.
  destruct r as [|dot [|d r']]; cbn [app]; [reflexivity| |].
  - rewrite D, andb_false_r. reflexivity.
  - destruct (N.eqb dot 46 && is_digit d); [|reflexivity].
    rewrite (span_digits_snoc w r' Hw). destruct (span_digits r'). reflexivity.
Qed.

Lemma number_integer_snoc w s :
  is_ws w = true ->
  number_integer (s ++ [w])
  = match number_integer s with
    | Some (ids, r) => Some (ids, r ++ [w])
    | None => None
    end.
Proof.
  intros Hw. destruct (ws_facts w Hw) as (W & _ & _ & D).
  unfold number_integer.
  destruct s as [|c r]; cbn [app].
  { ws_rewrite W. rewrite D. reflexivity. }
  destruct (N.eqb c 48); [reflexivity|].
  destruct (is_digit c); [|reflexivity].
  rewrite (span_digits_snoc w r Hw). destruct (span_digits r). reflexivity.
Qed.

Lemma number_sign_snoc w s :
  is_ws w = true ->
  number_sign (s ++ [w]) = (fst (number_sign s), snd (number_sign s) ++ [w]).
Proof.
  intros Hw. destruct (ws_facts w Hw) as (W & _).
  unfold number_sign.
  destruct s as [|c r]; cbn [app].
  { ws_rewrite W. reflexivity. }
  destruct (N.eqb c 45); reflexivity.
Qed.

Lemma match_number_snoc w s :
  is_ws w = true ->
  match_number (s ++ [w])
  = match match_number s with
    | Some (v, r) => Some (v, r ++ [w])
    | None => None
    end.
Proof.
  intros Hw. rewrite !match_number_stages.
  rewrite (number_sign_snoc w s Hw). destruct (number_sign s) as [neg s1]. cbn [fst snd].
  rewrite (number_integer_snoc w s1 Hw).
  destruct (number_integer s1) as [[ids r1]|]; [|reflexivity].
  rewrite (number_fraction_snoc w r1 Hw). destruct (number_fraction r1) as [frac r2].
  cbn [fst snd].
  rewrite (number_exponent_snoc w r2 Hw). destruct (number_exponent r2) as [expo r3].
  cbn [fst snd]. unfold number_value.
  destruct frac, expo; try reflexivity.
  destruct (Nat.leb (length ids) max_str_digits); reflexivity.
Qed.

Lemma ws_not_in_literal w :
  is_ws w = true ->
  forall lit,
    In lit [u "null"; u "true"; u "false"; u "NaN"; u "Infinity"; u "-Infinity"; [65279%N]] ->
    ~ In w lit.
Proof.
  unfold is_ws. rewrite !orb_true_iff, !N.eqb_eq.
  intros [[[-> | ->] | ->] | ->] lit Hlit; cbn [In] in Hlit;
    repeat (destruct Hlit as [<-|Hlit]; [cbn; intuition discriminate|]); contradiction.
Qed.

Lemma snoc_rest_stuck {A} w (p : parsed A) :
  (forall v r, p <> Parsed v r) -> p = snoc_rest w p.
Proof. destruct p as [v r| |]; intros H; [destruct (H v r eq_refl)|reflexivity|reflexivity]. Qed.

Lemma array_items_empty fuel acc v r : array_items fuel [] acc <> Parsed v r.
Proof. destruct fuel as [|[|f]]; discriminate. Qed.

Lemma object_items_empty fuel acc v r : object_items fuel [] acc <> Parsed v r.
Proof. destruct fuel; discriminate. Qed.

Lemma scan_once_empty fuel v r : scan_once fuel [] <> Parsed v r.
Proof. destruct fuel; discriminate. Qed.

Lemma literal_snoc w (lit s : pystr) :
  ~ In w lit ->
  startswith (s ++ [w]) lit = startswith s lit /\
  (startswith s lit = true -> drop (length lit) (s ++ [w]) = drop (length lit) s ++ [w]).
Proof.
  intros H. split; [apply startswith_snoc; exact H|].
  intros Hs. apply drop_app_le. apply startswith_length. exact Hs.
Qed.

(** One more white space character at the end of the text is one more
    character in what the scanner leaves. *)
Lemma scan_snoc w :
  is_ws w = true ->
  forall fuel,
    (forall s, scan_once fuel (s ++ [w]) = snoc_rest w (scan_once fuel s)) /\
    (forall s acc, array_items fuel (s ++ [w]) acc = snoc_rest w (array_items fuel s acc)) /\
    (forall s acc, object_items fuel (s ++ [w]) acc = snoc_rest w (object_items fuel s acc)).
Proof.
  intros Hw. destruct (ws_facts w Hw) as (W & _).
  pose proof (fun r => skip_ws_snoc w r Hw) as Skip.
  pose proof (ws_not_in_literal w Hw) as Lit.
  induction fuel as [|f (IHs & IHa & IHo)]; [repeat split; reflexivity|].
  repeat split.
  - intros s.
    change (scan_once (S f) (s ++ [w]))
      with (match s ++ [w] with
            | [] => Malformed
            | c :: r =>
              if N.eqb c 34 then
                match scanstring r [] with
                | Some (str, r') => Parsed (PyStr str) r'
                | None => Malformed
                end
              else if N.eqb c 123 then
                match skip_ws r with
                | c' :: r' =>
                  if N.eqb c' 125 then Parsed (PyDict []) r'
                  else object_items f (c' :: r') []
                | [] => Malformed
                end
              else if N.eqb c 91 then
                match skip_ws r with
                | c' :: r' =>
                  if N.eqb c' 93 then Parsed (PyList []) r'
                  else array_items f (c' :: r') []
                | [] => Malformed
                end
              else if startswith (s ++ [w]) (u "null") then Parsed PyNone (drop 4 (s ++ [w]))
              else if startswith (s ++ [w]) (u "true") then Parsed (PyBool true) (drop 4 (s ++ [w]))
              else if startswith (s ++ [w]) (u "false") then Parsed (PyBool false) (drop 5 (s ++ [w]))
              else if startswith (s ++ [w]) (u "NaN") then Parsed PyNaN (drop 3 (s ++ [w]))
              else if startswith (s ++ [w]) (u "Infinity") then Parsed (PyInf false) (drop 8 (s ++ [w]))
              else if startswith (s ++ [w]) (u "-Infinity") then Parsed (PyInf true) (drop 9 (s ++ [w]))
              else
                match match_number (s ++ [w]) with
                | Some (v, r') => Parsed v r'
                | None => Malformed
                end
            end).
    destruct (literal_snoc w (u "null") s) as [L1 D1]; [apply Lit; cbn [In]; tauto|].
    destruct (literal_snoc w (u "true") s) as [L2 D2]; [apply Lit; cbn [In]; tauto|].
    destruct (literal_snoc w (u "false") s) as [L3 D3]; [apply Lit; cbn [In]; tauto|].
    destruct (literal_snoc w (u "NaN") s) as [L4 D4]; [apply Lit; cbn [In]; tauto|].
    destruct (literal_snoc w (u "Infinity") s) as [L5 D5]; [apply Lit; cbn [In]; tauto|].
    destruct (literal_snoc w (u "-Infinity") s) as [L6 D6]; [apply Lit; cbn [In]; tauto|].
    rewrite L1, L2, L3, L4, L5, L6, (match_number_snoc w s Hw).
    destruct s as [|c r].
    { cbn [app]. ws_rewrite W. reflexivity. }
    cbn [app scan_once].
    destruct (N.eqb c 34).
    { rewrite (scanstring_snoc w Hw (length r) r [] (le_n _)).
      destruct (scanstring r []) as [[str r']|]; reflexivity. }
    destruct (N.eqb c 123).
    { rewrite Skip. destruct (skip_ws r) as [|c' r']; [reflexivity|].
      destruct (N.eqb c' 125); [reflexivity|]. exact (IHo (c' :: r') []). }
    destruct (N.eqb c 91).
    { rewrite Skip. destruct (skip_ws r) as [|c' r']; [reflexivity|].
      destruct (N.eqb c' 93); [reflexivity|]. exact (IHa (c' :: r') []). }
    destruct (startswith (c :: r) (u "null")); [cbn [snoc_rest]; f_equal; exact (D1 eq_refl)|].
    destruct (startswith (c :: r) (u "true")); [cbn [snoc_rest]; f_equal; exact (D2 eq_refl)|].
    destruct (startswith (c :: r) (u "false")); [cbn [snoc_rest]; f_equal; exact (D3 eq_refl)|].
    destruct (startswith (c :: r) (u "NaN")); [cbn [snoc_rest]; f_equal; exact (D4 eq_refl)|].
    destruct (startswith (c :: r) (u "Infinity"));
      [cbn [snoc_rest]; f_equal; exact (D5 eq_refl)|].
    destruct (startswith (c :: r) (u "-Infinity"));
      [cbn [snoc_rest]; f_equal; exact (D6 eq_refl)|].
    destruct (match_number (c :: r)) as [[v r']|]; reflexivity.
  - intros s acc. cbn [array_items]. rewrite IHs.
    destruct (scan_once f s) as [v r| |]; cbn [snoc_rest]; try reflexivity.
    rewrite Skip. destruct (skip_ws r) as [|c r']; [reflexivity|].
    destruct (N.eqb c 93); [reflexivity|].
    destruct (N.eqb c 44); [|reflexivity].
    rewrite Skip. destruct (skip_ws r') as [|c2 r2].
    + apply snoc_rest_stuck. intros v' r''. apply array_items_empty.
    + exact (IHa (c2 :: r2) (v :: acc)).
  - intros s acc. destruct s as [|q r]; cbn [app object_items].
    { ws_rewrite W. reflexivity. }
    destruct (N.eqb q 34); [|reflexivity].
    rewrite (scanstring_snoc w Hw (length r) r [] (le_n _)).
    destruct (scanstring r []) as [[key r1]|]; [|reflexivity].
    rewrite Skip. destruct (skip_ws r1) as [|colon r2]; [reflexivity|].
    destruct (N.eqb colon 58); [|reflexivity].
    rewrite Skip. destruct (skip_ws r2) as [|c3 r3].
    { destruct f; reflexivity. }
    change (c3 :: r3 ++ [w]) with ((c3 :: r3) ++ [w]). rewrite IHs.
    destruct (scan_once f (c3 :: r3)) as [v r4| |]; cbn [snoc_rest]; try reflexivity.
    rewrite Skip. destruct (skip_ws r4) as [|c5 r5]; [reflexivity|].
    destruct (N.eqb c5 125); [reflexivity|].
    destruct (N.eqb c5 44); [|reflexivity].
    rewrite Skip. destruct (skip_ws r5) as [|c6 r6].
    + apply snoc_rest_stuck. intros v' r''. apply object_items_empty.
    + exact (IHo (c6 :: r6) (dict_set acc key v)).
Qed.

(** A result that did not run out of fuel is the result with any more
    fuel. *)
Lemma more_fuel : forall f f', (f <= f')%nat ->
  (forall s, scan_once f s <> OutOfFuel -> scan_once f' s = scan_once f s) /\
  (forall s acc, array_items f s acc <> OutOfFuel ->
                 array_items f' s acc = array_items f s acc) /\
  (forall s acc, object_items f s acc <> OutOfFuel ->
                 object_items f' s acc = object_items f s acc).
Proof.
  induction f as [|f IH]; intros f' Hle.
  - repeat split; intros; cbn in *; congruence.
  - destruct f' as [|f']; [lia|].
    destruct (IH f' ltac:(lia)) as (IHs & IHa & IHo).
    repeat split.
    + intros s H. cbn [scan_once] in *.
      destruct s as [|c r]; [reflexivity|].
      destruct (N.eqb c 34); [reflexivity|].
      destruct (N.eqb c 123).
      { destruct (skip_ws r) as [|c' r']; [reflexivity|].
        destruct (N.eqb c' 125); [reflexivity|]. apply IHo. exact H. }
      destruct (N.eqb c 91).
      { destruct (skip_ws r) as [|c' r']; [reflexivity|].
        destruct (N.eqb c' 93); [reflexivity|]. apply IHa. exact H. }
      reflexivity.
    + intros s acc H. cbn [array_items] in *.
      destruct (scan_once f s) as [v r| |] eqn:E.
      * rewrite (IHs s) by (rewrite E; discriminate). rewrite E.
        destruct (skip_ws r) as [|c r']; [reflexivity|].
        destruct (N.eqb c 93); [reflexivity|].
        destruct (N.eqb c 44); [|reflexivity]. apply IHa. exact H.
      * rewrite (IHs s) by (rewrite E; discriminate). rewrite E. reflexivity.
      * congruence.
    + intros s acc H. cbn [object_items] in *.
      destruct s as [|q r]; [reflexivity|].
      destruct (N.eqb q 34); [|reflexivity].
      destruct (scanstring r []) as [[key r1]|]; [|reflexivity].
      destruct (skip_ws r1) as [|colon r2]; [reflexivity|].
      destruct (N.eqb colon 58); [|reflexivity].
      destruct (scan_once f (skip_ws r2)) as [v r3| |] eqn:E.
      * rewrite (IHs (skip_ws r2)) by (rewrite E; discriminate). rewrite E.
        destruct (skip_ws r3) as [|c r4]; [reflexivity|].
        destruct (N.eqb c 125); [reflexivity|].
        destruct (N.eqb c 44); [|reflexivity]. apply IHo. exact H.
      * rewrite (IHs (skip_ws r2)) by (rewrite E; discriminate). rewrite E. reflexivity.
      * congruence.
Qed.

Lemma loads_snoc w s : is_ws w = true -> loads (s ++ [w]) = loads s.
Proof.
  intros Hw. unfold loads.
  rewrite (startswith_snoc w [65279%N]) by (apply (ws_not_in_literal w Hw); cbn [In]; tauto).
  destruct (startswith s [65279%N]); [reflexivity|].
  pose proof (JsonFacts.loads_fuel s) as Hf.
  assert (Hle : (fuel_for s <= fuel_for (s ++ [w]))%nat).
  { unfold fuel_for. rewrite length_app. lia. }
  rewrite (skip_ws_snoc w s Hw).
  destruct (skip_ws s) as [|c r] eqn:E.
  - unfold fuel_for. rewrite !(Nat.add_comm _ 2). reflexivity.
  - change (c :: r ++ [w]) with ((c :: r) ++ [w]).
    rewrite (proj1 (scan_snoc w Hw _)).
    rewrite (proj1 (more_fuel _ _ Hle) (c :: r) Hf).
    destruct (scan_once (fuel_for s) (c :: r)) as [v r'| |]; cbn [snoc_rest]; try reflexivity.
    rewrite (skip_ws_snoc w r' Hw). destruct (skip_ws r'); reflexivity.
Qed.

Lemma loads_cons w s : is_ws w = true -> loads (w :: s) = loads s.
Proof.
  intros Hw. destruct (ws_facts w Hw) as (W & _). unfold loads.
  cbn [startswith skip_ws]. ws_rewrite W. cbn [andb]. rewrite Hw.
  pose proof (JsonFacts.loads_fuel s) as Hf.
  assert (Hle : (fuel_for s <= fuel_for (w :: s))%nat).
  { unfold fuel_for. cbn [length]. lia. }
  rewrite (proj1 (more_fuel _ _ Hle) (skip_ws s) Hf).
  destruct s as [|c r]; [reflexivity|].
  cbn [startswith].
  destruct (N.eqb_spec 65279 c) as [<-|Hc]; cbn [andb]; [|reflexivity].
  replace (startswith r []) with true by (destruct r; reflexivity).
  unfold fuel_for. rewrite (Nat.add_comm _ 2). reflexivity.
Qed.

Lemma loads_app_ws s ws : forallb is_ws ws = true -> loads (s ++ ws) = loads s.
Proof.
  induction ws as [|w ws IH] using rev_ind; intros H.
  - rewrite app_nil_r. reflexivity.
  - rewrite forallb_app in H. apply andb_true_iff in H as [H1 H2].
    cbn [forallb] in H2. rewrite andb_true_r in H2.
    rewrite app_assoc, (loads_snoc w (s ++ ws) H2). apply IH. exact H1.
Qed.

Lemma loads_ws_app ws s : forallb is_ws ws = true -> loads (ws ++ s) = loads s.
Proof.
  induction ws as [|w ws IH]; intros H; [reflexivity|].
  cbn [forallb] in H. apply andb_true_iff in H as [H1 H2].
  cbn [app]. rewrite (loads_cons w (ws ++ s) H1). apply IH. exact H2.
Qed.

End JsonSpace.

(** json.loads is handed each line as the file iteration delivers it,
    with its line end.  The white space of JSON (space, tab, line feed,
    carriage return) before and after the value is of no effect: the
    text with it decodes to the same value, or is refused, as the text
    without it. *)
Theorem json_white_space_around_a_value_is_skipped (pre s post : pystr) :
  forallb Json.is_ws pre = true ->
  forallb Json.is_ws post = true ->
  Json.loads (pre ++ s ++ post) = Json.loads s.
Proof.
  intros Hpre Hpost.
  rewrite (JsonSpace.loads_ws_app pre (s ++ post) Hpre).
  apply JsonSpace.loads_app_ws. exact Hpost.
Qed.

Lemma json_white_space_around_a_value_is_skipped_witness :
  Json.loads ([32%N] ++ jtext "{'id': '1'}" ++ [13%N; 10%N]) = Json.loads (jtext "{'id': '1'}").
Proof.
  apply (json_white_space_around_a_value_is_skipped [32%N] (jtext "{'id': '1'}") [13%N; 10%N]);
    reflexivity.
Defined.

(** *** Blank lines and line feeds in the loop *)

Lemma lstrip_nil s : lstrip s = [] <-> forallb py_isspace s = true.
Proof.
  induction s as [|c s IH]; cbn [lstrip forallb]; [tauto|].
  destruct (py_isspace c); cbn [andb]; [exact IH|]. split; discriminate.
Qed.

(** A line is blank when all its characters are white space. *)
Lemma blank_spec l : blank l = forallb py_isspace l.
Proof.
  unfold blank, strip, rstrip.
  destruct (forallb py_isspace l) eqn:E.
  - apply lstrip_nil in E. rewrite E. reflexivity.
  - destruct (lstrip l) as [|c r] eqn:El.
    { apply lstrip_nil in El. congruence. }
    assert (Hc : py_isspace c = false).
    { clear E. induction l as [|a l IH]; [discriminate|].
      cbn [lstrip] in El. destruct (py_isspace a) eqn:Ea; [exact (IH El)|].
      injection El as -> _. exact Ea. }
    destruct (lstrip (rev (c :: r))) as [|c' r'] eqn:E2.
    + apply lstrip_nil in E2. rewrite forallb_forall in E2.
      rewrite (E2 c) in Hc; [discriminate|]. apply in_rev. rewrite rev_involutive. now left.
    + destruct (rev (c' :: r')) eqn:E3; [|reflexivity].
      apply (f_equal (@rev _)) in E3. rewrite rev_involutive in E3. discriminate E3.
Qed.

Lemma blank_line_end l : blank (l ++ [10%N]) = blank l.
Proof. rewrite !blank_spec, forallb_app. cbn. apply andb_true_r. Qed.

Lemma read_loop_line_ends limit ls : forall i acc,
  read_loop limit i (List.map (fun l => l ++ [10%N]) ls) acc = read_loop limit i ls acc.
Proof.
  induction ls as [|l ls IH]; intros i acc; [reflexivity|].
  cbn [List.map read_loop].
  rewrite blank_line_end, (JsonSpace.loads_snoc 10 l eq_refl).
  destruct (i >=? limit); [reflexivity|].
  destruct (blank l); [apply IH|].
  destruct (Json.loads l); [apply IH | reflexivity].
Qed.

(** *** The loading loop: blank lines, line ends and the budget *)

Lemma filter_all {A} (P : A -> bool) (l : list A) :
  List.Forall (fun a => P a = true) l -> List.filter P l = l.
Proof.
  induction 1 as [|a l Ha _ IH]; simpl; [reflexivity|].
  rewrite Ha, IH. reflexivity.
Qed.

Lemma filter_idemp {A} (P : A -> bool) (l : list A) :
  List.filter P (List.filter P l) = List.filter P l.
Proof.
  apply filter_all. apply List.Forall_forall. intros a Ha.
  apply filter_In in Ha. tauto.
Qed.

Lemma nonblank_head_all limit lines :
  Z.of_nat (length lines) <= limit ->
  nonblank_head limit lines = List.filter (fun l => negb (blank l)) lines.
Proof.
  intros H. unfold nonblank_head. rewrite take_ge by lia. reflexivity.
Qed.

Lemma skipping_blank_lines limit lines :
  Z.of_nat (length lines) <= limit ->
  read_loop limit 0 lines []
  = read_loop limit 0 (List.filter (fun l => negb (blank l)) lines) [].
Proof.
  intros H. rewrite !read_loop_spec, !Z.sub_0_r.
  rewrite (nonblank_head_all limit lines H).
  rewrite nonblank_head_all.
  - rewrite filter_idemp. reflexivity.
  - pose proof (length_filter_le (fun l => negb (blank l)) lines). lia.
Qed.

(** In a snapshot of at most 200,000 lines the blank lines are of no
    effect: the loop gives what it gives on the file without them. *)
Theorem blank_lines_within_budget_change_nothing (lines : list pystr) :
  Z.of_nat (length lines) <= 200000 ->
  read_records lines = read_records (List.filter (fun l => negb (blank l)) lines).
Proof.
  intros H. unfold read_records, N_records. apply skipping_blank_lines. exact H.
Qed.

Lemma blank_lines_within_budget_change_nothing_witness :
  read_records [u ""; jtext "{'id': '1'}"; u " "; jtext "{'id': '2'}"]
  = read_records [jtext "{'id': '1'}"; jtext "{'id': '2'}"].
Proof.
  apply (blank_lines_within_budget_change_nothing
           [u ""; jtext "{'id': '1'}"; u " "; jtext "{'id': '2'}"]).
  simpl. lia.
Defined.

Lemma parse_lines_Some ls :
  List.Forall (fun l => Json.loads l <> None) ls -> exists vs, parse_lines ls = Some vs.
Proof.
  induction 1 as [|l ls Hl _ [vs IH]]; simpl.
  - exists []. reflexivity.
  - destruct (Json.loads l) as [v|]; [|congruence].
    rewrite IH. exists (v :: vs). reflexivity.
Qed.

(** When the first [limit] lines are all non-blank and all decode, the
    loop returns exactly [limit] records, the values of these lines in
    their order, whatever follows them in the file.  The cell runs the
    loop with the limit 200,000. *)
Theorem clean_head_fills_the_budget (limit : Z) (lines : list pystr) :
  0 <= limit ->
  (Z.to_nat limit <= length lines)%nat ->
  List.Forall (fun l => blank l = false /\ Json.loads l <> None)
              (take (Z.to_nat limit) lines) ->
  exists records,
    read_loop limit 0 lines [] = Ok records /\
    Z.of_nat (length records) = limit /\
    Forall2 (fun line r => Json.loads line = Some r) (take (Z.to_nat limit) lines) records.
Proof.
  intros H0 Hn HF.
  rewrite read_loop_spec, Z.sub_0_r. unfold nonblank_head.
  rewrite filter_all.
  2:{ eapply List.Forall_impl; [|exact HF]. cbn beta. intros l [-> _]. reflexivity. }
  destruct (parse_lines_Some (take (Z.to_nat limit) lines)) as [vs Hvs].
  { eapply List.Forall_impl; [|exact HF]. cbn beta. tauto. }
  rewrite Hvs. exists vs. split; [reflexivity|].
  pose proof (parse_lines_Forall2 _ _ Hvs) as F2.
  split; [|exact F2].
  apply Forall2_length_eq in F2. rewrite <- F2, length_take. lia.
Qed.

Lemma clean_head_fills_the_budget_witness :
  exists records,
    read_loop 2 0 [jtext "{'id': '1'}"; jtext "{'id': '2'}"; jtext "{not json"] []
    = Ok records /\
    Z.of_nat (length records) = 2 /\
    Forall2 (fun line r => Json.loads line = Some r)
            (take (Z.to_nat 2) [jtext "{'id': '1'}"; jtext "{'id': '2'}"; jtext "{not json"])
            records.
Proof.
  apply (clean_head_fills_the_budget 2
           [jtext "{'id': '1'}"; jtext "{'id': '2'}"; jtext "{not json"]).
  - lia.
  - simpl. lia.
  - repeat constructor; vm_compute; discriminate.
Defined.

(** **** Line ends *)

Lemma readlines_from_LF l : forall cur rest,
  free_of_line_ends l = true ->
  readlines_from cur (l ++ 10%N :: rest) = (rev cur ++ l ++ [10%N]) :: readlines_from [] rest.
Proof.
  induction l as [|c l IH]; intros cur rest H.
  - reflexivity.
  - simpl in H. apply andb_true_iff in H as [Hc Hl].
    apply andb_true_iff in Hc as [H10 H13].
    apply negb_true_iff in H10, H13.
    cbn [app readlines_from]. rewrite H10, H13.
    rewrite IH by exact Hl. cbn [rev]. rewrite <- app_assoc. reflexivity.
Qed.

Lemma readlines_from_CRLF l : forall cur rest,
  free_of_line_ends l = true ->
  readlines_from cur (l ++ 13%N :: 10%N :: rest)
  = (rev cur ++ l ++ [10%N]) :: readlines_from [] rest.
Proof.
  induction l as [|c l IH]; intros cur rest H.
  - reflexivity.
  - simpl in H. apply andb_true_iff in H as [Hc Hl].
    apply andb_true_iff in Hc as [H10 H13].
    apply negb_true_iff in H10, H13.
    cbn [app readlines_from]. rewrite H10, H13.
    rewrite IH by exact Hl. cbn [rev]. rewrite <- app_assoc. reflexivity.
Qed.

Lemma readlines_from_CR l : forall cur rest,
  free_of_line_ends l = true ->
  match rest with d :: _ => N.eqb d 10 = false | [] => True end ->
  readlines_from cur (l ++ 13%N :: rest)
  = (rev cur ++ l ++ [10%N]) :: readlines_from [] rest.
Proof.
  induction l as [|c l IH]; intros cur rest H Hr.
  - cbn [app readlines_from]. cbn [N.eqb Pos.eqb].
    destruct rest as [|d r]; [reflexivity|]. rewrite Hr. reflexivity.
  - simpl in H. apply andb_true_iff in H as [Hc Hl].
    apply andb_true_iff in Hc as [H10 H13].
    apply negb_true_iff in H10, H13.
    cbn [app readlines_from]. rewrite H10, H13.
    rewrite IH by assumption. cbn [rev]. rewrite <- app_assoc. reflexivity.
Qed.

Lemma file_with_CR_head ls :
  List.Forall (fun l => free_of_line_ends l = true) ls ->
  match file_with_line_ends [13%N] ls with d :: _ => N.eqb d 10 = false | [] => True end.
Proof.
  destruct 1 as [|l ls Hl _]; [exact I|].
  unfold file_with_line_ends. cbn [List.map concat].
  destruct l as [|c l]; [reflexivity|].
  simpl in Hl. apply andb_true_iff in Hl as [Hc _].
  apply andb_true_iff in Hc as [H10 _]. apply negb_true_iff in H10. exact H10.
Qed.

Lemma readlines_line_ends (e : pystr) (ls : list pystr) :
  e = [10%N] \/ e = [13%N; 10%N] \/ e = [13%N] ->
  List.Forall (fun l => free_of_line_ends l = true) ls ->
  readlines (file_with_line_ends e ls) = List.map (fun l => l ++ [10%N]) ls.
Proof.
  intros He H. unfold readlines.
  induction H as [|l ls Hl Hls IH]; [reflexivity|].
  unfold file_with_line_ends in *. cbn [List.map concat].
  rewrite <- app_assoc.
  destruct He as [-> | [-> | ->]]; cbn [app].
  - rewrite readlines_from_LF by exact Hl. rewrite IH. reflexivity.
  - rewrite readlines_from_CRLF by exact Hl. rewrite IH. reflexivity.
  - rewrite readlines_from_CR; [rewrite IH; reflexivity|exact Hl|].
    exact (file_with_CR_head ls Hls).
Qed.

(** The with-block opens the snapshot in text mode with the default
    newline handling, so the kind of line end is of no effect: lines
    ended by LF, by CR LF or by CR are handed to the loop in the same
    form, each with a single line feed, and the cell gives the same
    result.  The line feed itself is of no effect either: the result is
    that of the loop run on the bare text of the lines. *)
Theorem line_end_convention_does_not_matter (e : pystr) (ls : list pystr) :
  e = [10%N] \/ e = [13%N; 10%N] \/ e = [13%N] ->
  List.Forall (fun l => free_of_line_ends l = true) ls ->
  readlines (file_with_line_ends e ls) = List.map (fun l => l ++ [10%N]) ls /\
  load_cell (file_with_line_ends e ls) = load_cell (file_of_lines ls) /\
  load_cell (file_with_line_ends e ls) = rbind (read_records ls) build_frame.
Proof.
  intros He H. split; [apply readlines_line_ends; assumption|].
  unfold load_cell. rewrite (readlines_line_ends e ls He H).
  change (file_of_lines ls) with (file_with_line_ends [10%N] ls).
  rewrite (readlines_line_ends [10%N] ls) by auto.
  split; [reflexivity|].
  unfold read_records. rewrite read_loop_line_ends. reflexivity.
Qed.

Lemma line_end_convention_does_not_matter_witness :
  readlines (file_with_line_ends [13%N; 10%N] sample_lines)
  = List.map (fun l => l ++ [10%N]) sample_lines /\
  load_cell (file_with_line_ends [13%N; 10%N] sample_lines) = load_cell (file_of_lines sample_lines) /\
  load_cell (file_with_line_ends [13%N; 10%N] sample_lines)
  = rbind (read_records sample_lines) build_frame.
Proof.
  apply (line_end_convention_does_not_matter [13%N; 10%N] sample_lines).
  - right. left. reflexivity.
  - repeat constructor.
Defined.

(** **** White space that Python strips and JSON refuses *)

Lemma py_isspace_range c :
  py_isspace c = true -> (c <= 32 \/ 133 <= c <= 12288)%N.
Proof.
  unfold py_isspace. intros H.
  rewrite !orb_true_iff, !andb_true_iff, !N.leb_le, !N.eqb_eq in H. lia.
Qed.

Lemma scan_once_python_space fuel c rest :
  py_isspace c = true -> Json.is_ws c = false ->
  Json.scan_once (S fuel) (c :: rest) = Json.Malformed.
Proof.
  intros Hs Hw. apply py_isspace_range in Hs.
  assert (E : forall k, (33 <= k <= 132)%N -> N.eqb c k = false)
    by (intros k Hk; apply N.eqb_neq; lia).
  assert (E' : forall k, (33 <= k <= 132)%N -> N.eqb k c = false)
    by (intros k Hk; apply N.eqb_neq; lia).
  assert (D : Json.is_digit c = false).
  { unfold Json.is_digit. apply andb_false_iff.
    destruct Hs; [left; apply N.leb_gt; lia | right; apply N.leb_gt; lia]. }
  cbn [Json.scan_once].
  rewrite !E by lia.
  change (u "null") with [110; 117; 108; 108]%N.
  change (u "true") with [116; 114; 117; 101]%N.
  change (u "false") with [102; 97; 108; 115; 101]%N.
  change (u "NaN") with [78; 97; 78]%N.
  change (u "Infinity") with [73; 110; 102; 105; 110; 105; 116; 121]%N.
  change (u "-Infinity") with [45; 73; 110; 102; 105; 110; 105; 116; 121]%N.
  cbn [startswith].
  rewrite !E' by lia. cbn [andb].
  unfold Json.match_number. rewrite !E by lia. rewrite D. reflexivity.
Qed.

(** [line.strip()] removes more kinds of white space than [json.loads]
    skips.  A line that is not blank and starts with a character that
    Python counts as white space and JSON does not (a form feed, a
    vertical tab, a no-break space, ...) is handed to [json.loads]
    unstripped, is refused, and the loop ends with JSONDecodeError. *)
Theorem python_only_space_before_a_record_stops_the_load
    (c : N) (rest : pystr) (lines : list pystr) :
  py_isspace c = true ->
  Json.is_ws c = false ->
  blank (c :: rest) = false ->
  Json.loads (c :: rest) = None /\
  read_records ((c :: rest) :: lines) = Raise JSONDecodeError.
Proof.
  intros Hs Hw Hb.
  assert (L : Json.loads (c :: rest) = None).
  { unfold Json.loads.
    replace (startswith (c :: rest) [65279%N]) with false.
    2:{ symmetry. cbn [startswith]. apply andb_false_iff. left.
        apply N.eqb_neq. apply py_isspace_range in Hs. lia. }
    cbn [Json.skip_ws]. rewrite Hw.
    unfold Json.fuel_for. rewrite Nat.add_comm.
    change (2 + 2 * length (c :: rest))%nat with (S (S (2 * length (c :: rest)))).
    rewrite scan_once_python_space by assumption. reflexivity. }
  split; [exact L|].
  unfold read_records. cbn [read_loop]. unfold N_records. cbn [Z.geb Z.compare].
  rewrite Hb, L. reflexivity.
Qed.

Lemma python_only_space_before_a_record_stops_the_load_witness :
  Json.loads (12%N :: jtext "{'id': '1'}") = None /\
  read_records [12%N :: jtext "{'id': '1'}"] = Raise JSONDecodeError.
Proof.
  apply (python_only_space_before_a_record_stops_the_load 12 (jtext "{'id': '1'}") []);
    reflexivity.
Defined.

(** **** Records that are no objects, fields that are not read *)



(** After [dropna] no cell of the frame is missing: none is None, none
    is NaN. *)
Theorem loaded_frame_has_no_missing_value (text : pystr) (df : DataFrame) :
  load_cell text = Ok df ->
  List.Forall (List.Forall (fun v => v <> PyNone /\ v <> PyNaN)) (rows df).
Proof.
  intros H. apply load_cell_Ok in H as (records & _ & H).
  apply build_frame_Ok in H as (_ & _ & ->).
  apply List.Forall_forall. intros row Hrow.
  apply filter_In in Hrow as [_ Hc].
  apply List.Forall_forall. intros v Hv.
  unfold complete in Hc. rewrite forallb_forall in Hc.
  specialize (Hc v Hv). destruct v; simpl in Hc; split; congruence.
Qed.

Lemma loaded_frame_has_no_missing_value_witness :
  List.Forall (List.Forall (fun v => v <> PyNone /\ v <> PyNaN)) (rows sample_df).
Proof.
  apply (loaded_frame_has_no_missing_value sample_file sample_df).
  reflexivity.
Defined.









(** *** The split (cell 18ad6853) *)

Lemma train_test_split_Ok
    (lib : Library) (test_size : Q) (seed : Z) (ds train test : Dataset) :
  train_test_split (permutation lib) test_size seed ds = Ok (train, test) ->
  exists p_train p_test : list nat,
    train = take_rows p_train ds /\
    test = take_rows p_test ds /\
    Permutation (p_test ++ p_train) (seq 0 (num_rows ds)) /\
    length p_test = Z.to_nat (Qceiling (test_size * inject_Z (Z.of_nat (num_rows ds)))) /\
    (0 < length p_train)%nat /\
    (length p_test + length p_train = num_rows ds)%nat.
Proof.
  unfold train_test_split. intros H.
  destruct (negb (Qle_bool test_size 0) && negb (Qle_bool 1 test_size)); [|discriminate H].
  set (n := num_rows ds) in *.
  set (n_test := Z.to_nat (Qceiling (test_size * inject_Z (Z.of_nat n)))) in *.
  destruct (Nat.eqb (n - n_test) 0) eqn:E; [discriminate H|].
  apply Nat.eqb_neq in E.
  injection H as <- <-.
  pose proof (permutation_spec lib seed n) as P.
  pose proof (Permutation_length P) as L. rewrite length_seq in L.
  exists (take (n - n_test) (drop n_test (permutation lib seed n))),
         (take n_test (permutation lib seed n)).
  assert (T : take (n - n_test) (drop n_test (permutation lib seed n))
              = drop n_test (permutation lib seed n)).
  { apply take_ge. rewrite length_drop. lia. }
  rewrite T, take_drop, length_take, length_drop.
  repeat split; try reflexivity; try lia. exact P.
Qed.




(** *** The prefix (cell ca1c60d8) *)

Lemma startswith_spec : forall p s,
  startswith s p = true <-> exists rest, s = p ++ rest.
Proof.
  induction p as [|a p IH]; intros s.
  - destruct s; cbn; split; eauto.
  - destruct s as [|b s]; cbn [startswith].
    + split; [discriminate | intros [rest H]; discriminate H].
    + rewrite andb_true_iff, N.eqb_eq, IH. split.
      * intros [-> [rest ->]]. exists rest. reflexivity.
      * intros [rest H]. injection H as -> ->. split; [reflexivity | eauto].
Qed.

(** The task prefix goes to the checkpoints whose name starts with
    "t5-", in this spelling, and to no other: for any other name, such as
    "google/flan-t5-small" or "T5-small", the prefix is empty and the
    text that is tokenized is the abstract itself. *)
Theorem prefix_is_for_t5_names_only (cfg : Config) :
  (prefix cfg = u "summarize: " <-> exists rest, MODEL_CHECKPOINT cfg = u "t5-" ++ rest) /\
  ((forall rest, MODEL_CHECKPOINT cfg <> u "t5-" ++ rest) ->
   prefix cfg = [] /\ forall s, add_prefix cfg (PyStr s) = Ok (PyStr s)).
Proof.
  unfold add_prefix, prefix. split.
  - rewrite <- startswith_spec.
    destruct (startswith (MODEL_CHECKPOINT cfg) (u "t5-")); split; auto; discriminate.
  - intros H.
    destruct (startswith (MODEL_CHECKPOINT cfg) (u "t5-")) eqn:E.
    + apply startswith_spec in E as [rest E]. destruct (H rest E).
    + split; reflexivity.
Qed.

Example prefix_of_flan_t5 :
  startswith (u "google/flan-t5-small") (u "t5-") = false /\
  startswith (u "T5-small") (u "t5-") = false.
Proof. split; reflexivity. Qed.

(** *** preprocess_function on an arbitrary batch *)

Lemma map_result_add_prefix cfg texts :
  map_result (add_prefix cfg) texts =
  if forallb is_str texts
  then Ok (List.map (fun v => PyStr (prefix cfg ++ str_of v)) texts)
  else Raise TypeError.
Proof.
  induction texts as [|v r IH]; [reflexivity|].
  cbn [map_result forallb List.map]. rewrite IH.
  destruct v; try reflexivity.
  cbn. destruct (forallb is_str r); reflexivity.
Qed.

Lemma map_result_str texts :
  map_result (fun v => match v with PyStr s => Ok s | _ => Raise ValueError end) texts =
  if forallb is_str texts then Ok (List.map str_of texts) else Raise ValueError.
Proof.
  induction texts as [|v r IH]; [reflexivity|].
  cbn [map_result forallb List.map]. rewrite IH.
  destruct v; try reflexivity.
  cbn. destruct (forallb is_str r); reflexivity.
Qed.

Lemma tokenizer_call_cases tok enc texts n :
  tokenizer_call tok enc texts n =
  if forallb is_str texts then
    Ok {| enc_input_ids :=
            List.map (fun v => pad_to n (pad_token_id tok) (enc (str_of v) n)) texts;
          enc_attention_mask := List.map (fun v => mask_for n (enc (str_of v) n)) texts |}
  else Raise ValueError.
Proof.
  unfold tokenizer_call. rewrite map_result_str.
  destruct (forallb is_str texts); [|reflexivity].
  cbn [rbind]. rewrite !List.map_map. reflexivity.
Qed.

Lemma forallb_is_str_prefixed cfg texts :
  forallb is_str (List.map (fun v => PyStr (prefix cfg ++ str_of v)) texts) = true.
Proof. induction texts; [reflexivity|exact IHtexts]. Qed.

Lemma cell_ids_cell ids : cell_ids (ids_cell ids) = ids.
Proof.
  unfold cell_ids, ids_cell. rewrite List.map_map. apply map_id.
Qed.


Lemma preprocess_function_cases tok cfg (examples : Dataset) :
  preprocess_function tok cfg examples =
  match column examples (u "input_text") with
  | None => Raise KeyError
  | Some texts =>
    if forallb is_str texts then
      match column examples (u "target_text") with
      | None => Raise KeyError
      | Some targets =>
        if forallb is_str targets then Ok (tokenized_columns tok cfg texts targets)
        else Raise ValueError
      end
    else Raise TypeError
  end.
Proof.
  unfold preprocess_function, getitem.
  destruct (column examples (u "input_text")) as [texts|]; [|reflexivity].
  cbn [rbind]. rewrite map_result_add_prefix.
  destruct (forallb is_str texts); [|reflexivity].
  cbn [rbind]. rewrite tokenizer_call_cases, forallb_is_str_prefixed.
  cbn [rbind].
  destruct (column examples (u "target_text")) as [targets|]; [|reflexivity].
  cbn [rbind]. rewrite tokenizer_call_cases.
  destruct (forallb is_str targets); [|reflexivity].
  cbn [rbind enc_input_ids enc_attention_mask]. unfold tokenized_columns.
  rewrite !List.map_map. reflexivity.
Qed.



(** *** metric_fn on valid ids and on the callback's padding *)

Lemma clip_id lo hi (a : list (list Z)) :
  List.Forall (List.Forall (fun x => lo <= x <= hi)) a -> Numpy.clip a lo hi = a.
Proof.
  intros H. unfold Numpy.clip.
  rewrite <- (map_id a) at 2. apply map_ext_in. intros row Hrow.
  rewrite List.Forall_forall in H. specialize (H row Hrow).
  rewrite <- (map_id row) at 2. apply map_ext_in. intros x Hx.
  rewrite List.Forall_forall in H. specialize (H x Hx). lia.
Qed.

Lemma where_negative_id v (a : list (list Z)) :
  List.Forall (List.Forall (fun x => 0 <= x)) a -> Numpy.where_negative a v = a.
Proof.
  intros H. unfold Numpy.where_negative.
  rewrite <- (map_id a) at 2. apply map_ext_in. intros row Hrow.
  rewrite List.Forall_forall in H. specialize (H row Hrow).
  rewrite <- (map_id row) at 2. apply map_ext_in. intros x Hx.
  rewrite List.Forall_forall in H. specialize (H x Hx).
  destruct (Z.ltb_spec x 0); [lia|reflexivity].
Qed.

Lemma astype_int64_rows (a : list (list Z)) :
  List.Forall (List.Forall (fun x => - 2 ^ 63 <= x < 2 ^ 63)) a ->
  List.map (List.map Numpy.astype_int64) a = a.
Proof.
  intros H.
  rewrite <- (map_id a) at 2. apply map_ext_in. intros row Hrow.
  rewrite List.Forall_forall in H. specialize (H row Hrow).
  rewrite <- (map_id row) at 2. apply map_ext_in. intros x Hx.
  rewrite List.Forall_forall in H. specialize (H x Hx).
  apply astype_int64_id. exact H.
Qed.

Lemma Forall_rows_impl (P Q : Z -> Prop) (a : list (list Z)) :
  (forall x, P x -> Q x) ->
  List.Forall (List.Forall P) a -> List.Forall (List.Forall Q) a.
Proof.
  intros PQ H. eapply List.Forall_impl; [|exact H].
  intros row Hrow. eapply List.Forall_impl; [|exact Hrow]. exact PQ.
Qed.

(** Ids that are in order are decoded as they are: predictions all in
    the vocabulary pass the conversion to int64 and the clipping
    unchanged, labels none of which is negative pass np.where unchanged,
    and metric_fn scores the decoded arrays themselves. *)
Theorem valid_ids_are_scored_as_they_are
    (tok : Tokenizer) (preds labels : list (list Z)) :
  vocab_size tok <= 2 ^ 63 ->
  List.Forall (List.Forall (in_vocabulary tok)) preds ->
  List.Forall (List.Forall (fun id => 0 <= id)) labels ->
  clipped_preds tok preds = preds /\
  filled_labels tok labels = labels /\
  (forall (Score Rouge : Type)
          (rouge_call : Rouge -> list pystr -> list pystr -> Rouge * RougeScores Score)
          (rouge_l : Rouge),
      metric_fn rouge_call tok rouge_l (preds, labels) =
      let '(rouge_l', res) :=
        rouge_call rouge_l (batch_decode tok labels true) (batch_decode tok preds true) in
      (rouge_l', [(u "RougeL", f1_score res)])).
Proof.
  intros Hv Hp Hl.
  assert (P : clipped_preds tok preds = preds).
  { unfold clipped_preds. rewrite astype_int64_rows.
    - apply clip_id. exact Hp.
    - eapply Forall_rows_impl; [|exact Hp]. unfold in_vocabulary. intros x Hx. lia. }
  assert (L : filled_labels tok labels = labels).
  { unfold filled_labels. apply where_negative_id. exact Hl. }
  repeat split; [exact P | exact L |].
  intros Score Rouge rouge_call rouge_l. unfold metric_fn. rewrite P, L. reflexivity.
Qed.

Lemma valid_ids_are_scored_as_they_are_witness :
  clipped_preds example_tokenizer [[5; 0; 32099]] = [[5; 0; 32099]] /\
  filled_labels example_tokenizer [[17; 0; 1]] = [[17; 0; 1]].
Proof.
  destruct (valid_ids_are_scored_as_they_are example_tokenizer [[5; 0; 32099]] [[17; 0; 1]])
    as (H1 & H2 & _).
  - simpl. lia.
  - repeat constructor; simpl; lia.
  - repeat constructor; lia.
  - split; [exact H1 | exact H2].
Defined.

Lemma pad_rows_map (f : Z -> Z) (p : Z) (rs : list (list Z)) :
  List.map (List.map f) (pad_rows p rs) = pad_rows (f p) (List.map (List.map f) rs).
Proof.
  unfold pad_rows.
  assert (L : List.map (@length Z) (List.map (List.map f) rs) = List.map (@length Z) rs).
  { rewrite List.map_map. apply map_ext. intros r. apply length_map. }
  rewrite L, !List.map_map.
  apply map_ext. intros r.
  rewrite List.map_app, length_map, List.map_repeat. reflexivity.
Qed.

(** The callback stacks rows of unequal length with the padding index
    -100.  metric_fn turns this padding into the id 0 in the predictions,
    by clipping, and into pad_token_id in the labels, by np.where: the
    arrays it decodes are the valid rows padded with 0 and with
    pad_token_id. *)
Theorem callback_padding_is_decoded_as_zero_and_pad
    (tok : Tokenizer) (preds labels : list (list Z)) :
  1 <= vocab_size tok <= 2 ^ 63 ->
  List.Forall (List.Forall (in_vocabulary tok)) preds ->
  List.Forall (List.Forall (fun id => 0 <= id)) labels ->
  clipped_preds tok (pad_rows (-100) preds) = pad_rows 0 preds /\
  filled_labels tok (pad_rows (-100) labels) = pad_rows (pad_token_id tok) labels.
Proof.
  intros Hv Hp Hl. split.
  - unfold clipped_preds, Numpy.clip. rewrite List.map_map.
    rewrite (map_ext _ (List.map (fun x => Z.min (Z.max (Numpy.astype_int64 x) 0)
                                                  (vocab_size tok - 1)))).
    2:{ intros r. rewrite List.map_map. reflexivity. }
    rewrite pad_rows_map.
    replace (Z.min (Z.max (Numpy.astype_int64 (-100)) 0) (vocab_size tok - 1)) with 0.
    2:{ rewrite astype_int64_id by lia. lia. }
    f_equal.
    rewrite <- (map_id preds) at 2. apply map_ext_in. intros row Hrow.
    rewrite List.Forall_forall in Hp. specialize (Hp row Hrow).
    rewrite <- (map_id row) at 2. apply map_ext_in. intros x Hx.
    rewrite List.Forall_forall in Hp. specialize (Hp x Hx). unfold in_vocabulary in Hp.
    rewrite astype_int64_id by lia. lia.
  - unfold filled_labels, Numpy.where_negative.
    rewrite pad_rows_map. cbn [Z.ltb Z.compare]. f_equal.
    apply (where_negative_id (pad_token_id tok) labels Hl).
Qed.

Lemma callback_padding_is_decoded_as_zero_and_pad_witness :
  clipped_preds example_tokenizer (pad_rows (-100) [[5; 7; 1]; [9; 1]]) = [[5; 7; 1]; [9; 1; 0]] /\
  filled_labels example_tokenizer (pad_rows (-100) [[17; 1]; [4; 4; 1]])
  = [[17; 1; 0]; [4; 4; 1]].
Proof.
  apply (callback_padding_is_decoded_as_zero_and_pad example_tokenizer
           [[5; 7; 1]; [9; 1]] [[17; 1]; [4; 4; 1]]).
  - simpl. lia.
  - repeat constructor; simpl; lia.
  - repeat constructor; lia.
Defined.

(** *** From the loaded frame to the tokenized splits, in a run *)

Lemma renamed_loaded_frame (df : DataFrame) :
  columns df = wanted_columns ->
  (try ds <- rename_column (from_pandas df) (u "abstract") (u "input_text");
   rename_column ds (u "title") (u "target_text"))
  = Ok (three_columns (List.map (fun row => nth 0 row PyNone) (rows df))
                      (List.map (fun row => nth 1 row PyNone) (rows df))
                      (List.map (fun row => nth 2 row PyNone) (rows df))).
Proof.
  intros H. unfold from_pandas. rewrite H. reflexivity.
Qed.

Lemma preprocess_three tok cfg a b c :
  preprocess_function tok cfg (three_columns a b c) =
  if forallb is_str c then
    if forallb is_str b then Ok (tokenized_columns tok cfg c b) else Raise ValueError
  else Raise TypeError.
Proof.
  rewrite preprocess_function_cases.
  change (column (three_columns a b c) (u "input_text")) with (Some c).
  change (column (three_columns a b c) (u "target_text")) with (Some b).
  reflexivity.
Qed.

Lemma map_result_Raise_In {A B} (f : A -> result B) (l : list A) a e :
  In a l -> f a = Raise e -> exists e', map_result f l = Raise e'.
Proof.
  induction l as [|x l IH]; intros Hin Hf; [contradiction|].
  cbn [map_result]. destruct (f x) as [y|e0] eqn:Ex; [|exists e0; reflexivity].
  cbn [rbind]. destruct Hin as [->|Hin]; [congruence|].
  destruct (IH Hin Hf) as [e' ->]. exists e'. reflexivity.
Qed.

Lemma In_chunks {A} k (l : list A) x :
  (0 < k)%nat -> In x l ->
  exists j, (j < length (chunks k l))%nat /\ In x (nth j (chunks k l) []).
Proof.
  intros Hk Hx. rewrite <- (concat_chunks k l Hk) in Hx.
  apply in_concat in Hx as (ch & Hch & Hx).
  apply (In_nth _ _ []) in Hch as (j & Hj & <-).
  exists j. split; assumption.
Qed.

Lemma forallb_In_false {A} (P : A -> bool) l x :
  In x l -> P x = false -> forallb P l = false.
Proof.
  intros Hin Hx. destruct (forallb P l) eqn:E; [|reflexivity].
  rewrite forallb_forall in E. rewrite (E x Hin) in Hx. discriminate.
Qed.

Lemma forallb_false_In {A} (P : A -> bool) l :
  forallb P l = false -> exists x, In x l /\ P x = false.
Proof.
  induction l as [|a l IH]; [discriminate|].
  cbn [forallb]. destruct (P a) eqn:Ea.
  - intros H. destruct (IH H) as (x & Hx & Hp). exists x. split; [now right|exact Hp].
  - intros _. exists a. split; [now left|exact Ea].
Qed.

Lemma batches_three k a b c :
  batches k (three_columns a b c)
  = List.map (fun j => three_columns (nth j (chunks k a) []) (nth j (chunks k b) [])
                                     (nth j (chunks k c) []))
             (seq 0 (length (chunks k (seq 0 (length a))))).
Proof. reflexivity. Qed.

(** A batch with a text that is no string stops [map]. *)
Lemma failing_batch tok cfg a b c :
  length a = length b -> length b = length c ->
  forallb is_str b && forallb is_str c = false ->
  exists e,
    map_result (fun b0 => try out <- preprocess_function tok cfg b0;
                          Ok (merge_batch removed_columns b0 out))
               (batches map_batch_size (three_columns a b c))
    = Raise e.
Proof.
  intros Hab Hbc H.
  assert (Hk : (0 < map_batch_size)%nat) by (unfold map_batch_size; lia).
  assert (Lb : length (chunks map_batch_size b)
               = length (chunks map_batch_size (seq 0 (length a)))).
  { apply chunks_length. rewrite length_seq. congruence. }
  assert (Lc : length (chunks map_batch_size c)
               = length (chunks map_batch_size (seq 0 (length a)))).
  { apply chunks_length. rewrite length_seq. congruence. }
  assert (J : exists j, (j < length (chunks map_batch_size (seq 0 (length a))))%nat /\
                        forallb is_str (nth j (chunks map_batch_size b) [])
                        && forallb is_str (nth j (chunks map_batch_size c) []) = false).
  { apply andb_false_iff in H as [H|H]; apply forallb_false_In in H as (x & Hx & Hs).
    - destruct (In_chunks map_batch_size b x Hk Hx) as (j & Hj & Hin).
      exists j. split; [lia|]. apply andb_false_iff. left.
      exact (forallb_In_false _ _ _ Hin Hs).
    - destruct (In_chunks map_batch_size c x Hk Hx) as (j & Hj & Hin).
      exists j. split; [lia|]. apply andb_false_iff. right.
      exact (forallb_In_false _ _ _ Hin Hs). }
  destruct J as (j & Hj & Hf).
  rewrite batches_three.
  set (bj := three_columns (nth j (chunks map_batch_size a) [])
                           (nth j (chunks map_batch_size b) [])
                           (nth j (chunks map_batch_size c) [])).
  assert (E : exists e, rbind (preprocess_function tok cfg bj)
                              (fun out => Ok (merge_batch removed_columns bj out)) = Raise e).
  { unfold bj. rewrite preprocess_three.
    destruct (forallb is_str (nth j (chunks map_batch_size c) []));
      [|exists TypeError; reflexivity].
    rewrite andb_true_r in Hf. rewrite Hf. exists ValueError. reflexivity. }
  destruct E as [e E].
  eapply (map_result_Raise_In _ _ bj e); [|exact E].
  apply in_map_iff. exists j. split; [reflexivity|]. apply in_seq. lia.
Qed.

Lemma map_batched_three_strings tok cfg a b c out :
  length a = length b -> length b = length c -> a <> [] ->
  map_batched (preprocess_function tok cfg) removed_columns (three_columns a b c) = Ok out ->
  forallb is_str b && forallb is_str c = true.
Proof.
  intros Hab Hbc Ha H. unfold map_batched in H.
  replace (Nat.eqb (num_rows (three_columns a b c)) 0) with false in H
    by (destruct a; [congruence|reflexivity]).
  destruct (forallb is_str b && forallb is_str c) eqn:E; [reflexivity|].
  destruct (failing_batch tok cfg a b c Hab Hbc E) as [e He].
  rewrite He in H. discriminate H.
Qed.

Lemma length_select_records recs idxs :
  List.Forall (fun i => (i < length recs)%nat) idxs ->
  length (select_records recs idxs) = length idxs.
Proof.
  induction 1 as [|i idxs Hi _ IH]; [reflexivity|].
  unfold select_records in *. cbn [flat_map]. rewrite length_app, IH.
  destruct (nth_error recs i) eqn:E; [reflexivity|].
  apply nth_error_None in E. lia.
Qed.

Lemma permutation_in_range (p : list nat) n :
  Permutation p (seq 0 n) -> List.Forall (fun i => (i < n)%nat) p.
Proof.
  intros P. apply List.Forall_forall. intros i Hi.
  eapply Permutation_in in Hi; [|exact P]. apply in_seq in Hi. lia.
Qed.

Lemma Forall_app_l {A} (P : A -> Prop) l l' : List.Forall P (l ++ l') -> List.Forall P l.
Proof.
  rewrite !List.Forall_forall. intros H x Hx. apply H, in_or_app. now left.
Qed.

Lemma Forall_app_r {A} (P : A -> Prop) l l' : List.Forall P (l ++ l') -> List.Forall P l'.
Proof.
  rewrite !List.Forall_forall. intros H x Hx. apply H, in_or_app. now right.
Qed.

(** The picked cells of a column are strings as soon as the column's
    cells at these positions are. *)
Lemma picked_strings (col : list pyval) (p : list nat) :
  forallb is_str (List.map (fun i => nth i col PyNone) p) = true ->
  List.Forall (fun i => is_str (nth i col PyNone) = true) p.
Proof.
  intros H. apply List.Forall_forall. intros i Hi.
  rewrite forallb_forall in H. apply H. apply in_map_iff. exists i. auto.
Qed.

Lemma column_strings (col : list pyval) :
  List.Forall (fun i => is_str (nth i col PyNone) = true) (seq 0 (length col)) ->
  List.Forall (fun v => is_str v = true) col.
Proof.
  intros H. apply List.Forall_forall. intros v Hv.
  apply (In_nth _ _ PyNone) in Hv as (i & Hi & <-).
  rewrite List.Forall_forall in H. apply H. apply in_seq. lia.
Qed.

Lemma frame_of_rows (df : DataFrame) :
  columns df = wanted_columns ->
  index df = range (length (rows df)) ->
  List.Forall (fun row => length row = 3%nat) (rows df) ->
  List.Forall (fun v => is_str v = true) (List.map (fun row => nth 1 row PyNone) (rows df)) ->
  List.Forall (fun v => is_str v = true) (List.map (fun row => nth 2 row PyNone) (rows df)) ->
  df = frame_of (List.map rec_of_row (rows df)).
Proof.
  destruct df as [cols ix rws]. cbn [columns index rows].
  intros -> -> H3 H1 H2. unfold frame_of. rewrite length_map. f_equal.
  rewrite List.map_map. rewrite <- (map_id rws) at 1.
  apply map_ext_in. intros row Hrow.
  rewrite List.Forall_forall in H3, H1, H2.
  specialize (H3 row Hrow).
  specialize (H1 (nth 1 row PyNone) (in_map (fun row => nth 1 row PyNone) _ _ Hrow)).
  specialize (H2 (nth 2 row PyNone) (in_map (fun row => nth 2 row PyNone) _ _ Hrow)).
  destruct row as [|x [|y [|z [|? ?]]]]; try discriminate H3.
  cbn [nth] in *. unfold rec_of_row. cbn [nth rec_id rec_title rec_abstract].
  destruct y; try discriminate H1. destruct z; try discriminate H2. reflexivity.
Qed.

Lemma dataset_of_rows (rws : list (list pyval)) :
  List.Forall (fun v => is_str v = true) (List.map (fun row => nth 1 row PyNone) rws) ->
  List.Forall (fun v => is_str v = true) (List.map (fun row => nth 2 row PyNone) rws) ->
  three_columns (List.map (fun row => nth 0 row PyNone) rws)
                (List.map (fun row => nth 1 row PyNone) rws)
                (List.map (fun row => nth 2 row PyNone) rws)
  = dataset_of (List.map rec_of_row rws).
Proof.
  intros H1 H2. unfold three_columns, dataset_of. rewrite !List.map_map.
  rewrite List.Forall_forall in H1, H2.
  assert (E1 : List.map (fun row => nth 1 row PyNone) rws
               = List.map (fun x => PyStr (rec_title (rec_of_row x))) rws).
  { apply map_ext_in. intros row Hrow.
    specialize (H1 _ (in_map (fun row => nth 1 row PyNone) _ _ Hrow)).
    unfold rec_of_row. cbn [rec_title]. destruct (nth 1 row PyNone); try discriminate H1.
    reflexivity. }
  assert (E2 : List.map (fun row => nth 2 row PyNone) rws
               = List.map (fun x => PyStr (rec_abstract (rec_of_row x))) rws).
  { apply map_ext_in. intros row Hrow.
    specialize (H2 _ (in_map (fun row => nth 2 row PyNone) _ _ Hrow)).
    unfold rec_of_row. cbn [rec_abstract]. destruct (nth 2 row PyNone); try discriminate H2.
    reflexivity. }
  rewrite E1, E2. reflexivity.
Qed.

Lemma load_cell_shape text df :
  load_cell text = Ok df ->
  columns df = wanted_columns /\
  index df = range (length (rows df)) /\
  List.Forall (fun row => length row = 3%nat) (rows df).
Proof.
  intros H. apply load_cell_Ok in H as (records & _ & H).
  apply build_frame_Ok in H as (Hc & Hi & Hr).
  split; [exact Hc|]. split; [exact Hi|].
  rewrite Hr. apply List.Forall_forall. intros row Hrow.
  apply filter_In in Hrow as [Hrow _]. apply in_map_iff in Hrow as (r & <- & _).
  apply row_of_length.
Qed.

(** What a run that completes has made of the frame: the records of the
    frame have string titles and abstracts, the two splits are the renamed
    datasets of two selections of records that share no row position and
    together take every row, and the tokenized splits are their
    tokenizations. *)
Lemma run_datasets lib cfg env fs st out :
  run lib cfg env fs = (st, Ok out) ->
  exists (recs : list text_record) (p_train p_test : list nat),
    out_df out = frame_of recs /\
    Permutation (p_test ++ p_train) (seq 0 (length recs)) /\
    length p_test
    = Z.to_nat (Qceiling (TRAIN_TEST_SPLIT cfg * inject_Z (Z.of_nat (length recs)))) /\
    (200 <= length p_test)%nat /\
    (0 < length p_train)%nat /\
    out_splits out
    = (dataset_of (select_records recs p_train), dataset_of (select_records recs p_test)) /\
    out_tokenized_splits out
    = (tokenized_of (out_tokenizer out) cfg (select_records recs p_train),
       tokenized_of (out_tokenizer out) cfg (select_records recs p_test)).
Proof.
  intros H.
  apply run_Ok in H as (_ & text & ds1 & ds2 & model0 & sel & H).
  destruct H as (_ & Hload & Hr1 & Hr2 & Hsplit & _ & _ & Hmt & Hms & _ & _ & Hsel & Hgen & _).
  apply load_cell_shape in Hload as (Hc & Hi & H3).
  pose proof (renamed_loaded_frame (out_df out) Hc) as Hds.
  rewrite Hr1 in Hds. cbn [rbind] in Hds. rewrite Hr2 in Hds. injection Hds as ->.
  set (rws := rows (out_df out)) in *.
  set (A := List.map (fun row => nth 0 row PyNone) rws) in *.
  set (B := List.map (fun row => nth 1 row PyNone) rws) in *.
  set (C := List.map (fun row => nth 2 row PyNone) rws) in *.
  assert (LA : length A = length rws) by apply length_map.
  assert (LB : length B = length rws) by apply length_map.
  assert (LC : length C = length rws) by apply length_map.
  destruct (out_splits out) as [train test] eqn:Es.
  destruct (out_tokenized_splits out) as [ttrain ttest] eqn:Et.
  cbn [fst snd] in *.
  apply train_test_split_Ok in Hsplit as (p_train & p_test & -> & -> & HP & Hnt & Hpos & Hsum).
  change (num_rows (three_columns A B C)) with (length A) in *.
  rewrite LA in *.
  pose proof (permutation_in_range _ _ HP) as Hrange.
  pose proof (Forall_app_l _ _ _ Hrange) as Rtest.
  pose proof (Forall_app_r _ _ _ Hrange) as Rtrain.
  destruct (generation_dataset_rows lib _ _ _ _ Hsel Hgen) as (H200 & _).
  change (take_rows p_train (three_columns A B C))
    with (three_columns (List.map (fun i => nth i A PyNone) p_train)
                        (List.map (fun i => nth i B PyNone) p_train)
                        (List.map (fun i => nth i C PyNone) p_train)) in Hmt.
  change (take_rows p_test (three_columns A B C))
    with (three_columns (List.map (fun i => nth i A PyNone) p_test)
                        (List.map (fun i => nth i B PyNone) p_test)
                        (List.map (fun i => nth i C PyNone) p_test)) in Hms.
  assert (Ntest : p_test <> []).
  { intros ->. cbn in Hms. injection Hms as <-. cbn in H200. lia. }
  assert (Ntrain : p_train <> []) by (intros ->; cbn in Hpos; lia).
  assert (Strain : forallb is_str (List.map (fun i => nth i B PyNone) p_train)
                   && forallb is_str (List.map (fun i => nth i C PyNone) p_train) = true).
  { refine (map_batched_three_strings _ _ _ _ _ _ _ _ _ Hmt).
    - rewrite !length_map. reflexivity.
    - rewrite !length_map. reflexivity.
    - destruct p_train; [congruence|discriminate]. }
  assert (Stest : forallb is_str (List.map (fun i => nth i B PyNone) p_test)
                  && forallb is_str (List.map (fun i => nth i C PyNone) p_test) = true).
  { refine (map_batched_three_strings _ _ _ _ _ _ _ _ _ Hms).
    - rewrite !length_map. reflexivity.
    - rewrite !length_map. reflexivity.
    - destruct p_test; [congruence|discriminate]. }
  apply andb_true_iff in Strain as [SBt SCt]. apply andb_true_iff in Stest as [SBs SCs].
  assert (SB : List.Forall (fun v => is_str v = true) B).
  { apply column_strings. rewrite LB.
    eapply Permutation_Forall; [exact HP|].
    apply List.Forall_app. split; apply picked_strings; assumption. }
  assert (SC : List.Forall (fun v => is_str v = true) C).
  { apply column_strings. rewrite LC.
    eapply Permutation_Forall; [exact HP|].
    apply List.Forall_app. split; apply picked_strings; assumption. }
  set (recs := List.map rec_of_row rws).
  assert (Lr : length recs = length rws) by apply length_map.
  exists recs, p_train, p_test.
  split; [apply frame_of_rows; assumption|].
  rewrite Lr. split; [exact HP|]. split; [exact Hnt|].
  assert (Eds : three_columns A B C = dataset_of recs) by (apply dataset_of_rows; assumption).
  assert (Etrain : three_columns (List.map (fun i => nth i A PyNone) p_train)
                                 (List.map (fun i => nth i B PyNone) p_train)
                                 (List.map (fun i => nth i C PyNone) p_train)
                   = dataset_of (select_records recs p_train)).
  { change (take_rows p_train (three_columns A B C) = dataset_of (select_records recs p_train)).
    rewrite Eds. apply take_rows_dataset_of. rewrite Lr. exact Rtrain. }
  assert (Etest : three_columns (List.map (fun i => nth i A PyNone) p_test)
                                (List.map (fun i => nth i B PyNone) p_test)
                                (List.map (fun i => nth i C PyNone) p_test)
                  = dataset_of (select_records recs p_test)).
  { change (take_rows p_test (three_columns A B C) = dataset_of (select_records recs p_test)).
    rewrite Eds. apply take_rows_dataset_of. rewrite Lr. exact Rtest. }
  rewrite Etrain in Hmt. rewrite Etest in Hms.
  rewrite map_batched_dataset_of in Hmt.
  2:{ intros E. apply (f_equal (@length _)) in E.
      rewrite length_select_records in E by (rewrite Lr; exact Rtrain).
      destruct p_train; [congruence|discriminate E]. }
  rewrite map_batched_dataset_of in Hms.
  2:{ intros E. apply (f_equal (@length _)) in E.
      rewrite length_select_records in E by (rewrite Lr; exact Rtest).
      destruct p_test; [congruence|discriminate E]. }
  injection Hmt as <-. injection Hms as <-.
  assert (Ltest : num_rows (tokenized_of (out_tokenizer out) cfg (select_records recs p_test))
                  = length p_test).
  { cbn [num_rows tokenized_of]. rewrite length_map.
    apply length_select_records. rewrite Lr. exact Rtest. }
  rewrite Ltest in H200.
  split; [exact H200|]. split; [exact Hpos|].
  split; [|reflexivity].
  f_equal; [exact Etrain | exact Etest].
Qed.

(** *** Properties of a run that completes *)

Lemma ceiling_tenth (z : Z) : Qceiling ((1 # 10) * inject_Z z) = - ((- z) / 10).
Proof.
  unfold Qceiling, Qfloor, Qopp, Qmult, inject_Z. cbn [Qnum Qden].
  rewrite Z.mul_1_l. reflexivity.
Qed.

Lemma num_rows_tokenized_of tok cfg recs : num_rows (tokenized_of tok cfg recs) = length recs.
Proof. cbn [num_rows tokenized_of]. apply length_map. Qed.

(** The tokenized splits have the rows of the splits: the test split
    ceil(TRAIN_TEST_SPLIT * n) of the n rows of [df], the train split the
    others.  The generation dataset takes 200 rows of the test split, so
    a run completes only when the test split has 200 rows or more: with
    the notebook's ratio of 0.1, only when [df] has at least 1,991
    rows. *)
Theorem a_run_needs_200_test_rows
    (lib : Library) (cfg : Config) (env fs : gmap pystr pystr)
    (st : NbState) (out : Outcome lib) :
  run lib cfg env fs = (st, Ok out) ->
  let n := len (out_df out) in
  let train := fst (out_tokenized_splits out) in
  let test := snd (out_tokenized_splits out) in
  num_rows test = Z.to_nat (Qceiling (TRAIN_TEST_SPLIT cfg * inject_Z n)) /\
  (200 <= num_rows test)%nat /\
  (0 < num_rows train)%nat /\
  Z.of_nat (num_rows train) + Z.of_nat (num_rows test) = n /\
  (TRAIN_TEST_SPLIT cfg = 1 # 10 -> 1991 <= n).
Proof.
  intros H n train test.
  apply run_datasets in H
    as (recs & p_train & p_test & Hdf & HP & Hnt & H200 & Hpos & _ & Htok).
  pose proof (permutation_in_range _ _ HP) as Hrange.
  pose proof (Forall_app_l _ _ _ Hrange) as Rtest.
  pose proof (Forall_app_r _ _ _ Hrange) as Rtrain.
  pose proof (Permutation_length HP) as HL. rewrite length_app, length_seq in HL.
  assert (En : n = Z.of_nat (length recs)).
  { unfold n, len. rewrite Hdf. cbn [rows frame_of]. rewrite length_map. reflexivity. }
  assert (Etest : num_rows test = length p_test).
  { unfold test. rewrite Htok. cbn [snd].
    rewrite num_rows_tokenized_of. apply length_select_records. exact Rtest. }
  assert (Etrain : num_rows train = length p_train).
  { unfold train. rewrite Htok. cbn [fst].
    rewrite num_rows_tokenized_of. apply length_select_records. exact Rtrain. }
  rewrite Etest, Etrain, En.
  split; [exact Hnt|]. split; [exact H200|]. split; [exact Hpos|]. split; [lia|].
  intros Hts. rewrite Hts, ceiling_tenth in Hnt.
  pose proof (Z.div_mod (- Z.of_nat (length recs)) 10 ltac:(lia)) as D.
  pose proof (Z.mod_pos_bound (- Z.of_nat (length recs)) 10 ltac:(lia)) as M.
  lia.
Qed.

Lemma a_run_needs_200_test_rows_witness :
  exists st out,
    run example_library small_config ∅ example_files = (st, Ok out) /\
    (200 <= num_rows (snd (out_tokenized_splits out)))%nat /\
    1991 <= len (out_df out).
Proof.
  destruct example_outcome as (st & out & E).
  exists st, out. split; [exact E|].
  destruct (a_run_needs_200_test_rows _ _ _ _ _ _ E) as (_ & H200 & _ & _ & H).
  split; [exact H200|]. apply H. reflexivity.
Defined.



Lemma fold_max_le (m : nat) (l : list nat) :
  List.Forall (fun k => (k <= m)%nat) l -> (fold_right Nat.max 0 l <= m)%nat.
Proof.
  induction 1 as [|k l Hk _ IH]; cbn [fold_right]; lia.
Qed.

Lemma pad_rows_same_length (m : nat) (p : Z) (rs : list (list Z)) :
  List.Forall (fun r => length r = m) rs -> pad_rows p rs = rs.
Proof.
  intros H. unfold pad_rows.
  assert (M : (fold_right Nat.max 0 (List.map (@length Z) rs) <= m)%nat).
  { apply fold_max_le. apply List.Forall_forall. intros k Hk.
    apply in_map_iff in Hk as (r & <- & Hr).
    rewrite List.Forall_forall in H. rewrite (H r Hr). lia. }
  rewrite <- (map_id rs) at 2. apply map_ext_in. intros r Hr.
  rewrite List.Forall_forall in H. rewrite (H r Hr).
  replace (fold_right Nat.max 0 (List.map (@length Z) rs) - m)%nat with 0%nat by lia.
  apply app_nil_r.
Qed.

Lemma Forall_pad_to (P : Z -> Prop) n pad ids :
  P pad -> List.Forall P ids -> List.Forall P (pad_to n pad ids).
Proof.
  intros Hp Hi. unfold pad_to. apply List.Forall_app. split; [exact Hi|].
  apply List.Forall_forall. intros x Hx. apply repeat_spec in Hx. now subst.
Qed.

Lemma map_select_records {B} (g : nat -> B) (f : text_record -> B) recs idxs :
  List.Forall (fun i => (i < length recs)%nat) idxs ->
  (forall i r, nth_error recs i = Some r -> g i = f r) ->
  List.map g idxs = List.map f (select_records recs idxs).
Proof.
  intros H Hg. induction H as [|i idxs Hi _ IH]; [reflexivity|].
  unfold select_records in *. cbn [List.map flat_map]. rewrite List.map_app, <- IH.
  destruct (nth_error recs i) as [r|] eqn:E; [|apply nth_error_None in E; lia].
  cbn [List.map app]. rewrite (Hg i r E). reflexivity.
Qed.

Lemma generation_labels lib cfg env fs st out :
  run lib cfg env fs = (st, Ok out) ->
  exists recs : list text_record,
    concat (List.map labels (out_generation_dataset out))
    = List.map (fun r => pad_to (MAX_TARGET_LENGTH cfg) (pad_token_id (out_tokenizer out))
                           (encode_target (out_tokenizer out) (rec_title r)
                                          (MAX_TARGET_LENGTH cfg))) recs /\
    length recs = 200%nat.
Proof.
  intros H. pose proof (run_datasets _ _ _ _ _ _ H)
    as (recs & p_train & p_test & _ & HP & _ & _ & _ & _ & Htok).
  apply run_Ok in H as (_ & text & ds1 & ds2 & model0 & sel & H).
  destruct H as (_ & _ & _ & _ & _ & _ & _ & _ & _ & _ & _ & Hsel & Hgen & _).
  destruct (generation_dataset_rows lib _ _ _ _ Hsel Hgen) as (H200 & _ & _ & Hl).
  destruct (generation_rows_spec lib _ H200) as (HL & _ & Hin).
  rewrite Htok in *. cbn [snd] in *.
  set (tok := out_tokenizer out) in *.
  set (test := select_records recs p_test) in *.
  rewrite num_rows_tokenized_of in Hin.
  assert (R : List.Forall (fun i => (i < length test)%nat)
                          (generation_rows lib (tokenized_of tok cfg test))).
  { apply List.Forall_forall. exact Hin. }
  exists (select_records test (generation_rows lib (tokenized_of tok cfg test))).
  split.
  - rewrite Hl. apply map_select_records; [exact R|].
    intros j r E. unfold example_at.
    change (column (tokenized_of tok cfg test) (u "labels"))
      with (Some (List.map (fun r => ids_cell (pad_to (MAX_TARGET_LENGTH cfg) (pad_token_id tok)
                    (encode_target tok (rec_title r) (MAX_TARGET_LENGTH cfg)))) test)).
    cbv beta iota.
    rewrite (nth_error_nth _ _ PyNone (map_nth_error _ _ _ E)).
    apply cell_ids_cell.
  - rewrite length_select_records; [exact HL | exact R].
Qed.

(** The labels are padded by the tokenizer, to MAX_TARGET_LENGTH and with
    pad_token_id, not with -100.  So for a tokenizer whose ids are not
    negative, every label row of the generation dataset has
    MAX_TARGET_LENGTH ids and none is negative; the callback, which pads
    rows of unequal length with -100, pads nothing; and the np.where of
    metric_fn changes nothing: the references that are decoded are the
    label rows as they stand in the dataset. *)
Theorem generation_labels_hold_no_masked_position
    (lib : Library) (cfg : Config) (env fs : gmap pystr pystr)
    (st : NbState) (out : Outcome lib) :
  run lib cfg env fs = (st, Ok out) ->
  (forall text n, List.Forall (fun id => 0 <= id) (encode_target (out_tokenizer out) text n)) ->
  0 <= pad_token_id (out_tokenizer out) ->
  0 <= MAX_TARGET_LENGTH cfg ->
  let rows := concat (List.map labels (out_generation_dataset out)) in
  List.Forall (fun r => Z.of_nat (length r) = MAX_TARGET_LENGTH cfg /\
                        List.Forall (fun id => 0 <= id) r) rows /\
  pad_rows (-100) rows = rows /\
  filled_labels (out_tokenizer out) (pad_rows (-100) rows) = rows.
Proof.
  intros H Henc Hpad Hmax rows.
  apply generation_labels in H as (recs & Hrows & _). fold rows in Hrows.
  assert (F : List.Forall (fun r => Z.of_nat (length r) = MAX_TARGET_LENGTH cfg /\
                                   List.Forall (fun id => 0 <= id) r) rows).
  { rewrite Hrows. apply List.Forall_forall. intros r Hr.
    apply in_map_iff in Hr as (x & <- & _). split.
    - apply length_pad_to. apply encode_target_length. exact Hmax.
    - apply Forall_pad_to; [exact Hpad | apply Henc]. }
  assert (P : pad_rows (-100) rows = rows).
  { apply (pad_rows_same_length (Z.to_nat (MAX_TARGET_LENGTH cfg))).
    eapply List.Forall_impl; [|exact F]. cbn beta. intros r [Hr _]. lia. }
  split; [exact F|]. split; [exact P|].
  rewrite P. unfold filled_labels. apply where_negative_id.
  eapply List.Forall_impl; [|exact F]. cbn beta. tauto.
Qed.

Lemma example_encode_nonneg text n : List.Forall (fun id => 0 <= id) (example_encode text n).
Proof.
  unfold example_encode. apply List.Forall_forall. intros x Hx.
  apply In_take in Hx. apply in_app_or in Hx as [Hx|[<-|[]]]; [|lia].
  apply in_map_iff in Hx as (c & <- & _). lia.
Qed.

Lemma generation_labels_hold_no_masked_position_witness :
  exists st out,
    run example_library small_config ∅ example_files = (st, Ok out) /\
    filled_labels (out_tokenizer out)
      (pad_rows (-100) (concat (List.map labels (out_generation_dataset out))))
    = concat (List.map labels (out_generation_dataset out)).
Proof.
  destruct example_outcome as (st & out & E).
  exists st, out. split; [exact E|].
  assert (T : out_tokenizer out = example_tokenizer).
  { apply run_Ok in E as (_ & ? & ? & ? & ? & ? & E).
    destruct E as (_ & _ & _ & _ & _ & T & _). injection T as T. symmetry. exact T. }
  destruct (generation_labels_hold_no_masked_position _ _ _ _ _ _ E) as (_ & _ & H).
  - rewrite T. apply example_encode_nonneg.
  - rewrite T. simpl. lia.
  - simpl. lia.
  - exact H.
Defined.



(** *** The batches of the tf.data datasets (cell b6510686) *)

Lemma chunks_fuel_Forall_length {A} k : forall fuel (l : list A),
  List.Forall (fun c => (length c <= k)%nat) (chunks_fuel fuel k l).
Proof.
  induction fuel as [|f IH]; intros l; cbn [chunks_fuel]; [constructor|].
  destruct l; [constructor|]. constructor; [rewrite length_take; lia | apply IH].
Qed.

Lemma nth_chunk_length {A} k b (l : list A) : (length (nth b (chunks k l) []) <= k)%nat.
Proof.
  destruct (Nat.lt_ge_cases b (length (chunks k l))) as [H|H].
  - pose proof (chunks_fuel_Forall_length k (length l) l) as F.
    rewrite List.Forall_forall in F. apply F. apply nth_In. exact H.
  - rewrite nth_overflow by exact H. cbn. lia.
Qed.

Lemma chunks_fuel_same_length {A B} k : forall fuel (l : list A) (l' : list B) b,
  length l = length l' ->
  length (nth b (chunks_fuel fuel k l) []) = length (nth b (chunks_fuel fuel k l') []).
Proof.
  induction fuel as [|f IH]; intros l l' b H; cbn [chunks_fuel].
  - destruct b; reflexivity.
  - destruct l as [|a l], l' as [|a' l']; try discriminate H; [destruct b; reflexivity|].
    destruct b as [|b]; cbn [nth].
    + rewrite !length_take, H. reflexivity.
    + apply IH. rewrite !length_drop, H. reflexivity.
Qed.

Lemma chunks_same_length {A B} k (l : list A) (l' : list B) b :
  length l = length l' ->
  length (nth b (chunks k l) []) = length (nth b (chunks k l') []).
Proof.
  intros H. unfold chunks. rewrite H. apply chunks_fuel_same_length. exact H.
Qed.

(** The batches of [to_tf_dataset], put one after the other, are the rows
    in the order they were asked for, with the ids, the mask and the
    labels of a row at the same place; no batch has more than
    [batch_size] rows. *)
Lemma to_tf_dataset_rows order batch_size (ds : Dataset) bs :
  to_tf_dataset order batch_size ds = Ok bs ->
  0 < batch_size /\
  concat (List.map input_ids bs)
    = List.map (example_at ds (u "input_ids")) (order (num_rows ds)) /\
  concat (List.map attention_mask bs)
    = List.map (example_at ds (u "attention_mask")) (order (num_rows ds)) /\
  concat (List.map labels bs)
    = List.map (example_at ds (u "labels")) (order (num_rows ds)) /\
  List.Forall (fun b => Z.of_nat (length (input_ids b)) <= batch_size /\
                        length (attention_mask b) = length (input_ids b) /\
                        length (labels b) = length (input_ids b)) bs.
Proof.
  intros H. unfold to_tf_dataset, getitem in H. unfold example_at.
  destruct (column ds (u "input_ids")) as [ii|]; [|discriminate H].
  destruct (column ds (u "attention_mask")) as [am|]; [|discriminate H].
  destruct (column ds (u "labels")) as [lb|]; [|discriminate H].
  cbn [rbind] in H.
  destruct (batch_size <=? 0) eqn:Hb; [discriminate|].
  apply Z.leb_gt in Hb. injection H as <-.
  set (idxs := order (num_rows ds)).
  set (k := Z.to_nat batch_size).
  assert (Hk : (0 < k)%nat) by (unfold k; lia).
  assert (C : forall vs : list pyval,
             concat (List.map (fun b => List.map cell_ids
                                          (nth b (chunks k (List.map (fun i => nth i vs PyNone) idxs)) []))
                              (seq 0 (length (chunks k idxs))))
             = List.map (fun i => cell_ids (nth i vs PyNone)) idxs).
  { intros vs.
    rewrite (chunks_length k idxs (seq 0 (length idxs))) by now rewrite length_seq.
    rewrite (concat_batch_column cell_ids k (length idxs)); [apply List.map_map|exact Hk|].
    apply length_map. }
  split; [exact Hb|].
  rewrite !List.map_map. cbn [input_ids attention_mask labels make_batch].
  split; [apply C|]. split; [apply C|]. split; [apply C|].
  apply List.Forall_forall. intros b Hbin. apply in_map_iff in Hbin as (j & <- & _).
  cbn [input_ids attention_mask labels make_batch]. rewrite !length_map.
  split.
  - pose proof (nth_chunk_length k j (List.map (fun i => nth i ii PyNone) idxs)).
    unfold k in *. lia.
  - split; apply chunks_same_length; rewrite !length_map; reflexivity.
Qed.

(** In a run that completes, BATCH_SIZE is positive and none of the
    batches of the three datasets has more rows than that.  The batches
    of the test dataset, one after the other, are the rows of the
    tokenized test split in their order (shuffle=False); those of the
    train dataset are the rows of the tokenized train split in another
    order (shuffle=True), each row once, with its ids, its mask and its
    labels together. *)
Theorem batches_hold_every_row_once
    (lib : Library) (cfg : Config) (env fs : gmap pystr pystr)
    (st : NbState) (out : Outcome lib) :
  run lib cfg env fs = (st, Ok out) ->
  let train := fst (out_tokenized_splits out) in
  let test := snd (out_tokenized_splits out) in
  0 < BATCH_SIZE cfg /\
  (exists order : list nat,
     Permutation order (seq 0 (num_rows train)) /\
     concat (List.map input_ids (out_train_dataset out))
       = List.map (example_at train (u "input_ids")) order /\
     concat (List.map attention_mask (out_train_dataset out))
       = List.map (example_at train (u "attention_mask")) order /\
     concat (List.map labels (out_train_dataset out))
       = List.map (example_at train (u "labels")) order) /\
  (concat (List.map input_ids (out_test_dataset out))
     = List.map (example_at test (u "input_ids")) (seq 0 (num_rows test)) /\
   concat (List.map attention_mask (out_test_dataset out))
     = List.map (example_at test (u "attention_mask")) (seq 0 (num_rows test)) /\
   concat (List.map labels (out_test_dataset out))
     = List.map (example_at test (u "labels")) (seq 0 (num_rows test))) /\
  List.Forall (fun b => Z.of_nat (length (input_ids b)) <= BATCH_SIZE cfg /\
                        length (attention_mask b) = length (input_ids b) /\
                        length (labels b) = length (input_ids b))
              (out_train_dataset out ++ out_test_dataset out ++ out_generation_dataset out).
Proof.
  intros H train test.
  apply run_Ok in H as (_ & text & ds1 & ds2 & model0 & sel & H).
  destruct H as (_ & _ & _ & _ & _ & _ & _ & _ & _ & Htrain & Htest & _ & Hgen & _).
  apply to_tf_dataset_rows in Htrain as (Hb & T1 & T2 & T3 & TF).
  apply to_tf_dataset_rows in Htest as (_ & S1 & S2 & S3 & SF).
  apply to_tf_dataset_rows in Hgen as (_ & _ & _ & _ & GF).
  split; [exact Hb|]. split; [|split].
  - exists (tf_order lib (num_rows train)).
    split; [apply tf_order_spec|]. auto.
  - auto.
  - apply List.Forall_app. split; [exact TF|]. apply List.Forall_app. split; assumption.
Qed.

Lemma batches_hold_every_row_once_witness :
  exists st out,
    run example_library small_config ∅ example_files = (st, Ok out) /\
    concat (List.map labels (out_test_dataset out))
    = List.map (example_at (snd (out_tokenized_splits out)) (u "labels"))
               (seq 0 (num_rows (snd (out_tokenized_splits out)))) /\
    List.Forall (fun b => Z.of_nat (length (input_ids b)) <= 8) (out_train_dataset out).
Proof.
  destruct example_outcome as (st & out & E).
  exists st, out. split; [exact E|].
  destruct (batches_hold_every_row_once _ _ _ _ _ _ E) as (_ & _ & (_ & _ & S3) & F).
  split; [exact S3|].
  apply Forall_app_l in F. eapply List.Forall_impl; [|exact F].
  cbn beta. intros b (Hb & _). exact Hb.
Defined.

(** *** A snapshot that does not load *)

(** When the loading cell fails on the snapshot, with a line that does
    not decode or with a list of records that gives no frame, the run
    ends there with the exception of the loading cell: the statements
    executed are those up to the with-block, followed by the
    construction of the frame when it is the one that fails.  Nothing is
    tokenized, no checkpoint is asked for, nothing is trained. *)
Theorem load_failure_ends_the_run
    (lib : Library) (cfg : Config) (env fs : gmap pystr pystr) (text : pystr) (e : exn) :
  fs !! snapshot_path = Some text ->
  load_cell text = Raise e ->
  snd (run lib cfg env fs) = Raise e /\
  (executed (fst (run lib cfg env fs))
   = [ s_setLevel;
       s_environ_set (u "TOKENIZERS_PARALLELISM") (u "false");
       s_open snapshot_path (u "r") (u "utf-8") ] \/
   executed (fst (run lib cfg env fs))
   = [ s_setLevel;
       s_environ_set (u "TOKENIZERS_PARALLELISM") (u "false");
       s_open snapshot_path (u "r") (u "utf-8");
       s_DataFrame ]).
Proof.
  intros Hf Hl. unfold load_cell in Hl.
  destruct (run lib cfg env fs) as [st r] eqn:H. cbn [fst snd].
  nb_unfold H.
  repeat first
    [ rewrite bind_bind in H | rewrite bind_ret in H | rewrite bind_environ_set in H
    | rewrite bind_open_read in H | rewrite bind_lift in H | rewrite bind_call in H
    | progress cbv beta iota in H
    | progress cbn [files record initial_state] in H
    | rewrite Hf in H ].
  destruct (read_records (readlines text)) as [records|e1]; cbn [rbind] in Hl.
  - repeat first
      [ rewrite bind_bind in H | rewrite bind_ret in H | rewrite bind_call in H
      | progress cbv beta iota in H ].
    rewrite Hl in H.
    injection H as <- <-. split; [reflexivity|]. right. reflexivity.
  - injection Hl as ->.
    injection H as <- <-. split; [reflexivity|]. left. reflexivity.
Qed.

Lemma load_failure_ends_the_run_witness :
  snd (run example_library small_config ∅ {[ snapshot_path := malformed_file ]})
  = Raise JSONDecodeError /\
  snd (run example_library small_config ∅ {[ snapshot_path := no_abstract_file ]})
  = Raise KeyError.
Proof.
  split.
  - apply (load_failure_ends_the_run example_library small_config ∅
             {[ snapshot_path := malformed_file ]} malformed_file JSONDecodeError);
      reflexivity.
  - apply (load_failure_ends_the_run example_library small_config ∅
             {[ snapshot_path := no_abstract_file ]} no_abstract_file KeyError);
      reflexivity.
Defined.
